(** * capibot-voice-service: the transcription request pipeline

    A shallow embedding of [app/auth.py], [app/config.py], [app/main.py],
    [app/services/transcription.py] and [app/services/webhook.py], and the
    properties of the pipeline proved over it.

    Conventions.
    - A Python [str] is a [string] of code points below 256, one [ascii]
      for each: the strings a header decoded as Latin-1 can hold, and
      among them every configured MIME type and extension.  [isspace] and
      [lower] are Python's on that range, which [lower] does not leave.
    - [Optional[str]] is [option string]; Python truthiness is [truthy].
    - An exception is a value of [exn]; code that may raise returns a
      [Result].
    - Calls to the outside (the store and its clock, the speech engine,
      the webhook endpoint, the temporary directory) are answered by
      oracles collected in two environment records, [auth.StoreEnv] and
      [Env].
    - What a request does to the outside is recorded as a list of events,
      so that "the engine is not called" is a statement about that list. *)

From Stdlib Require Import List String Ascii ZArith NArith Lia Bool Arith.
From Stdlib Require Import DecimalString SpecFloat.
Import ListNotations.
Local Open Scope string_scope.

(** ** Python strings *)

Module Py.

Definition chars (s : string) : list ascii := list_ascii_of_string s.
Definition str (l : list ascii) : string := string_of_list_ascii l.

(** [str.isspace] on the code points below 256: 9..13, 28..31 and 32
    (CPython's [_Py_ascii_whitespace]), and above 127 the two that
    [_PyUnicode_IsWhitespace] accepts there, U+0085 (next line) and U+00A0
    (no-break space). *)
Definition isspace (c : ascii) : bool :=
  let n := nat_of_ascii c in
  (((9 <=? n) && (n <=? 13)) || ((28 <=? n) && (n <=? 32)) ||
   (n =? 133) || (n =? 160))%nat.

(** The code points below 256 that [str.lower] changes: A..Z, and the
    capital letters of Latin-1, U+00C0..U+00DE without the multiplication
    sign U+00D7.  Each moves up by 32. *)
Definition is_upper (c : ascii) : bool :=
  let n := nat_of_ascii c in
  (((65 <=? n) && (n <=? 90)) ||
   ((192 <=? n) && (n <=? 222) && negb (n =? 215)))%nat.

Definition lower_char (c : ascii) : ascii :=
  if is_upper c then ascii_of_nat (nat_of_ascii c + 32) else c.

(** [str.lower] *)
Definition lower (s : string) : string := str (map lower_char (chars s)).

Fixpoint dropwhile {A} (p : A -> bool) (l : list A) : list A :=
  match l with
  | [] => []
  | x :: r => if p x then dropwhile p r else l
  end.

(** [str.strip()] with no argument *)
Definition strip_chars (l : list ascii) : list ascii :=
  rev (dropwhile isspace (rev (dropwhile isspace l))).

Definition strip (s : string) : string := str (strip_chars (chars s)).

(** truthiness of a [str] and of an [Optional[str]] *)
Definition nonempty (s : string) : bool :=
  match s with EmptyString => false | _ => true end.

Definition truthy (o : option string) : bool :=
  match o with Some s => nonempty s | None => false end.

(** [x or y] on [Optional[str]] *)
Definition or_ (x y : option string) : option string :=
  if truthy x then x else y.

(** [x in l] for a list of strings *)
Definition mem (x : string) (l : list string) : bool :=
  existsb (String.eqb x) l.

(** [needle in s] for strings *)
Fixpoint is_prefix (p l : list ascii) : bool :=
  match p, l with
  | [], _ => true
  | _ :: _, [] => false
  | a :: p', b :: l' => Ascii.eqb a b && is_prefix p' l'
  end.

Fixpoint contains_chars (p l : list ascii) : bool :=
  is_prefix p l ||
  match l with
  | [] => false
  | _ :: l' => contains_chars p l'
  end.

Definition contains (needle s : string) : bool :=
  contains_chars (chars needle) (chars s).

(** [str(n)] for an [int] *)
Definition str_of_int (z : Z) : string := NilZero.string_of_int (Z.to_int z).

(** [s.rfind(c)]: index of the last occurrence, [-1] when there is none *)
Fixpoint rfind_from (c : ascii) (l : list ascii) (i : Z) (last : Z) : Z :=
  match l with
  | [] => last
  | x :: r => rfind_from c r (i + 1) (if Ascii.eqb x c then i else last)
  end.

Definition rfind (c : ascii) (l : list ascii) : Z := rfind_from c l 0 (-1).

(** [posixpath.splitext] ([genericpath._splitext] with [sep = "/"],
    [altsep = None], [extsep = "."]): the extension starts at the last dot
    of the last path component, unless only dots precede it there. *)
Fixpoint all_dots (l : list ascii) : bool :=
  match l with
  | [] => true
  | x :: r => Ascii.eqb x "."%char && all_dots r
  end.

Definition splitext_chars (p : list ascii) : list ascii * list ascii :=
  let sepIndex := rfind "/"%char p in
  let dotIndex := rfind "."%char p in
  if (sepIndex <? dotIndex)%Z then
    let filenameIndex := Z.to_nat (sepIndex + 1) in
    let leading := firstn (Z.to_nat dotIndex - filenameIndex) (skipn filenameIndex p) in
    if all_dots leading then (p, [])
    else (firstn (Z.to_nat dotIndex) p, skipn (Z.to_nat dotIndex) p)
  else (p, []).

Definition splitext (p : string) : string * string :=
  let '(root, ext) := splitext_chars (chars p) in (str root, str ext).

End Py.

(** ** Exceptions and results *)

(** The exception classes the code raises, catches or can receive from its
    collaborators.  All of them derive from Python's [Exception];
    [OtherException] stands for any other subclass of it. *)
Inductive exn : Type :=
| HTTPException (status_code : Z) (detail : string)
| FileNotFoundError (msg : string)
| TimeoutException (msg : string)
| ConnectError (msg : string)
| BinasciiError (msg : string)
| ValueError (msg : string)
| OverflowError (msg : string)
| KeyError (msg : string)
| OtherException (msg : string).

(** [str(e)].  Starlette's [HTTPException.__str__] prints the status code,
    a colon and the detail. *)
Definition str_exn (e : exn) : string :=
  match e with
  | HTTPException status_code detail =>
      Py.str_of_int status_code ++ ": " ++ detail
  | FileNotFoundError m | TimeoutException m | ConnectError m
  | BinasciiError m | ValueError m | OverflowError m | KeyError m
  | OtherException m => m
  end.

Inductive Result (A : Type) : Type :=
| Ok (a : A)
| Raised (e : exn).
Arguments Ok {A} a.
Arguments Raised {A} e.

Definition HTTP_400_BAD_REQUEST : Z := 400.
Definition HTTP_401_UNAUTHORIZED : Z := 401.
Definition HTTP_500_INTERNAL_SERVER_ERROR : Z := 500.

(** ** app/config.py *)

Module settings.

Definition MAX_FILE_SIZE : Z := 25 * 1024 * 1024.

Definition ALLOWED_AUDIO_TYPES : list string :=
  ["audio/mpeg"; "audio/wav"; "audio/mp4"; "audio/m4a"; "audio/x-m4a";
   "audio/ogg"].

(** [repr] of the list above, as an f-string prints it. *)
Definition ALLOWED_AUDIO_TYPES_repr : string :=
  "['audio/mpeg', 'audio/wav', 'audio/mp4', 'audio/m4a', 'audio/x-m4a', 'audio/ogg']".

(** Defaults of the settings that are read from the process environment. *)
Definition N8N_WEBHOOK_URL_default : string :=
  "http://n8n:5678/webhook/voice-transcription".
Definition WEBHOOK_TIMEOUT_default : Z := 30.
Definition WEBHOOK_RETRIES_default : Z := 3.

End settings.

(** ** Documents of the credential store *)

Inductive value : Type :=
| VStr (s : string)
| VBool (b : bool)
| VDate (t : Z)
| VNull
| VObjectId (hex : string).

Definition value_eqb (a b : value) : bool :=
  match a, b with
  | VStr x, VStr y => String.eqb x y
  | VBool x, VBool y => Bool.eqb x y
  | VDate x, VDate y => Z.eqb x y
  | VNull, VNull => true
  | VObjectId x, VObjectId y => String.eqb x y
  | _, _ => false
  end.

(** [str(v)], as an f-string prints a field of a document *)
Definition str_value (v : value) : string :=
  match v with
  | VStr s => s
  | VBool true => "True"
  | VBool false => "False"
  | VDate t => Py.str_of_int t
  | VNull => "None"
  | VObjectId hex => hex
  end.

(** A Python [dict] with string keys, in insertion order. *)
Definition dict : Type := list (string * value).

Fixpoint dict_get (d : dict) (k : string) : option value :=
  match d with
  | [] => None
  | (k', v) :: r => if String.eqb k' k then Some v else dict_get r k
  end.

(** [d.get(k, default)] *)
Definition dict_get_default (d : dict) (k : string) (default : value) : value :=
  match dict_get d k with Some v => v | None => default end.

Fixpoint dict_set (d : dict) (k : string) (v : value) : dict :=
  match d with
  | [] => [(k, v)]
  | (k', v') :: r =>
      if String.eqb k' k then (k', v) :: r else (k', v') :: dict_set r k v
  end.

(** ** app/auth.py *)

Module auth.

(** A MongoDB equality filter: every listed field is present with the
    listed value. *)
Definition matches (filter : dict) (doc : dict) : bool :=
  forallb (fun kv =>
             match dict_get doc (fst kv) with
             | Some v => value_eqb v (snd kv)
             | None => false
             end) filter.

(** What the store answers to this request: the clock, and whether the
    read or the write raises (a lost connection, a timeout). *)
Record StoreEnv : Type := {
  utcnow : Z;
  find_fault : option exn;
  update_fault : option exn
}.

(** [collection.find_one(filter)] *)
Definition find_one (env : StoreEnv) (filter : dict) (coll : list dict)
  : Result (option dict) :=
  match find_fault env with
  | Some e => Raised e
  | None => Ok (find (matches filter) coll)
  end.

Fixpoint set_first (filter : dict) (update : dict) (coll : list dict) : list dict :=
  match coll with
  | [] => []
  | doc :: r =>
      if matches filter doc
      then fold_left (fun d kv => dict_set d (fst kv) (snd kv)) update doc :: r
      else doc :: set_first filter update r
  end.

(** [collection.update_one(filter, {"$set": update})] *)
Definition update_one (env : StoreEnv) (filter : dict) (update : dict)
    (coll : list dict) : Result (list dict) :=
  match update_fault env with
  | Some e => Raised e
  | None => Ok (set_first filter update coll)
  end.

(** [fastapi.security.HTTPAuthorizationCredentials] *)
Record HTTPAuthorizationCredentials : Type := {
  scheme : string;
  credentials : string
}.

(** [get_api_key_from_header] *)
Definition get_api_key_from_header (x_api_key : option string) : option string :=
  x_api_key.

(** [get_api_key_from_auth] *)
Definition get_api_key_from_auth (c : option HTTPAuthorizationCredentials)
  : option string :=
  match c with
  | Some c => Some (credentials c)
  | None => None
  end.

Definition detail_key_required : string :=
  "API key required. Provide it in X-API-Key header, Authorization header, or request body.".

Definition detail_invalid_key : string := "Invalid or inactive API key".

(** [validate_api_key]: the result and the collection after the call. *)
Definition validate_api_key (env : StoreEnv)
    (api_key_header api_key_auth api_key_body : option string)
    (api_keys_collection : list dict) : Result dict * list dict :=
  let api_key := Py.or_ (Py.or_ api_key_header api_key_auth) api_key_body in
  if negb (Py.truthy api_key) then
    (Raised (HTTPException HTTP_401_UNAUTHORIZED detail_key_required),
     api_keys_collection)
  else
    let k := match api_key with Some k => k | None => "" end in
    match find_one env [("key", VStr k); ("active", VBool true)]
                   api_keys_collection with
    | Raised e => (Raised e, api_keys_collection)
    | Ok None | Ok (Some []) =>
        (Raised (HTTPException HTTP_401_UNAUTHORIZED detail_invalid_key),
         api_keys_collection)
    | Ok (Some key_doc) =>
        match dict_get key_doc "_id" with
        | None => (Raised (KeyError "'_id'"), api_keys_collection)
        | Some id =>
            match update_one env [("_id", id)]
                             [("last_used", VDate (utcnow env))]
                             api_keys_collection with
            | Raised e => (Raised e, api_keys_collection)
            | Ok coll' => (Ok key_doc, coll')
            end
        end
    end.

End auth.

(** ** The payload-type validator of app/main.py *)

Definition EXTENSION_TO_MIME : list (string * string) :=
  [(".mp3", "audio/mpeg");
   (".wav", "audio/wav");
   (".m4a", "audio/m4a");
   (".mp4", "audio/mp4");
   (".ogg", "audio/ogg");
   (".flac", "audio/flac")].

(** [d.get(k)] on a dict from strings to strings *)
Fixpoint table_get (d : list (string * string)) (k : string) : option string :=
  match d with
  | [] => None
  | (k', v) :: r => if String.eqb k' k then Some v else table_get r k
  end.

Definition normalize_content_type (content_type : option string) : option string :=
  if negb (Py.truthy content_type) then None
  else match content_type with
       | Some c => Some (Py.lower (Py.strip c))
       | None => None
       end.

Definition get_mime_from_extension (filename : string) : option string :=
  if negb (Py.nonempty filename) then None
  else
    let ext := Py.lower (snd (Py.splitext filename)) in
    table_get EXTENSION_TO_MIME ext.

(** [x and x in settings.ALLOWED_AUDIO_TYPES] for an [Optional[str]] *)
Definition allowed (x : option string) : bool :=
  match x with
  | Some s => Py.nonempty s && Py.mem s settings.ALLOWED_AUDIO_TYPES
  | None => false
  end.

Definition validate_audio_type (content_type filename : option string) : bool :=
  let normalized_type := normalize_content_type content_type in
  if allowed normalized_type then true
  else
    match filename with
    | Some f =>
        if Py.nonempty f then
          let mime_from_ext := get_mime_from_extension f in
          if allowed mime_from_ext then true else false
        else false
    | None => false
    end.

(** The validator as the specification words it: three steps over a
    declared content type and a file name, the first match wins. *)
Module ValidatorSpec.

Definition normalized (content_type : string) : string :=
  Py.lower (Py.strip content_type).

Definition extension (filename : string) : string :=
  Py.lower (snd (Py.splitext filename)).

Definition step1 (content_type : string) : bool :=
  Py.nonempty (normalized content_type)
  && Py.mem (normalized content_type) settings.ALLOWED_AUDIO_TYPES.

Definition step2 (filename : string) : bool :=
  match table_get EXTENSION_TO_MIME (extension filename) with
  | Some mime => Py.mem mime settings.ALLOWED_AUDIO_TYPES
  | None => false
  end.

Definition accepts (content_type filename : string) : bool :=
  if step1 content_type then true
  else if step2 filename then true
  else false.

(** An absent header or file name is the empty string. *)
Definition text (o : option string) : string :=
  match o with Some s => s | None => "" end.

End ValidatorSpec.

(** ** base64.b64decode *)

Module base64.

(** Position of a character in the base64 alphabet *)
Definition table_a2b (c : ascii) : option N :=
  let n := N_of_ascii c in
  if ((65 <=? n) && (n <=? 90))%N then Some (n - 65)%N
  else if ((97 <=? n) && (n <=? 122))%N then Some (n - 71)%N
  else if ((48 <=? n) && (n <=? 57))%N then Some (n + 4)%N
  else if (n =? 43)%N then Some 62%N
  else if (n =? 47)%N then Some 63%N
  else None.

Definition byte_of_N (n : N) : Byte.byte := byte_of_ascii (ascii_of_N n).

Definition error_one_more (produced : nat) : exn :=
  BinasciiError
    ("Invalid base64-encoded string: number of data characters ("
     ++ Py.str_of_int (Z.of_nat produced / 3 * 4 + 1)
     ++ ") cannot be 1 more than a multiple of 4").

Definition error_padding : exn := BinasciiError "Incorrect padding".

(** The loop of CPython's [binascii.a2b_base64] with [strict_mode] off
    (CPython 3.11 and later).  [quad_pos] counts the data characters of the
    current group of four, [leftchar] holds the bits not yet written,
    [pads] the padding characters seen since the last data character, and
    [out] the bytes written so far, last first.  A character outside the
    alphabet is skipped. *)
Fixpoint a2b_loop (cs : list ascii) (quad_pos : nat) (leftchar : N)
    (pads : nat) (out : list Byte.byte) : Result (list Byte.byte) :=
  match cs with
  | [] =>
      match quad_pos with
      | O => Ok (rev out)
      | 1%nat => Raised (error_one_more (List.length out))
      | _ => Raised error_padding
      end
  | c :: rest =>
      if Ascii.eqb c "="%char then
        if (2 <=? quad_pos)%nat then
          if (4 <=? quad_pos + (pads + 1))%nat then Ok (rev out)
          else a2b_loop rest quad_pos leftchar (pads + 1) out
        else a2b_loop rest quad_pos leftchar pads out
      else
        match table_a2b c with
        | None => a2b_loop rest quad_pos leftchar pads out
        | Some this_ch =>
            match quad_pos with
            | O => a2b_loop rest 1 this_ch 0 out
            | 1%nat =>
                a2b_loop rest 2 (N.land this_ch 15) 0
                  (byte_of_N (N.lor (N.shiftl leftchar 2) (N.shiftr this_ch 4)) :: out)
            | 2%nat =>
                a2b_loop rest 3 (N.land this_ch 3) 0
                  (byte_of_N (N.lor (N.shiftl leftchar 4) (N.shiftr this_ch 2)) :: out)
            | _ =>
                a2b_loop rest 0 0 0
                  (byte_of_N (N.lor (N.shiftl leftchar 6) this_ch) :: out)
            end
        end
  end.

Definition is_ascii (c : ascii) : bool := (N_of_ascii c <? 128)%N.

(** [base64.b64decode(s)] for a [str] argument, default arguments
    ([altchars=None], [validate=False]). *)
Definition b64decode (s : string) : Result (list Byte.byte) :=
  if forallb is_ascii (Py.chars s) then a2b_loop (Py.chars s) 0 0 0 []
  else Raised (ValueError "string argument should contain only ASCII characters").

(** Base64 text as RFC 4648 section 4 defines it: groups of four alphabet
    characters, the last group possibly ending in one or two padding
    characters. *)
Definition is_alphabet (c : ascii) : bool :=
  match table_a2b c with Some _ => true | None => false end.

Fixpoint well_formed_chars (cs : list ascii) : bool :=
  match cs with
  | [] => true
  | [a; b; c; d] =>
      is_alphabet a && is_alphabet b &&
      ((is_alphabet c && (is_alphabet d || Ascii.eqb d "="%char))
       || (Ascii.eqb c "="%char && Ascii.eqb d "="%char))
  | a :: b :: c :: d :: rest =>
      is_alphabet a && is_alphabet b && is_alphabet c && is_alphabet d
      && well_formed_chars rest
  | _ => false
  end.

Definition well_formed (s : string) : bool := well_formed_chars (Py.chars s).

End base64.

(** ** Floats, files and the trace of a request *)

(** A Python [float] is an IEEE 754 value. *)
Definition float : Type := spec_float.

Definition float_zero : float := S754_zero false.

(** truthiness of a float: false only for the two zeros *)
Definition float_truthy (f : float) : bool :=
  match f with S754_zero _ => false | _ => true end.

(** [int(f)]: truncation towards zero; raises on NaN and on infinities. *)
Definition int_of_float (f : float) : Result Z :=
  match f with
  | S754_zero _ => Ok 0%Z
  | S754_infinity _ =>
      Raised (OverflowError "cannot convert float infinity to integer")
  | S754_nan => Raised (ValueError "cannot convert float NaN to integer")
  | S754_finite s m e =>
      let magnitude :=
        if (0 <=? e)%Z then (Z.pos m * 2 ^ e)%Z
        else (Z.pos m / 2 ^ (- e))%Z in
      Ok (if s then (- magnitude)%Z else magnitude)
  end.

(** The content of a file: its length and its bytes by offset. *)
Record Blob : Type := {
  blob_len : N;
  blob_at : N -> Byte.byte
}.

Definition blob_of_bytes (l : list Byte.byte) : Blob :=
  {| blob_len := N.of_nat (List.length l);
     blob_at := fun i => nth (N.to_nat i) l Byte.x00 |}.

(** The body of a webhook POST: the fields that vary with the request.
    The timestamp and the constant fields (source, service version) are
    left out. *)
Inductive Payload : Type :=
| TranscriptionPayload (text language : string) (duration : float)
    (api_key_name : value) (original_filename : option string)
    (audio_size : option Z)
| ErrorPayload (message : string) (api_key_name : value)
    (original_filename : option string).

(** What a request does to the outside, in the order it does it. *)
Inductive Event : Type :=
| EvValidateAudioType (content_type filename : option string)
| EvPost (body : Payload)
| EvSleep (seconds : Z)
| EvTempFile (path : string)
| EvUnlink (path : string)
| EvTranscribe (path : string).

Definition is_post (e : Event) : bool :=
  match e with EvPost _ => true | _ => false end.

Definition is_transcribe (e : Event) : bool :=
  match e with EvTranscribe _ => true | _ => false end.

Definition is_validate (e : Event) : bool :=
  match e with EvValidateAudioType _ _ => true | _ => false end.

(** The seconds slept, in order. *)
Fixpoint sleeps (l : list Event) : list Z :=
  match l with
  | [] => []
  | EvSleep n :: r => n :: sleeps r
  | _ :: r => sleeps r
  end.

Definition count_posts (l : list Event) : nat := List.length (filter is_post l).

(** What one response of the webhook endpoint is: a status code, or the
    exception [httpx] raises instead. *)
Inductive Attempt : Type :=
| Response (status_code : Z)
| Fails (e : exn).

(** One segment of a Whisper result, its ["end"] key possibly missing. *)
Record Segment : Type := { seg_end : option float }.

Record WhisperResult : Type := {
  res_text : string;
  res_language : option string;
  res_segments : option (list Segment)
}.

(** The world of one request. *)
Record Env : Type := {
  (** [settings.WEBHOOK_RETRIES] *)
  WEBHOOK_RETRIES : Z;
  (** what the n-th call of [client.post] by the request comes to *)
  webhook : nat -> Attempt;
  (** [transcription_service.model], and what [model.transcribe] does on
      a path holding the given content *)
  whisper_model : option (string -> option Blob -> Result WhisperResult);
  (** [tempfile.gettempdir()] *)
  tmpdir : string;
  (** the draws of the random name of the temporary file *)
  tmpname : list nat
}.

Record State : Type := {
  files : list (string * Blob);
  log : list Event
}.

(** ** A state and exception monad *)

Definition M (A : Type) : Type := State -> Result A * State.

Definition ret {A} (a : A) : M A := fun st => (Ok a, st).

Definition raise {A} (e : exn) : M A := fun st => (Raised e, st).

Definition bind {A B} (m : M A) (f : A -> M B) : M B :=
  fun st =>
    match m st with
    | (Ok a, st') => f a st'
    | (Raised e, st') => (Raised e, st')
    end.

Notation "x <- m ;; k" := (bind m (fun x => k))
  (at level 61, m at next level, right associativity).
Notation "m ;;; k" := (bind m (fun _ => k))
  (at level 61, right associativity).

(** [try: m  except Exception as e: handler e] *)
Definition try_except {A} (m : M A) (handler : exn -> M A) : M A :=
  fun st =>
    match m st with
    | (Ok a, st') => (Ok a, st')
    | (Raised e, st') => handler e st'
    end.

(** [try: m  finally: cleanup] *)
Definition try_finally {A} (m : M A) (cleanup : M unit) : M A :=
  fun st =>
    match m st with
    | (r, st') =>
        match cleanup st' with
        | (Ok _, st'') => (r, st'')
        | (Raised e, st'') => (Raised e, st'')
        end
    end.

Definition lift {A} (r : Result A) : M A := fun st => (r, st).

Definition emit (e : Event) : M unit :=
  fun st => (Ok tt, {| files := files st; log := log st ++ [e] |}).

Definition get_state : M State := fun st => (Ok st, st).

Definition set_files (f : list (string * Blob)) : M unit :=
  fun st => (Ok tt, {| files := f; log := log st |}).

(** Unfolding the operations of the monad. *)
Ltac unfold_m :=
  unfold try_except, try_finally, bind, ret, raise, lift, emit, get_state,
    set_files.

(** ** The file system *)

Fixpoint file_lookup (fs : list (string * Blob)) (path : string) : option Blob :=
  match fs with
  | [] => None
  | (p, b) :: r => if String.eqb p path then Some b else file_lookup r path
  end.

Definition file_remove (fs : list (string * Blob)) (path : string)
  : list (string * Blob) :=
  filter (fun pb => negb (String.eqb (fst pb) path)) fs.

(** The alphabet of [tempfile._RandomNameSequence]. *)
Definition tmp_characters : list ascii :=
  Py.chars "abcdefghijklmnopqrstuvwxyz0123456789_".

(** The random name has eight characters, one for each of the first eight
    draws (a draw that is missing counts as 0). *)
Definition tmp_random_name (draws : list nat) : string :=
  Py.str (map (fun i => nth (i mod 37) tmp_characters "_"%char)
              (firstn 8 (draws ++ repeat 0 8))).

(** The length in bytes of [os.fsencode(s)], the UTF-8 encoding: one byte
    for a code point below 128, two for the others below 256. *)
Definition utf8_width (c : ascii) : nat :=
  if (nat_of_ascii c <? 128)%nat then 1 else 2.

Definition utf8_length (s : string) : nat :=
  fold_right (fun c n => utf8_width c + n)%nat 0%nat (Py.chars s).

(** The longest name of a directory entry, in bytes (Linux). *)
Definition NAME_MAX : nat := 255.

(** Why [os.open] refuses the name of the temporary file, if it does: the
    suffix holds a NUL ([ValueError], before the system is called), or the
    name is longer than [NAME_MAX] bytes ([OSError] with [ENAMETOOLONG],
    which is an [OtherException] here).  [tempfile] retries on a name that
    exists, not on these. *)
Definition temp_fault (env : Env) (suffix : string) : option exn :=
  let name := "tmp" ++ tmp_random_name (tmpname env) ++ suffix in
  if existsb (Ascii.eqb zero) (Py.chars suffix) then
    Some (ValueError "embedded null byte")
  else if (NAME_MAX <? utf8_length name)%nat then
    Some (OtherException ("[Errno 36] File name too long: '"
                          ++ tmpdir env ++ "/" ++ name ++ "'"))
  else None.

(** [tempfile.NamedTemporaryFile(delete=False, suffix=suffix)], written
    with [content] and closed: the path is the temporary directory, a
    separator, the prefix ["tmp"], the random name and the suffix.  It
    raises when the name is refused; otherwise the operating system is
    taken to create and write the file (the temporary directory exists and
    has room). *)
Definition NamedTemporaryFile (env : Env) (suffix : string) (content : Blob)
  : M string :=
  let path := tmpdir env ++ "/" ++ "tmp" ++ tmp_random_name (tmpname env) ++ suffix in
  match temp_fault env suffix with
  | Some e => raise e
  | None =>
      st <- get_state ;;
      emit (EvTempFile path) ;;;
      set_files ((path, content) :: file_remove (files st) path) ;;;
      ret path
  end.

(** [if os.path.exists(path): os.unlink(path)] *)
Definition unlink_if_exists (path : string) : M unit :=
  st <- get_state ;;
  match file_lookup (files st) path with
  | Some _ => emit (EvUnlink path) ;;; set_files (file_remove (files st) path)
  | None => ret tt
  end.

(** ** app/services/webhook.py *)

Module webhook_service.

(** [response.status_code in [200, 201, 202]] *)
Definition accepted (status_code : Z) : bool :=
  existsb (Z.eqb status_code) [200; 201; 202]%Z.

(** [client.post(...)] on a fresh [httpx.AsyncClient]: what the n-th call
    of the request comes to, a status code or the exception raised instead.
    The exception may come from the endpoint (no connection, a timeout) or
    from the client before anything is sent: a body that [httpx] cannot
    encode, as a duration that is not a number from release 0.28 on, is a
    call that fails.  [EvPost] records the call, not a delivery. *)
Definition post (env : Env) (body : Payload) : M Z :=
  st <- get_state ;;
  emit (EvPost body) ;;;
  match webhook env (count_posts (log st)) with
  | Response status_code => ret status_code
  | Fails e => raise e
  end.

(** [range(n)] *)
Definition range (n : Z) : list nat := seq 0 (Z.to_nat n).

(** The body of the [for attempt in range(self.retries)] loop, over the
    attempts still to run. *)
Fixpoint send_loop (env : Env) (payload : Payload) (attempts : list nat)
  : M bool :=
  match attempts with
  | [] => ret false
  | attempt :: rest =>
      delivered <-
        try_except
          (status_code <- post env payload ;; ret (accepted status_code))
          (fun e =>
             match e with
             | TimeoutException _ => ret false
             | ConnectError _ => ret false
             | _ => ret false
             end) ;;
      if (delivered : bool) then ret true
      else
        (if (Z.of_nat attempt <? WEBHOOK_RETRIES env - 1)%Z
         then emit (EvSleep (2 ^ Z.of_nat attempt))
         else ret tt) ;;;
        send_loop env payload rest
  end.

Definition send_transcription_result (env : Env) (text language : string)
    (duration : float) (api_key_name : value)
    (original_filename : option string) (audio_size : option Z) : M bool :=
  let payload :=
    TranscriptionPayload text language duration api_key_name
                         original_filename audio_size in
  send_loop env payload (range (WEBHOOK_RETRIES env)).

Definition send_error_notification (env : Env) (error_message : string)
    (api_key_name : value) (original_filename : option string) : M bool :=
  let payload := ErrorPayload error_message api_key_name original_filename in
  try_except
    (status_code <- post env payload ;; ret (accepted status_code))
    (fun _ => ret false).

End webhook_service.

(** ** app/services/transcription.py *)

Module transcription_service.

Definition detail_ffmpeg : string :=
  "ffmpeg is required for audio transcription but is not installed. Please install ffmpeg: brew install ffmpeg (macOS) or apt-get install ffmpeg (Linux)".

Definition mentions_ffmpeg (msg : string) : bool :=
  Py.contains "ffmpeg" (Py.lower msg).

(** The duration of a result: the end of its last segment. *)
Definition duration_of (result : WhisperResult) : float :=
  let segments :=
    match res_segments result with Some l => l | None => [] end in
  match segments with
  | [] => float_zero
  | s :: r =>
      match seg_end (last r s) with
      | Some t => t
      | None => float_zero
      end
  end.

Definition transcribe_audio_file (env : Env) (audio_file_path : string)
  : M (string * string * float) :=
  match whisper_model env with
  | None =>
      raise (HTTPException HTTP_500_INTERNAL_SERVER_ERROR
                           "Speech recognition model not loaded")
  | Some model =>
      try_except
        (emit (EvTranscribe audio_file_path) ;;;
         st <- get_state ;;
         result <- lift (model audio_file_path
                               (file_lookup (files st) audio_file_path)) ;;
         let text := Py.strip (res_text result) in
         let language :=
           match res_language result with Some l => l | None => "pt" end in
         ret (text, language, duration_of result))
        (fun e =>
           match e with
           | FileNotFoundError _ =>
               if mentions_ffmpeg (str_exn e) then
                 raise (HTTPException HTTP_500_INTERNAL_SERVER_ERROR detail_ffmpeg)
               else
                 raise (HTTPException HTTP_400_BAD_REQUEST
                          ("Failed to transcribe audio: " ++ str_exn e))
           | _ =>
               let error_msg := str_exn e in
               let error_msg :=
                 if mentions_ffmpeg error_msg then detail_ffmpeg else error_msg in
               raise (HTTPException HTTP_400_BAD_REQUEST
                        ("Failed to transcribe audio: " ++ error_msg))
           end)
  end.

Definition transcribe_base64_audio (env : Env) (audio_base64 : string)
  : M (string * string * float) :=
  try_except
    (audio_data <- lift (base64.b64decode audio_base64) ;;
     temp_file_path <- NamedTemporaryFile env ".wav" (blob_of_bytes audio_data) ;;
     try_finally
       (transcribe_audio_file env temp_file_path)
       (unlink_if_exists temp_file_path))
    (fun e =>
       raise (HTTPException HTTP_400_BAD_REQUEST
                ("Failed to process base64 audio: " ++ str_exn e))).

Definition allowed_extensions : list string :=
  [".mp3"; ".wav"; ".m4a"; ".mp4"; ".ogg"; ".flac"].

Definition validate_audio_file (file_path : string) : M bool :=
  st <- get_state ;;
  match file_lookup (files st) file_path with
  | None => ret false
  | Some content =>
      let file_size := Z.of_N (blob_len content) in
      if (settings.MAX_FILE_SIZE <? file_size)%Z then ret false
      else
        let file_ext := Py.lower (snd (Py.splitext file_path)) in
        ret (Py.mem file_ext allowed_extensions)
  end.

End transcription_service.

(** ** The request handler of app/main.py *)

Record UploadFile : Type := {
  filename : option string;
  content_type : option string;
  size : option Z;
  content : Blob
}.

(** app/models.py, [TranscriptionRequest] *)
Record TranscriptionRequest : Type := {
  audio_base64 : option string;
  api_key : option string
}.

Inductive json : Type :=
| JStr (s : string)
| JFloat (f : float)
| JBool (b : bool).

(** [f"{x}"] for an [Optional[str]] and an [Optional[int]] *)
Definition fmt_str (o : option string) : string :=
  match o with Some s => s | None => "None" end.

Definition fmt_int (o : option Z) : string :=
  match o with Some n => Py.str_of_int n | None => "None" end.

Definition detail_invalid_file : string := "Invalid audio file format or size".

Definition detail_no_payload : string :=
  "Either audio file or audio_base64 must be provided".

Definition detail_internal : string :=
  "Internal server error during transcription".

(** [authenticated_key.get("name", "unknown")] *)
Definition key_name (authenticated_key : dict) : value :=
  dict_get_default authenticated_key "name" (VStr "unknown").

(** [audio and audio.filename]: the upload and its file name when the
    condition holds. *)
Definition upload_of (audio : option UploadFile) : option (UploadFile * string) :=
  match audio with
  | Some a =>
      match filename a with
      | Some f => if Py.nonempty f then Some (a, f) else None
      | None => None
      end
  | None => None
  end.

(** [request_data and request_data.audio_base64]: the text when the
    condition holds. *)
Definition base64_of (request_data : option TranscriptionRequest) : option string :=
  match request_data with
  | Some r =>
      match audio_base64 r with
      | Some b => if Py.nonempty b then Some b else None
      | None => None
      end
  | None => None
  end.

(** The file branch, from "Handle file upload" to the end of its
    [try ... finally]. *)
Definition handle_upload (env : Env) (a : UploadFile) (original_filename : string)
    (authenticated_key : dict) : M (string * string * float) :=
  emit (EvValidateAudioType (content_type a) (Some original_filename)) ;;;
  (if negb (validate_audio_type (content_type a) (Some original_filename)) then
     let mime_from_ext := get_mime_from_extension original_filename in
     let error_detail :=
       "Unsupported audio type. Received: content_type='"
       ++ fmt_str (content_type a) ++ "', filename='" ++ original_filename ++ "'" in
     let error_detail :=
       if Py.truthy mime_from_ext
       then error_detail ++ ", detected_mime_from_extension='"
            ++ fmt_str mime_from_ext ++ "'"
       else error_detail in
     let error_detail :=
       error_detail ++ ". Allowed types: " ++ settings.ALLOWED_AUDIO_TYPES_repr in
     webhook_service.send_error_notification env
       ("Unsupported audio type: " ++ fmt_str (content_type a))
       (key_name authenticated_key) (Some original_filename) ;;;
     raise (HTTPException HTTP_400_BAD_REQUEST error_detail)
   else ret tt) ;;;
  (match size a with
   | Some n =>
       if (negb (n =? 0) && (settings.MAX_FILE_SIZE <? n))%Z then
         webhook_service.send_error_notification env
           ("File too large: " ++ Py.str_of_int n ++ " bytes")
           (key_name authenticated_key) (Some original_filename) ;;;
         raise (HTTPException HTTP_400_BAD_REQUEST
                  ("File too large. Maximum size: "
                   ++ Py.str_of_int settings.MAX_FILE_SIZE ++ " bytes"))
       else ret tt
   | None => ret tt
   end) ;;;
  temp_file_path <-
    NamedTemporaryFile env (snd (Py.splitext original_filename)) (content a) ;;
  try_finally
    (valid <- transcription_service.validate_audio_file temp_file_path ;;
     if negb valid then
       webhook_service.send_error_notification env detail_invalid_file
         (key_name authenticated_key) (Some original_filename) ;;;
       raise (HTTPException HTTP_400_BAD_REQUEST detail_invalid_file)
     else transcription_service.transcribe_audio_file env temp_file_path)
    (unlink_if_exists temp_file_path).

(** The [if] / [elif] / [else] on the kind of payload. *)
Definition obtain_transcription (env : Env) (audio : option UploadFile)
    (request_data : option TranscriptionRequest) (authenticated_key : dict)
  : M (string * string * float) :=
  match upload_of audio with
  | Some (a, original_filename) =>
      handle_upload env a original_filename authenticated_key
  | None =>
      match base64_of request_data with
      | Some b => transcription_service.transcribe_base64_audio env b
      | None =>
          webhook_service.send_error_notification env "No audio data provided"
            (key_name authenticated_key) None ;;;
          raise (HTTPException HTTP_400_BAD_REQUEST detail_no_payload)
      end
  end.

(** [original_filename] and [audio_size] as the code after the branches
    and the exception handler see them: set on entry to the file branch,
    [None] otherwise. *)
Definition original_filename_of (audio : option UploadFile) : option string :=
  match upload_of audio with
  | Some (_, f) => Some f
  | None => None
  end.

Definition audio_size_of (audio : option UploadFile) : option Z :=
  match upload_of audio with
  | Some (a, _) => size a
  | None => None
  end.

(** The dictionary the handler returns. *)
Definition response (text language : string) (duration : float)
    (webhook_success : bool) (transcription_id : string)
  : list (string * json) :=
  [("message", JStr "Transcription completed");
   ("status", JStr "success");
   ("text", JStr text);
   ("language", JStr language);
   ("duration", JFloat duration);
   ("webhook_delivered", JBool webhook_success);
   ("transcription_id", JStr transcription_id)].

(** [int(duration) if duration else 0] *)
Definition int_duration (duration : float) : Result Z :=
  if float_truthy duration then int_of_float duration else Ok 0%Z.

(** [f"trans_{authenticated_key.get('_id', 'unknown')}_{n}"] *)
Definition transcription_id (authenticated_key : dict) (n : Z) : string :=
  "trans_"
  ++ str_value (dict_get_default authenticated_key "_id" (VStr "unknown"))
  ++ "_" ++ Py.str_of_int n.

(** From "Send result to n8n webhook" to the [return]. *)
Definition deliver_and_respond (env : Env) (audio : option UploadFile)
    (authenticated_key : dict) (t : string * string * float)
  : M (list (string * json)) :=
  let '(text, language, duration) := t in
  webhook_success <-
    try_except
      (webhook_service.send_transcription_result env text language duration
         (key_name authenticated_key) (original_filename_of audio)
         (audio_size_of audio))
      (fun _ => ret false) ;;
  n <- lift (int_duration duration) ;;
  ret (response text language duration webhook_success
                (transcription_id authenticated_key n)).

(** The two [except] clauses of the handler: an [HTTPException] is raised
    again, anything else is notified and becomes a 500. *)
Definition on_exception (env : Env) (audio : option UploadFile)
    (authenticated_key : dict) (e : exn) : M (list (string * json)) :=
  match e with
  | HTTPException _ _ => raise e
  | _ =>
      webhook_service.send_error_notification env
        ("Internal server error: " ++ str_exn e)
        (key_name authenticated_key) (original_filename_of audio) ;;;
      raise (HTTPException HTTP_500_INTERNAL_SERVER_ERROR detail_internal)
  end.

(** [transcribe_audio], the handler of [POST /transcribe], entered with
    the credential that [validate_api_key] returned. *)
Definition transcribe_audio (env : Env) (audio : option UploadFile)
    (api_key_file : option string)
    (request_data : option TranscriptionRequest) (authenticated_key : dict)
  : M (list (string * json)) :=
  try_except
    (t <- obtain_transcription env audio request_data authenticated_key ;;
     deliver_and_respond env audio authenticated_key t)
    (on_exception env audio authenticated_key).

(** Running a computation from a state: the result, and the events it
    added. *)
Definition initial : State := {| files := []; log := [] |}.

Definition run {A} (m : M A) : Result A * list Event :=
  let '(r, st) := m initial in (r, log st).

(** ** The route [POST /transcribe] *)

(** A request, by the places its parameters are read from.  The handler
    declares [audio] as a file part, [api_key_file] as a form field and
    [request_data] as a body parameter.  Its dependency [validate_api_key]
    declares two dependencies of its own, on the [X-API-Key] header and on
    the credentials of the [Authorization] header, and [api_key_body], a
    parameter with a default and no declared source, which FastAPI reads
    from the query string.  Nothing in the code hands the form field or
    the body to [validate_api_key]. *)
Record Request : Type := {
  x_api_key : option string;
  authorization : option auth.HTTPAuthorizationCredentials;
  query_api_key_body : option string;
  form_audio : option UploadFile;
  form_api_key_file : option string;
  body_request_data : option TranscriptionRequest
}.

(** [Depends(validate_api_key)] on a request. *)
Definition authenticate (senv : auth.StoreEnv) (req : Request)
    (api_keys_collection : list dict) : Result dict * list dict :=
  auth.validate_api_key senv
    (auth.get_api_key_from_header (x_api_key req))
    (auth.get_api_key_from_auth (authorization req))
    (query_api_key_body req)
    api_keys_collection.

(** The route: the dependency, then the handler with what it returned.
    The result, the state and the collection after the request. *)
Definition post_transcribe (senv : auth.StoreEnv) (env : Env) (req : Request)
    (api_keys_collection : list dict) (st : State)
  : Result (list (string * json)) * State * list dict :=
  match authenticate senv req api_keys_collection with
  | (Raised e, coll) => (Raised e, st, coll)
  | (Ok authenticated_key, coll) =>
      (transcribe_audio env (form_audio req) (form_api_key_file req)
                        (body_request_data req) authenticated_key st,
       coll)
  end.

(** ** The key administration of app/auth.py and app/main.py *)

Module auth_keys.

(** [{"$set": update}] applied to a document. *)
Definition apply_set (update : dict) (doc : dict) : dict :=
  fold_left (fun d kv => dict_set d (fst kv) (snd kv)) update doc.

(** The update changes the document: some field it sets is missing or
    holds another value. *)
Definition changes (update : dict) (doc : dict) : bool :=
  existsb (fun kv =>
             match dict_get doc (fst kv) with
             | Some v => negb (value_eqb v (snd kv))
             | None => true
             end) update.

(** [UpdateResult.modified_count] of an [update_one]: MongoDB counts the
    matched document only when the update changed it. *)
Fixpoint modified_count (filter update : dict) (coll : list dict) : nat :=
  match coll with
  | [] => 0
  | doc :: r =>
      if auth.matches filter doc
      then (if changes update doc then 1 else 0)
      else modified_count filter update r
  end.

(** [deactivate_api_key]: the result and the collection after the call. *)
Definition deactivate_api_key (env : auth.StoreEnv) (api_key : string)
    (api_keys_collection : list dict) : Result bool * list dict :=
  match auth.update_one env [("key", VStr api_key)] [("active", VBool false)]
                        api_keys_collection with
  | Raised e => (Raised e, api_keys_collection)
  | Ok coll' =>
      (Ok (0 <? modified_count [("key", VStr api_key)]
                               [("active", VBool false)]
                               api_keys_collection)%nat,
       coll')
  end.

(** What the creation of a key draws from the outside: the token of
    [secrets.token_urlsafe(32)], the [ObjectId] that [insert_one] gives the
    document, and whether the insertion raises. *)
Record KeyEnv : Type := {
  token_urlsafe : string;
  new_object_id : string;
  insert_fault : option exn
}.

(** The document [create_api_key] builds, as the store holds it. *)
Definition new_key_doc (env : auth.StoreEnv) (kenv : KeyEnv) (name : string)
  : dict :=
  [("_id", VObjectId (new_object_id kenv));
   ("key", VStr (token_urlsafe kenv));
   ("name", VStr name);
   ("active", VBool true);
   ("created_at", VDate (auth.utcnow env));
   ("last_used", VNull)].

(** [create_api_key]: the key returned and the collection after. *)
Definition create_api_key (env : auth.StoreEnv) (kenv : KeyEnv) (name : string)
    (api_keys_collection : list dict) : Result string * list dict :=
  match insert_fault kenv with
  | Some e => (Raised e, api_keys_collection)
  | None =>
      (Ok (token_urlsafe kenv),
       (api_keys_collection ++ [new_key_doc env kenv name])%list)
  end.

End auth_keys.

Module admin.

(** [POST /admin/create-api-key] *)
Definition create_api_key (env : auth.StoreEnv) (kenv : auth_keys.KeyEnv)
    (name : string) (coll : list dict)
  : Result (list (string * json)) * list dict :=
  match auth_keys.create_api_key env kenv name coll with
  | (Ok api_key, coll') =>
      (Ok [("message", JStr "API key created successfully");
           ("api_key", JStr api_key);
           ("name", JStr name)],
       coll')
  | (Raised e, coll') =>
      (Raised (HTTPException HTTP_500_INTERNAL_SERVER_ERROR
                 ("Failed to create API key: " ++ str_exn e)),
       coll')
  end.

Definition HTTP_404_NOT_FOUND : Z := 404.

(** [POST /admin/deactivate-api-key] *)
Definition deactivate_api_key (env : auth.StoreEnv) (api_key : string)
    (coll : list dict) : Result (list (string * json)) * list dict :=
  match auth_keys.deactivate_api_key env api_key coll with
  | (Ok true, coll') =>
      (Ok [("message", JStr "API key deactivated successfully")], coll')
  | (Ok false, coll') =>
      (Raised (HTTPException HTTP_404_NOT_FOUND "API key not found"), coll')
  | (Raised (HTTPException status_code detail), coll') =>
      (Raised (HTTPException status_code detail), coll')
  | (Raised e, coll') =>
      (Raised (HTTPException HTTP_500_INTERNAL_SERVER_ERROR
                 ("Failed to deactivate API key: " ++ str_exn e)),
       coll')
  end.

End admin.

(** Two worlds that differ at most in the webhook endpoint and in the
    number of attempts allowed. *)
Definition same_but_webhook (env1 env2 : Env) : Prop :=
  whisper_model env1 = whisper_model env2
  /\ tmpdir env1 = tmpdir env2
  /\ tmpname env1 = tmpname env2.

(** A response without its [webhook_delivered] field. *)
Definition without_delivery (resp : list (string * json)) : list (string * json) :=
  filter (fun kv => negb (String.eqb (fst kv) "webhook_delivered")) resp.

(** The number of documents that carry the key [k]. *)
Definition carriers (k : string) (coll : list dict) : nat :=
  List.length (filter (auth.matches [("key", VStr k)]) coll).

(** The path of the temporary file of the base64 branch. *)
Definition base64_path (env : Env) : string :=
  tmpdir env ++ "/" ++ "tmp" ++ tmp_random_name (tmpname env) ++ ".wav".

(** The extensions the type validator accepts on their own. *)
Definition validator_extensions : list string :=
  [".mp3"; ".wav"; ".m4a"; ".mp4"; ".ogg"].

(** * The specification's notions *)

(** The first candidate that is present and not empty, in the order
    given. *)
Fixpoint first_nonempty (candidates : list (option string)) : option string :=
  match candidates with
  | [] => None
  | c :: r => if Py.truthy c then c else first_nonempty r
  end.

(** A document of the collection carries the key [k]. *)
Definition has_key (k : string) (d : dict) : Prop :=
  dict_get d "key" = Some (VStr k).

(** [k] is the key of an active credential of the collection. *)
Definition valid_active (coll : list dict) (k : string) : Prop :=
  exists d, In d coll /\ has_key k d /\ dict_get d "active" = Some (VBool true).

(** [k] is in the collection, and deactivated wherever it is. *)
Definition deactivated (coll : list dict) (k : string) : Prop :=
  (exists d, In d coll /\ has_key k d)
  /\ forall d, In d coll -> has_key k d ->
               dict_get d "active" = Some (VBool false).

(** No document of the collection carries [k]. *)
Definition unknown (coll : list dict) (k : string) : Prop :=
  forall d, In d coll -> ~ has_key k d.

(** MongoDB gives every stored document an ["_id"]. *)
Definition has_ids (coll : list dict) : Prop :=
  forall d, In d coll -> dict_get d "_id" <> None.

(** An attempt succeeds when the endpoint answers 200, 201 or 202. *)
Definition attempt_succeeds (a : Attempt) : bool :=
  match a with
  | Response status_code =>
      ((status_code =? 200) || (status_code =? 201) || (status_code =? 202))%Z
  | Fails _ => false
  end.


(** The delivery loop unrolled: whether it delivers and the events it
    emits, over the attempts still to run, [p] POSTs having been issued. *)
Fixpoint attempts_trace (env : Env) (payload : Payload) (attempts : list nat)
    (p : nat) : bool * list Event :=
  match attempts with
  | [] => (false, [])
  | attempt :: rest =>
      if attempt_succeeds (webhook env p) then (true, [EvPost payload])
      else
        let '(b, evs) := attempts_trace env payload rest (S p) in
        (b, EvPost payload
              :: (if (Z.of_nat attempt <? WEBHOOK_RETRIES env - 1)%Z
                  then [EvSleep (2 ^ Z.of_nat attempt)] else [])
              ++ evs)
  end.



(** An extension is empty, or a dot followed by neither a dot nor a
    separator. *)
Definition extension_shape (ext : list ascii) : Prop :=
  ext = [] \/
  exists e, ext = "."%char :: e /\ ~ In "."%char e /\ ~ In "/"%char e.

(** The path of the temporary file of an upload. *)
Definition upload_path (env : Env) (f : string) : string :=
  tmpdir env ++ "/" ++ "tmp" ++ tmp_random_name (tmpname env)
         ++ snd (Py.splitext f).

(** The upload passes the check of the size it reports. *)
Definition reported_size_ok (a : UploadFile) : Prop :=
  forall n, size a = Some n -> (n = 0 \/ n <= settings.MAX_FILE_SIZE)%Z.

(** The check of the saved file fails: on its extension or on its size. *)
Definition saved_file_rejected (a : UploadFile) (f : string) : Prop :=
  Py.mem (Py.lower (snd (Py.splitext f)))
         [".mp3"; ".wav"; ".m4a"; ".mp4"; ".ogg"; ".flac"] = false
  \/ (settings.MAX_FILE_SIZE < Z.of_N (blob_len (content a)))%Z.

(** An extension can end the name of a temporary file: it holds no NUL,
    and with the eleven characters before it the name stays within 255
    bytes. *)
Definition extension_fits (ext : string) : Prop :=
  ~ In zero (Py.chars ext) /\ (utf8_length ext <= 244)%nat.

(** [n] is the value of the float [d] with its fraction dropped: the
    integer of the same sign whose magnitude [k] is the largest with
    [k <= |d|], where [|d|] is [m * 2 ^ e]. *)
Definition integer_part (d : float) (n : Z) : Prop :=
  match d with
  | S754_zero _ => n = 0%Z
  | S754_finite s m e =>
      exists k : Z,
        (0 <= k)%Z /\ n = (if s then - k else k)%Z /\
        if (0 <=? e)%Z then k = (Z.pos m * 2 ^ e)%Z
        else (k * 2 ^ (- e) <= Z.pos m < (k + 1) * 2 ^ (- e))%Z
  | S754_infinity _ | S754_nan => False
  end.

(** ** The handler by cases *)

(** The [HTTPException] that [transcribe_audio_file] makes of an
    exception of the engine. *)
Definition transcription_failure (e : exn) : exn :=
  match e with
  | FileNotFoundError _ =>
      if transcription_service.mentions_ffmpeg (str_exn e)
      then HTTPException 500 transcription_service.detail_ffmpeg
      else HTTPException 400 ("Failed to transcribe audio: " ++ str_exn e)
  | _ =>
      HTTPException 400
        ("Failed to transcribe audio: "
         ++ (if transcription_service.mentions_ffmpeg (str_exn e)
             then transcription_service.detail_ffmpeg
             else str_exn e))
  end.

(** What [transcribe_audio_file] returns on a path that holds [content]. *)
Definition engine_outcome (env : Env) (path : string) (content : Blob)
  : Result (string * string * float) :=
  match whisper_model env with
  | None => Raised (HTTPException 500 "Speech recognition model not loaded")
  | Some model =>
      match model path (Some content) with
      | Ok result =>
          Ok (Py.strip (res_text result),
              match res_language result with Some l => l | None => "pt" end,
              transcription_service.duration_of result)
      | Raised e => Raised (transcription_failure e)
      end
  end.

(** The events of that call: the engine runs when a model is loaded. *)
Definition engine_events (env : Env) (path : string) : list Event :=
  match whisper_model env with
  | Some _ => [EvTranscribe path]
  | None => []
  end.

(** The detail of the 400 for a rejected type. *)
Definition detail_unsupported (a : UploadFile) (f : string) : string :=
  let received :=
    "Unsupported audio type. Received: content_type='"
    ++ fmt_str (content_type a) ++ "', filename='" ++ f ++ "'" in
  (if Py.truthy (get_mime_from_extension f)
   then received ++ ", detected_mime_from_extension='"
        ++ fmt_str (get_mime_from_extension f) ++ "'"
   else received)
  ++ ". Allowed types: " ++ settings.ALLOWED_AUDIO_TYPES_repr.

(** [audio.size and audio.size > settings.MAX_FILE_SIZE] *)
Definition too_large (a : UploadFile) : bool :=
  match size a with
  | Some n => (negb (n =? 0) && (settings.MAX_FILE_SIZE <? n))%Z
  | None => false
  end.

(** The check of the saved file passes. *)
Definition saved_file_valid (a : UploadFile) (f : string) : bool :=
  negb (settings.MAX_FILE_SIZE <? Z.of_N (blob_len (content a)))%Z
  && Py.mem (Py.lower (snd (Py.splitext f)))
            transcription_service.allowed_extensions.

(** The temporary file of a request, when it has one. *)
Definition temp_path (env : Env) (audio : option UploadFile)
    (request_data : option TranscriptionRequest) : option string :=
  match upload_of audio with
  | Some (_, f) => Some (upload_path env f)
  | None =>
      match base64_of request_data with
      | Some _ => Some (base64_path env)
      | None => None
      end
  end.

Definition is_sleep (e : Event) : bool :=
  match e with EvSleep _ => true | _ => false end.

(** * Sample data *)

Module Sample.

(** A store with one active and one deactivated credential. *)
Definition alpha : dict :=
  [("_id", VObjectId "65a1f0c2e4b0a1b2c3d4e5f6");
   ("key", VStr "key-alpha");
   ("name", VStr "alpha");
   ("active", VBool true);
   ("created_at", VDate 1700000000);
   ("last_used", VNull)].

Definition beta : dict :=
  [("_id", VObjectId "65a1f0c2e4b0a1b2c3d4e5f7");
   ("key", VStr "key-beta");
   ("name", VStr "beta");
   ("active", VBool false);
   ("created_at", VDate 1700000001);
   ("last_used", VDate 1700000500)].

Definition store : list dict := [alpha; beta].

Definition store_up : auth.StoreEnv :=
  {| auth.utcnow := 1700001000;
     auth.find_fault := None;
     auth.update_fault := None |}.

(** The same store, losing its connection on the write. *)
Definition store_write_down : auth.StoreEnv :=
  {| auth.utcnow := 1700001000;
     auth.find_fault := None;
     auth.update_fault := Some (OtherException "connection closed") |}.

(** A speech engine that hears two and a half seconds of speech. *)
Definition hears : string -> option Blob -> Result WhisperResult :=
  fun _ _ =>
    Ok {| res_text := " ola mundo ";
          res_language := Some "pt";
          res_segments :=
            Some [ {| seg_end := Some (S754_finite false 1 0) |};
                   {| seg_end := Some (S754_finite false 5 (-1)) |} ] |}.

(** A host without ffmpeg: Whisper's subprocess call fails. *)
Definition no_ffmpeg : string -> option Blob -> Result WhisperResult :=
  fun _ _ =>
    Raised (FileNotFoundError "[Errno 2] No such file or directory: 'ffmpeg'").

(** An engine that cannot make sense of the bytes it is given. *)
Definition garbled : string -> option Blob -> Result WhisperResult :=
  fun _ _ =>
    Raised (OtherException
              "Failed to load audio: Invalid data found when processing input").

(** An engine whose last segment ends at no number. *)
Definition hears_nan : string -> option Blob -> Result WhisperResult :=
  fun _ _ =>
    Ok {| res_text := "ola";
          res_language := None;
          res_segments := Some [ {| seg_end := Some S754_nan |} ] |}.

Definition world (engine : string -> option Blob -> Result WhisperResult)
    (endpoint : nat -> Attempt) : Env :=
  {| WEBHOOK_RETRIES := settings.WEBHOOK_RETRIES_default;
     webhook := endpoint;
     whisper_model := Some engine;
     tmpdir := "/tmp";
     tmpname := [19; 4; 12; 15; 26; 27; 28; 36] |}.

(** An endpoint that is down, and one that accepts. *)
Definition down : nat -> Attempt := fun _ => Fails (ConnectError "All connection attempts failed").
Definition accepts : nat -> Attempt := fun _ => Response 202.

Definition credential : dict := alpha.

(** An upload of three bytes. *)
Definition upload : UploadFile :=
  {| filename := Some "sample.mp3";
     content_type := Some "audio/mpeg";
     size := Some 3%Z;
     content := blob_of_bytes [Byte.x49; Byte.x44; Byte.x33] |}.

(** An upload declared as MPEG audio under a name that is not. *)
Definition misnamed : UploadFile :=
  {| filename := Some "notes.txt";
     content_type := Some "audio/mpeg";
     size := Some 3%Z;
     content := blob_of_bytes [Byte.x49; Byte.x44; Byte.x33] |}.

(** The same, one byte above the maximum size. *)
Definition oversize : UploadFile :=
  {| filename := Some "notes.txt";
     content_type := Some "audio/mpeg";
     size := Some 26214401%Z;
     content := {| blob_len := 26214401; blob_at := fun _ => Byte.x00 |} |}.

(** A file part without a name. *)
Definition nameless : UploadFile :=
  {| filename := Some "";
     content_type := Some "audio/mpeg";
     size := Some 3%Z;
     content := blob_of_bytes [Byte.x49; Byte.x44; Byte.x33] |}.

(** An upload whose name ends in a dot and three hundred letters. *)
Definition long_named : UploadFile :=
  {| filename := Some ("a." ++ Py.str (repeat "x"%char 300));
     content_type := Some "audio/mpeg";
     size := Some 3%Z;
     content := blob_of_bytes [Byte.x49; Byte.x44; Byte.x33] |}.

Definition base64_request (text : string) : TranscriptionRequest :=
  {| audio_base64 := Some text; api_key := None |}.


(** The same request with the key in the [X-API-Key] header. *)
Definition key_in_header : Request :=
  {| x_api_key := Some "key-alpha";
     authorization := None;
     query_api_key_body := None;
     form_audio := Some upload;
     form_api_key_file := None;
     body_request_data := None |}.

(** An endpoint whose client refuses to encode the first three bodies and
    that accepts the fourth. *)
Definition refuses_three : nat -> Attempt :=
  fun n =>
    if (n <? 3)%nat
    then Fails (ValueError "Out of range float values are not JSON compliant")
    else Response 202.

(** The draws of one creation of a key. *)
Definition key_draws : auth_keys.KeyEnv :=
  {| auth_keys.token_urlsafe := "Zm9vYmFyYmF6cXV4Zm9vYmFyYmF6cXV4Zm9vYmFyYmE";
     auth_keys.new_object_id := "65a1f0c2e4b0a1b2c3d4e5f8";
     auth_keys.insert_fault := None |}.

End Sample.

(** * Properties *)

(** ** The embedding on concrete inputs *)

Example lower_mixed_case : Py.lower "Audio/MPEG" = "audio/mpeg".
Proof. reflexivity. Qed.

Example strip_then_lower :
  Py.lower (Py.strip ("  Audio/MPEG " ++ String (ascii_of_nat 9) ""))
  = "audio/mpeg".
Proof. reflexivity. Qed.

Example strip_separators :
  Py.strip (String (ascii_of_nat 28) "audio/wav" ++ String (ascii_of_nat 31) "")
  = "audio/wav".
Proof. reflexivity. Qed.

Example strip_blank : Py.strip " " = "".
Proof. reflexivity. Qed.

(** The white space below 256, and the characters below 256 that
    [lower] changes. *)
Example isspace_below_256 :
  filter (fun n => Py.isspace (ascii_of_nat n)) (seq 0 256)
  = [9; 10; 11; 12; 13; 28; 29; 30; 31; 32; 133; 160]%nat.
Proof. vm_compute. reflexivity. Qed.

Example lower_below_256 :
  map (fun n => (n, nat_of_ascii (Py.lower_char (ascii_of_nat n))))
      (filter (fun n => negb (nat_of_ascii (Py.lower_char (ascii_of_nat n)) =? n)%nat)
              (seq 0 256))
  = map (fun n => (n, n + 32)%nat) (seq 65 26 ++ seq 192 23 ++ seq 216 7)%list.
Proof. vm_compute. reflexivity. Qed.

Example strip_no_break_space :
  Py.strip (String "160"%char "audio/mpeg" ++ String "133"%char "")
  = "audio/mpeg".
Proof. reflexivity. Qed.

Example lower_latin_capital : Py.lower (String "201"%char "T" ++ String "201"%char "")
                              = String "233"%char "t" ++ String "233"%char "".
Proof. reflexivity. Qed.

Example splitext_upper : Py.splitext "sample.MP3" = ("sample", ".MP3").
Proof. reflexivity. Qed.

Example splitext_hidden : Py.splitext "dir.d/.bashrc" = ("dir.d/.bashrc", "").
Proof. reflexivity. Qed.

Example splitext_two : Py.splitext "/tmp/a.tar.gz" = ("/tmp/a.tar", ".gz").
Proof. reflexivity. Qed.

Example splitext_leading_dots : Py.splitext "..x" = ("..x", "").
Proof. reflexivity. Qed.

Example splitext_trailing_dot : Py.splitext "archive.tar." = ("archive.tar", ".").
Proof. reflexivity. Qed.

Example splitext_dot_in_directory : Py.splitext "x/y.z/w" = ("x/y.z/w", "").
Proof. reflexivity. Qed.

Example splitext_hidden_with_extension : Py.splitext "a/.b.c" = ("a/.b", ".c").
Proof. reflexivity. Qed.

Example str_of_negative : Py.str_of_int (-12) = "-12".
Proof. reflexivity. Qed.

Example int_of_two_and_a_half : int_of_float (S754_finite false 5 (-1)) = Ok 2%Z.
Proof. reflexivity. Qed.

Example int_of_minus_two_and_a_half :
  int_of_float (S754_finite true 5 (-1)) = Ok (-2)%Z.
Proof. reflexivity. Qed.

Example int_of_a_thousand : int_of_float (S754_finite false 125 3) = Ok 1000%Z.
Proof. reflexivity. Qed.

Example flac_is_not_allowed :
  validate_audio_type (Some "audio/flac") (Some "take.flac") = false.
Proof. reflexivity. Qed.

Example no_break_space_before_type :
  validate_audio_type (Some (String "160"%char "audio/mpeg")) None = true.
Proof. reflexivity. Qed.

Example extension_rescues_generic_type :
  validate_audio_type (Some "application/octet-stream") (Some "take.OGG") = true.
Proof. reflexivity. Qed.

Example b64decode_padded : base64.b64decode "QUI=" = Ok [Byte.x41; Byte.x42].
Proof. reflexivity. Qed.

Example b64decode_skips_outsiders : base64.b64decode "Q!U@J#D" = Ok [Byte.x41; Byte.x42; Byte.x43].
Proof. reflexivity. Qed.

Example b64decode_one_character :
  base64.b64decode "a"
  = Raised (BinasciiError
              "Invalid base64-encoded string: number of data characters (1) cannot be 1 more than a multiple of 4").
Proof. reflexivity. Qed.

Example b64decode_padding_in_the_middle :
  base64.b64decode "ab=c" = Raised (BinasciiError "Incorrect padding").
Proof. reflexivity. Qed.

(** ** Strings *)

Lemma chars_str (l : list ascii) : Py.chars (Py.str l) = l.
Proof. apply list_ascii_of_string_of_list_ascii. Qed.

Lemma str_chars (s : string) : Py.str (Py.chars s) = s.
Proof. apply string_of_list_ascii_of_string. Qed.

Lemma chars_app (a b : string) : Py.chars (a ++ b) = (Py.chars a ++ Py.chars b)%list.
Proof.
  induction a as [|c a IH]; simpl; [reflexivity|].
  unfold Py.chars in *. simpl. now rewrite IH.
Qed.

Lemma chars_inj (a b : string) : Py.chars a = Py.chars b -> a = b.
Proof.
  intro H. rewrite <- (str_chars a), <- (str_chars b). now rewrite H.
Qed.








Lemma mem_In (x : string) (l : list string) : Py.mem x l = true <-> In x l.
Proof.
  unfold Py.mem. rewrite existsb_exists. split.
  - intros [y [Hy E]]. apply String.eqb_eq in E. now subst.
  - intro H. exists x. split; [assumption|apply String.eqb_refl].
Qed.



(** ** The payload-type validator *)


Lemma allowed_table_value (m : option string) :
  allowed m
  = match m with
    | Some mime => Py.mem mime settings.ALLOWED_AUDIO_TYPES
    | None => false
    end.
Proof.
  destruct m as [[|c s]|]; reflexivity.
Qed.





(** ** The authenticator *)

Lemma value_eqb_eq (a b : value) : value_eqb a b = true <-> a = b.
Proof.
  destruct a, b; simpl; split; intro H; try discriminate; try reflexivity.
  - apply String.eqb_eq in H. now subst.
  - injection H as ->. apply String.eqb_refl.
  - apply Bool.eqb_prop in H. now subst.
  - injection H as ->. apply Bool.eqb_reflx.
  - apply Z.eqb_eq in H. now subst.
  - injection H as ->. apply Z.eqb_refl.
  - apply String.eqb_eq in H. now subst.
  - injection H as ->. apply String.eqb_refl.
Qed.

Lemma matches_key_active (k : string) (d : dict) :
  auth.matches [("key", VStr k); ("active", VBool true)] d = true
  <-> has_key k d /\ dict_get d "active" = Some (VBool true).
Proof.
  unfold auth.matches, has_key. cbn [forallb fst snd].
  rewrite andb_true_r, andb_true_iff.
  destruct (dict_get d "key") as [v|], (dict_get d "active") as [w|];
    rewrite ?value_eqb_eq; split; intros [H1 H2];
    try discriminate; split; congruence.
Qed.

(** The [or] chain picks the first candidate that is present and not
    empty. *)
Lemma or_chain_first_nonempty (h a b : option string) :
  let api_key := Py.or_ (Py.or_ h a) b in
  (Py.truthy api_key = true /\ first_nonempty [h; a; b] = api_key)
  \/ (Py.truthy api_key = false /\ first_nonempty [h; a; b] = None).
Proof.
  unfold Py.or_. cbn [first_nonempty].
  destruct (Py.truthy h) eqn:Eh; rewrite ?Eh; [left; auto|].
  destruct (Py.truthy a) eqn:Ea; rewrite ?Ea; [left; auto|].
  destruct (Py.truthy b) eqn:Eb; [left; auto|right; auto].
Qed.

Lemma validate_api_key_selected (env : auth.StoreEnv)
    (h a b : option string) (coll : list dict) :
  auth.validate_api_key env h a b coll
  = auth.validate_api_key env (first_nonempty [h; a; b]) None None coll.
Proof.
  unfold auth.validate_api_key.
  destruct (or_chain_first_nonempty h a b) as [[Ht ->]|[Ht ->]].
  - set (api_key := Py.or_ (Py.or_ h a) b) in *.
    assert (Py.or_ (Py.or_ api_key None) None = api_key) as ->; [|reflexivity].
    unfold Py.or_ at 1 2. rewrite Ht. now rewrite Ht.
  - rewrite Ht. reflexivity.
Qed.

Lemma find_first_match {A} (f : A -> bool) (l : list A) (x : A) :
  In x l -> f x = true -> exists y, find f l = Some y.
Proof.
  intros Hin Hf. destruct (find f l) as [y|] eqn:E; [now exists y|].
  pose proof (find_none f l E x Hin). congruence.
Qed.

(** What [validate_api_key] does once a candidate has been selected and
    the store has found its document. *)
Lemma validate_api_key_found (env : auth.StoreEnv) (h a b : option string)
    (coll : list dict) (k : string) (key_doc : dict) (id : value) :
  first_nonempty [h; a; b] = Some k ->
  auth.find_fault env = None ->
  find (auth.matches [("key", VStr k); ("active", VBool true)]) coll
  = Some key_doc ->
  dict_get key_doc "_id" = Some id ->
  auth.validate_api_key env h a b coll
  = match auth.update_fault env with
    | Some e => (Raised e, coll)
    | None =>
        (Ok key_doc,
         auth.set_first [("_id", id)] [("last_used", VDate (auth.utcnow env))] coll)
    end.
Proof.
  intros Hsel Hfind Hdoc Hid.
  rewrite validate_api_key_selected, Hsel.
  assert (Hk : Py.nonempty k = true).
  { destruct (or_chain_first_nonempty h a b) as [[Ht E]|[_ E]];
      rewrite Hsel in E; [|discriminate].
    rewrite <- E in Ht. exact Ht. }
  assert (Ht : Py.truthy (Some k) = true) by exact Hk.
  unfold auth.validate_api_key.
  assert (Py.or_ (Py.or_ (Some k) None) None = Some k) as ->.
  { unfold Py.or_. rewrite Ht. now rewrite Ht. }
  rewrite Ht. cbn [negb].
  unfold auth.find_one. rewrite Hfind, Hdoc.
  destruct key_doc as [|kv key_doc]; [discriminate|].
  rewrite Hid. unfold auth.update_one.
  destruct (auth.update_fault env); reflexivity.
Qed.

(** The function [validate_api_key] on its three parameters.  It uses the
    first that is present and not empty, in the order [api_key_header],
    [api_key_auth], [api_key_body]: the call behaves as the call that
    presents that candidate alone.  With no such candidate it raises 401
    and leaves the store alone.  With the first two empty and a third that
    is the key of an active credential, it returns a document of the store
    that carries that key and is active (the store answering both
    calls). *)
Lemma validate_api_key_priority (env : auth.StoreEnv)
    (api_key_header api_key_auth api_key_body : option string)
    (coll : list dict) :
  auth.validate_api_key env api_key_header api_key_auth api_key_body coll
  = auth.validate_api_key env
      (first_nonempty [api_key_header; api_key_auth; api_key_body]) None None coll
  /\ (first_nonempty [api_key_header; api_key_auth; api_key_body] = None ->
      auth.validate_api_key env api_key_header api_key_auth api_key_body coll
      = (Raised (HTTPException 401 auth.detail_key_required), coll))
  /\ (forall k,
         Py.truthy api_key_header = false ->
         Py.truthy api_key_auth = false ->
         api_key_body = Some k ->
         Py.nonempty k = true ->
         valid_active coll k ->
         has_ids coll ->
         auth.find_fault env = None ->
         auth.update_fault env = None ->
         exists key_doc,
           fst (auth.validate_api_key env api_key_header api_key_auth
                                      api_key_body coll) = Ok key_doc
           /\ In key_doc coll /\ has_key k key_doc
           /\ dict_get key_doc "active" = Some (VBool true)).
Proof.
  split; [apply validate_api_key_selected|split].
  - intro H. rewrite validate_api_key_selected, H. reflexivity.
  - intros k Hh Ha Hb Hk (d & Hin & Hkey & Hact) Hids Hff Huf.
    destruct (find_first_match
                (auth.matches [("key", VStr k); ("active", VBool true)])
                coll d Hin) as [key_doc Hfind].
    { apply matches_key_active. auto. }
    destruct (find_some _ _ Hfind) as [Hin' Hm].
    apply matches_key_active in Hm as [Hkey' Hact'].
    destruct (dict_get key_doc "_id") as [id|] eqn:Hid;
      [|now elim (Hids key_doc Hin')].
    exists key_doc.
    rewrite (validate_api_key_found env _ _ _ coll k key_doc id); auto.
    + rewrite Huf. auto.
    + cbn [first_nonempty]. rewrite Hh, Ha, Hb. cbn [Py.truthy]. now rewrite Hk.
Qed.

Lemma sample_store_has_ids : has_ids Sample.store.
Proof.
  intros d [<-|[<-|[]]]; discriminate.
Qed.

Lemma sample_alpha_valid : valid_active Sample.store "key-alpha".
Proof.
  exists Sample.alpha. repeat split. now left.
Qed.

(** The lemma at a call whose only candidate is the third parameter. *)
Lemma validate_api_key_priority_witness :
  exists key_doc,
    fst (auth.validate_api_key Sample.store_up None None (Some "key-alpha")
                               Sample.store) = Ok key_doc
    /\ In key_doc Sample.store /\ has_key "key-alpha" key_doc
    /\ dict_get key_doc "active" = Some (VBool true).
Proof.
  destruct (validate_api_key_priority Sample.store_up None None
              (Some "key-alpha") Sample.store) as (_ & _ & H).
  apply (H "key-alpha"); try reflexivity.
  - exact sample_alpha_valid.
  - exact sample_store_has_ids.
Defined.



(** The same key in the [X-API-Key] header: the request is served. *)
Example header_key_is_accepted :
  fst (fst (post_transcribe Sample.store_up
              (Sample.world Sample.hears Sample.accepts)
              Sample.key_in_header Sample.store initial))
  = Ok [("message", JStr "Transcription completed");
        ("status", JStr "success");
        ("text", JStr "ola mundo");
        ("language", JStr "pt");
        ("duration", JFloat (S754_finite false 5 (-1)));
        ("webhook_delivered", JBool true);
        ("transcription_id", JStr "trans_65a1f0c2e4b0a1b2c3d4e5f6_2")].
Proof. reflexivity. Qed.

Lemma validate_api_key_not_found (env : auth.StoreEnv) (h a b : option string)
    (coll : list dict) (k : string) :
  first_nonempty [h; a; b] = Some k ->
  find (auth.matches [("key", VStr k); ("active", VBool true)]) coll = None ->
  auth.validate_api_key env h a b coll
  = match auth.find_fault env with
    | Some e => (Raised e, coll)
    | None => (Raised (HTTPException 401 auth.detail_invalid_key), coll)
    end.
Proof.
  intros Hsel Hnone.
  rewrite validate_api_key_selected, Hsel.
  assert (Ht : Py.truthy (Some k) = true).
  { destruct (or_chain_first_nonempty h a b) as [[Ht E]|[_ E]];
      rewrite Hsel in E; [|discriminate].
    rewrite <- E in Ht. exact Ht. }
  unfold auth.validate_api_key.
  assert (Py.or_ (Py.or_ (Some k) None) None = Some k) as ->.
  { unfold Py.or_. rewrite Ht. now rewrite Ht. }
  rewrite Ht. cbn [negb]. unfold auth.find_one.
  destruct (auth.find_fault env); [reflexivity|]. now rewrite Hnone.
Qed.

Lemma find_no_match {A} (f : A -> bool) (l : list A) :
  (forall x, In x l -> f x = false) -> find f l = None.
Proof.
  induction l as [|x l IH]; intro H; [reflexivity|]. simpl.
  rewrite (H x (or_introl eq_refl)). apply IH. intros y Hy. apply H. now right.
Qed.

Lemma find_deactivated (coll : list dict) (k : string) :
  deactivated coll k ->
  find (auth.matches [("key", VStr k); ("active", VBool true)]) coll = None.
Proof.
  intros [_ H]. apply find_no_match. intros d Hin.
  destruct (auth.matches _ d) eqn:E; [|reflexivity].
  apply matches_key_active in E as [Hk Ha].
  rewrite (H d Hin Hk) in Ha. discriminate.
Qed.

Lemma find_unknown (coll : list dict) (k : string) :
  unknown coll k ->
  find (auth.matches [("key", VStr k); ("active", VBool true)]) coll = None.
Proof.
  intro H. apply find_no_match. intros d Hin.
  destruct (auth.matches _ d) eqn:E; [|reflexivity].
  apply matches_key_active in E as [Hk _]. now elim (H d Hin).
Qed.

(** C2, as the code has it.  For a request that presents the key of an
    active credential, with the store answering the lookup: when the write
    of [last_used] succeeds the authenticator returns the credential, and
    when the write raises, the authenticator raises the same exception. *)
Theorem validate_api_key_bookkeeping (env : auth.StoreEnv)
    (api_key_header api_key_auth api_key_body : option string)
    (coll : list dict) (k : string) :
  first_nonempty [api_key_header; api_key_auth; api_key_body] = Some k ->
  valid_active coll k ->
  has_ids coll ->
  auth.find_fault env = None ->
  (auth.update_fault env = None ->
   exists key_doc,
     fst (auth.validate_api_key env api_key_header api_key_auth
                                api_key_body coll) = Ok key_doc
     /\ In key_doc coll /\ has_key k key_doc
     /\ dict_get key_doc "active" = Some (VBool true))
  /\ (forall e, auth.update_fault env = Some e ->
        auth.validate_api_key env api_key_header api_key_auth api_key_body coll
        = (Raised e, coll)).
Proof.
  intros Hsel (d & Hin & Hkey & Hact) Hids Hff.
  destruct (find_first_match
              (auth.matches [("key", VStr k); ("active", VBool true)])
              coll d Hin) as [key_doc Hfind].
  { apply matches_key_active. auto. }
  destruct (find_some _ _ Hfind) as [Hin' Hm].
  apply matches_key_active in Hm as [Hkey' Hact'].
  destruct (dict_get key_doc "_id") as [id|] eqn:Hid;
    [|now elim (Hids key_doc Hin')].
  rewrite (validate_api_key_found env _ _ _ coll k key_doc id Hsel Hff Hfind Hid).
  split.
  - intros ->. exists key_doc. auto.
  - intros e ->. reflexivity.
Qed.

(** The theorem at the sample store with its write failing. *)
Lemma validate_api_key_bookkeeping_witness :
  auth.validate_api_key Sample.store_write_down (Some "key-alpha") None None
                        Sample.store
  = (Raised (OtherException "connection closed"), Sample.store).
Proof.
  destruct (validate_api_key_bookkeeping Sample.store_write_down
              (Some "key-alpha") None None Sample.store "key-alpha"
              eq_refl sample_alpha_valid sample_store_has_ids eq_refl)
    as [_ H].
  apply H. reflexivity.
Defined.

(** C2 as stated fails: the credential is valid and active, the write
    fails, and the authenticator raises instead of returning it. *)
Lemma bookkeeping_failure_not_absorbed :
  valid_active Sample.store "key-alpha"
  /\ auth.update_fault Sample.store_write_down
     = Some (OtherException "connection closed")
  /\ fst (auth.validate_api_key Sample.store_write_down (Some "key-alpha")
                                None None Sample.store)
     = Raised (OtherException "connection closed")
  /\ forall key_doc,
       fst (auth.validate_api_key Sample.store_write_down (Some "key-alpha")
                                  None None Sample.store) <> Ok key_doc.
Proof.
  split; [exact sample_alpha_valid|]. split; [reflexivity|].
  split; [reflexivity|]. intros key_doc. discriminate.
Qed.

(** C7. A request whose selected key is deactivated and a request whose
    selected key is not in the store get the same outcome from the
    authenticator, and with the store answering the lookup that outcome is
    the 401 with the detail "Invalid or inactive API key", the store left
    as it was. *)
Theorem validate_api_key_indistinguishable (env : auth.StoreEnv)
    (coll : list dict)
    (header1 auth1 body1 header2 auth2 body2 : option string)
    (k1 k2 : string) :
  first_nonempty [header1; auth1; body1] = Some k1 ->
  first_nonempty [header2; auth2; body2] = Some k2 ->
  deactivated coll k1 ->
  unknown coll k2 ->
  auth.validate_api_key env header1 auth1 body1 coll
  = auth.validate_api_key env header2 auth2 body2 coll
  /\ (auth.find_fault env = None ->
      auth.validate_api_key env header1 auth1 body1 coll
      = (Raised (HTTPException 401 "Invalid or inactive API key"), coll)).
Proof.
  intros H1 H2 Hd Hu.
  rewrite (validate_api_key_not_found env _ _ _ coll k1 H1 (find_deactivated _ _ Hd)).
  rewrite (validate_api_key_not_found env _ _ _ coll k2 H2 (find_unknown _ _ Hu)).
  split; [reflexivity|]. intros ->. reflexivity.
Qed.

(** The theorem at the deactivated key of the sample store, sent in the
    header, and a key the store has never seen, sent as a bearer token. *)
Lemma validate_api_key_indistinguishable_witness :
  auth.validate_api_key Sample.store_up (Some "key-beta") None None Sample.store
  = auth.validate_api_key Sample.store_up None (Some "key-gamma") None Sample.store
  /\ auth.validate_api_key Sample.store_up (Some "key-beta") None None Sample.store
     = (Raised (HTTPException 401 "Invalid or inactive API key"), Sample.store).
Proof.
  destruct (validate_api_key_indistinguishable Sample.store_up Sample.store
              (Some "key-beta") None None None (Some "key-gamma") None
              "key-beta" "key-gamma" eq_refl eq_refl) as [E H].
  - split.
    + exists Sample.beta. split; [right; now left|reflexivity].
    + intros d [<-|[<-|[]]] Hk; [discriminate|reflexivity].
  - intros d [<-|[<-|[]]] Hk; discriminate.
  - split; [exact E|apply H; reflexivity].
Defined.

(** ** The monad and the trace *)

Lemma count_posts_app (l1 l2 : list Event) :
  count_posts (l1 ++ l2) = (count_posts l1 + count_posts l2)%nat.
Proof.
  unfold count_posts. now rewrite filter_app, length_app.
Qed.

Lemma sleeps_app (l1 l2 : list Event) :
  sleeps (l1 ++ l2) = (sleeps l1 ++ sleeps l2)%list.
Proof.
  induction l1 as [|e l1 IH]; [reflexivity|].
  destruct e; simpl; rewrite IH; reflexivity.
Qed.

Lemma state_eta (st : State) : {| files := files st; log := log st |} = st.
Proof. now destruct st. Qed.

(** ** Delivery of the result *)

Lemma accepted_succeeds (status_code : Z) :
  webhook_service.accepted status_code = attempt_succeeds (Response status_code).
Proof.
  unfold webhook_service.accepted. simpl. now rewrite orb_false_r, orb_assoc.
Qed.

(** One guarded POST: it never raises, and adds one event. *)
Lemma guarded_post (env : Env) (payload : Payload)
    (handler : exn -> M bool) (st : State) :
  (forall e st', handler e st' = (Ok false, st')) ->
  try_except
    (status_code <- webhook_service.post env payload ;;
     ret (webhook_service.accepted status_code))
    handler st
  = (Ok (attempt_succeeds (webhook env (count_posts (log st)))),
     {| files := files st; log := log st ++ [EvPost payload] |}).
Proof.
  intro Hh.
  unfold webhook_service.post. unfold_m. cbn [files log].
  destruct (webhook env (count_posts (log st))) as [status_code|e].
  - now rewrite accepted_succeeds.
  - now rewrite Hh.
Qed.

Lemma send_loop_trace (env : Env) (payload : Payload) (attempts : list nat) :
  forall st,
    webhook_service.send_loop env payload attempts st
    = (Ok (fst (attempts_trace env payload attempts (count_posts (log st)))),
       {| files := files st;
          log := log st
                 ++ snd (attempts_trace env payload attempts
                                        (count_posts (log st))) |}).
Proof.
  induction attempts as [|attempt rest IH]; intro st.
  - cbn. rewrite app_nil_r. now rewrite state_eta.
  - cbn [webhook_service.send_loop attempts_trace].
    unfold bind at 1. rewrite guarded_post by (intros [] ?; reflexivity).
    destruct (attempt_succeeds (webhook env (count_posts (log st)))) eqn:E.
    + reflexivity.
    + unfold bind at 1.
      destruct (Z.of_nat attempt <? WEBHOOK_RETRIES env - 1)%Z.
      * unfold emit. cbn [files log]. rewrite IH. cbn [files log].
        rewrite !count_posts_app. cbn.
        replace (count_posts (log st) + 1 + 0)%nat with (S (count_posts (log st))) by lia.
        destruct (attempts_trace env payload rest (S (count_posts (log st))))
          as [b evs]. cbn [fst snd].
        now rewrite <- !app_assoc.
      * unfold ret. rewrite IH. cbn [files log].
        rewrite !count_posts_app. cbn.
        replace (count_posts (log st) + 1)%nat with (S (count_posts (log st))) by lia.
        destruct (attempts_trace env payload rest (S (count_posts (log st))))
          as [b evs]. cbn [fst snd].
        now rewrite <- !app_assoc.
Qed.



Section Delivery.

Variable env : Env.
Variable payload : Payload.





End Delivery.







(** ** Paths *)

Lemma rfind_from_app (c : ascii) (l1 l2 : list ascii) :
  forall i last,
    Py.rfind_from c (l1 ++ l2) i last
    = Py.rfind_from c l2 (i + Z.of_nat (List.length l1))
                    (Py.rfind_from c l1 i last).
Proof.
  induction l1 as [|x l1 IH]; intros i last; cbn [Py.rfind_from app List.length].
  - now rewrite Z.add_0_r.
  - rewrite IH. f_equal. lia.
Qed.

Lemma rfind_from_absent (c : ascii) (l : list ascii) :
  forall i last, ~ In c l -> Py.rfind_from c l i last = last.
Proof.
  induction l as [|x l IH]; intros i last H; [reflexivity|].
  cbn [Py.rfind_from].
  destruct (Ascii.eqb x c) eqn:E.
  - apply Ascii.eqb_eq in E. subst. elim H. now left.
  - apply IH. intro Hin. apply H. now right.
Qed.

Lemma rfind_from_lt (c : ascii) (l : list ascii) :
  forall i last,
    (last < i + Z.of_nat (List.length l))%Z ->
    (Py.rfind_from c l i last < i + Z.of_nat (List.length l))%Z.
Proof.
  induction l as [|x l IH]; intros i last H; cbn [Py.rfind_from List.length] in *.
  - assumption.
  - replace (i + Z.of_nat (S (List.length l)))%Z
      with (i + 1 + Z.of_nat (List.length l))%Z in * by lia.
    apply IH. destruct (Ascii.eqb x c); lia.
Qed.

(** The index of the last occurrence. *)
Lemma rfind_last (c : ascii) (l1 l2 : list ascii) :
  ~ In c l2 ->
  Py.rfind c (l1 ++ c :: l2) = Z.of_nat (List.length l1).
Proof.
  intro H. unfold Py.rfind. rewrite rfind_from_app. cbn [Py.rfind_from].
  rewrite Ascii.eqb_refl. now rewrite rfind_from_absent.
Qed.

Lemma rfind_absent (c : ascii) (l : list ascii) :
  ~ In c l -> Py.rfind c l = (-1)%Z.
Proof. intro H. unfold Py.rfind. now apply rfind_from_absent. Qed.

Lemma last_occurrence (c : ascii) (l : list ascii) :
  In c l -> exists l1 l2, l = (l1 ++ c :: l2)%list /\ ~ In c l2.
Proof.
  induction l as [|x l IH]; intro H; [contradiction|].
  destruct (in_dec ascii_dec c l) as [Hin|Hout].
  - destruct (IH Hin) as (l1 & l2 & -> & Hl2).
    exists (x :: l1), l2. split; [reflexivity|assumption].
  - destruct H as [->|H]; [|contradiction].
    exists [], l. split; [reflexivity|assumption].
Qed.

Lemma skipn_length_app {A} (l1 l2 : list A) :
  skipn (List.length l1) (l1 ++ l2) = l2.
Proof. induction l1; [reflexivity|assumption]. Qed.

Lemma firstn_length_app {A} (l1 l2 : list A) :
  firstn (List.length l1) (l1 ++ l2) = l1.
Proof. induction l1 as [|x l1 IH]; [reflexivity|]. cbn. now rewrite IH. Qed.

Lemma splitext_chars_shape (p : list ascii) :
  extension_shape (snd (Py.splitext_chars p)).
Proof.
  unfold Py.splitext_chars.
  destruct (Py.rfind "/" p <? Py.rfind "." p)%Z eqn:Hlt; [|now left].
  match goal with |- context [Py.all_dots ?l] => destruct (Py.all_dots l) end;
    [now left|].
  cbn [snd]. apply Z.ltb_lt in Hlt.
  destruct (in_dec ascii_dec "."%char p) as [Hdot|Hdot].
  - destruct (last_occurrence _ _ Hdot) as (l1 & l2 & -> & Hl2).
    rewrite (rfind_last _ l1 l2 Hl2) in *.
    rewrite Nat2Z.id, skipn_length_app.
    right. exists l2. split; [reflexivity|]. split; [assumption|].
    intro Hsep. destruct (last_occurrence _ _ Hsep) as (m1 & m2 & -> & Hm2).
    replace (l1 ++ "."%char :: m1 ++ "/"%char :: m2)%list
      with ((l1 ++ "."%char :: m1) ++ "/"%char :: m2)%list in Hlt
      by (rewrite <- app_assoc; reflexivity).
    rewrite (rfind_last _ _ m2 Hm2) in Hlt.
    rewrite length_app in Hlt. cbn [List.length] in Hlt. lia.
  - rewrite (rfind_absent _ _ Hdot) in Hlt.
    pose proof (rfind_from_lt "/"%char p 0 (-1)) as Hb.
    destruct (in_dec ascii_dec "/"%char p) as [Hsep|Hsep].
    + destruct (last_occurrence _ _ Hsep) as (m1 & m2 & -> & Hm2).
      rewrite (rfind_last _ _ m2 Hm2) in Hlt. lia.
    + rewrite (rfind_absent _ _ Hsep) in Hlt. lia.
Qed.

Lemma tmp_characters_plain (c : ascii) :
  In c tmp_characters -> c <> "."%char /\ c <> "/"%char.
Proof.
  intro H.
  assert (forallb (fun x => negb (Ascii.eqb x ".") && negb (Ascii.eqb x "/"))
                  tmp_characters = true) as Hall by reflexivity.
  rewrite forallb_forall in Hall. specialize (Hall c H).
  apply andb_prop in Hall as [H1 H2].
  split; intro E; subst; discriminate.
Qed.

Lemma tmp_random_name_plain (draws : list nat) :
  ~ In "."%char (Py.chars (tmp_random_name draws))
  /\ ~ In "/"%char (Py.chars (tmp_random_name draws)).
Proof.
  unfold tmp_random_name. rewrite chars_str.
  generalize (firstn 8 (draws ++ repeat 0 8))%list. intro l.
  assert (H : forall c,
             In c (map (fun i => nth (i mod 37) tmp_characters "_"%char) l) ->
             c <> "."%char /\ c <> "/"%char).
  { intros c Hc. apply in_map_iff in Hc as (i & <- & _).
    destruct (nth_in_or_default (i mod 37) tmp_characters "_"%char) as [Hin | ->].
    - now apply tmp_characters_plain.
    - split; discriminate. }
  split; intro Hin; destruct (H _ Hin) as [H1 H2]; congruence.
Qed.

(** The extension of a temporary path is the suffix it was created
    with, when that suffix is itself an extension. *)
Lemma splitext_chars_tmp (d nm suf : list ascii) :
  ~ In "."%char nm -> ~ In "/"%char nm ->
  extension_shape suf ->
  snd (Py.splitext_chars
         (d ++ "/"%char :: "t"%char :: "m"%char :: "p"%char :: nm ++ suf))
  = suf.
Proof.
  intros Hdot Hsep [-> | (e & -> & He1 & He2)].
  - rewrite app_nil_r. unfold Py.splitext_chars.
    set (rest := ("t"%char :: "m"%char :: "p"%char :: nm)%list).
    assert (Hr1 : ~ In "/"%char rest).
    { cbn. intros [E|[E|[E|E]]]; try discriminate. contradiction. }
    assert (Hr2 : ~ In "."%char ("/"%char :: rest)).
    { cbn. intros [E|[E|[E|[E|E]]]]; try discriminate. contradiction. }
    rewrite (rfind_last "/"%char d rest Hr1).
    assert (Py.rfind "." (d ++ "/"%char :: rest) < Z.of_nat (List.length d))%Z.
    { unfold Py.rfind. rewrite rfind_from_app.
      rewrite (rfind_from_absent _ _ _ _ Hr2).
      apply (rfind_from_lt "."%char d 0 (-1)). lia. }
    assert ((Z.of_nat (List.length d) <? Py.rfind "." (d ++ "/"%char :: rest))%Z
            = false) as -> by (apply Z.ltb_ge; lia).
    reflexivity.
  - unfold Py.splitext_chars.
    set (base := ("t"%char :: "m"%char :: "p"%char :: nm)%list).
    set (rest := ("t"%char :: "m"%char :: "p"%char :: nm ++ "."%char :: e)%list).
    assert (Hrest : rest = (base ++ "."%char :: e)%list) by reflexivity.
    assert (Hr1 : ~ In "/"%char rest).
    { rewrite Hrest. rewrite in_app_iff. cbn.
      intros [[E|[E|[E|E]]]|[E|E]]; try discriminate; contradiction. }
    rewrite (rfind_last "/"%char d rest Hr1).
    assert (Hp : (d ++ "/"%char :: rest
                  = (d ++ "/"%char :: base) ++ "."%char :: e)%list).
    { rewrite Hrest, <- app_assoc. reflexivity. }
    assert (Hd : Py.rfind "." (d ++ "/"%char :: rest)
                 = Z.of_nat (List.length (d ++ "/"%char :: base))).
    { rewrite Hp. now apply rfind_last. }
    rewrite Hd.
    assert (Hlen : List.length (d ++ "/"%char :: base)
                   = (List.length d + 1 + (3 + List.length nm))%nat).
    { rewrite length_app. cbn. lia. }
    assert ((Z.of_nat (List.length d)
             <? Z.of_nat (List.length (d ++ "/"%char :: base)))%Z = true) as ->.
    { apply Z.ltb_lt. lia. }
    replace (Z.to_nat (Z.of_nat (List.length d) + 1))
      with (List.length (d ++ ["/"%char])) by (rewrite length_app; cbn; lia).
    replace (d ++ "/"%char :: rest)%list with ((d ++ ["/"%char]) ++ rest)%list
      at 1 by (rewrite <- app_assoc; reflexivity).
    rewrite skipn_length_app, Nat2Z.id.
    replace (List.length (d ++ "/"%char :: base) - List.length (d ++ ["/"%char]))%nat
      with (S (2 + List.length nm))
      by (rewrite Hlen, length_app; cbn; lia).
    unfold rest at 1. cbn [firstn Py.all_dots Ascii.eqb Bool.eqb andb].
    cbn [snd]. rewrite Hp. apply skipn_length_app.
Qed.

Lemma splitext_tmp (dir : string) (draws : list nat) (f : string) :
  snd (Py.splitext (dir ++ "/" ++ "tmp" ++ tmp_random_name draws
                        ++ snd (Py.splitext f)))
  = snd (Py.splitext f).
Proof.
  destruct (tmp_random_name_plain draws) as [Hdot Hsep].
  pose proof (splitext_chars_shape (Py.chars f)) as Hshape.
  unfold Py.splitext at 1.
  rewrite !chars_app. cbn [Py.chars list_ascii_of_string app].
  fold (Py.chars (tmp_random_name draws)).
  fold (Py.chars (snd (Py.splitext f))).
  assert (Hsuf : Py.chars (snd (Py.splitext f)) = snd (Py.splitext_chars (Py.chars f))).
  { unfold Py.splitext. destruct (Py.splitext_chars (Py.chars f)) as [r e].
    cbn [snd]. apply chars_str. }
  rewrite Hsuf.
  pose proof (splitext_chars_tmp (Py.chars dir) (Py.chars (tmp_random_name draws))
                _ Hdot Hsep Hshape) as H.
  destruct (Py.splitext_chars _) as [r e] in H |- *.
  cbn [snd] in *. rewrite H. rewrite <- Hsuf. apply str_chars.
Qed.

(** ** The name of the temporary file *)

Lemma utf8_length_app (a b : string) :
  utf8_length (a ++ b) = (utf8_length a + utf8_length b)%nat.
Proof.
  unfold utf8_length. rewrite chars_app.
  induction (Py.chars a) as [|c r IH]; cbn [app fold_right]; [reflexivity|].
  rewrite IH. lia.
Qed.

Lemma tmp_characters_ascii (c : ascii) :
  In c ("_"%char :: tmp_characters) -> utf8_width c = 1%nat.
Proof.
  assert (forallb (fun x => (utf8_width x =? 1)%nat)
                  ("_"%char :: tmp_characters) = true) as Hall by reflexivity.
  rewrite forallb_forall in Hall. intro H. apply Nat.eqb_eq. now apply Hall.
Qed.

Lemma utf8_length_drawn (l : list nat) :
  fold_right (fun c n => (utf8_width c + n)%nat) 0%nat
             (map (fun i => nth (i mod 37) tmp_characters "_"%char) l)
  = List.length l.
Proof.
  induction l as [|i r IH]; cbn [map fold_right List.length]; [reflexivity|].
  rewrite IH, tmp_characters_ascii; [reflexivity|].
  destruct (nth_in_or_default (i mod 37) tmp_characters "_"%char) as [Hin | ->].
  - now right.
  - now left.
Qed.

(** The random name takes eight bytes. *)
Lemma utf8_length_tmp_random_name (draws : list nat) :
  utf8_length (tmp_random_name draws) = 8%nat.
Proof.
  unfold tmp_random_name, utf8_length. rewrite chars_str, utf8_length_drawn.
  rewrite length_firstn, length_app, repeat_length. lia.
Qed.

Lemma existsb_nul_In (l : list ascii) :
  existsb (Ascii.eqb zero) l = false <-> ~ In zero l.
Proof.
  induction l as [|c r IH]; cbn [existsb In].
  - split; [intros _ []|reflexivity].
  - rewrite orb_false_iff, IH. split.
    + intros [Hc Hr] [E|E]; [|contradiction].
      subst. rewrite Ascii.eqb_refl in Hc. discriminate.
    + intro H. split.
      * destruct (Ascii.eqb zero c) eqn:E; [|reflexivity].
        apply Ascii.eqb_eq in E. exfalso. apply H. now left.
      * intro Hin. apply H. now right.
Qed.

(** The name of the temporary file is refused exactly when the suffix
    does not fit. *)
Lemma temp_fault_fits (env : Env) (suffix : string) :
  temp_fault env suffix = None <-> extension_fits suffix.
Proof.
  unfold temp_fault, extension_fits.
  rewrite !utf8_length_app, utf8_length_tmp_random_name.
  change (utf8_length "tmp") with 3%nat. unfold NAME_MAX.
  destruct (existsb (Ascii.eqb zero) (Py.chars suffix)) eqn:Hnul.
  - split; [discriminate|]. intros [H _].
    apply existsb_nul_In in H. congruence.
  - apply existsb_nul_In in Hnul.
    destruct (255 <? 3 + (8 + utf8_length suffix))%nat eqn:Hlen.
    + apply Nat.ltb_lt in Hlen. split; [discriminate|]. intros [_ H]. lia.
    + apply Nat.ltb_ge in Hlen. split; [|reflexivity].
      intros _. split; [assumption|lia].
Qed.

Lemma temp_fault_wav (env : Env) : temp_fault env ".wav" = None.
Proof.
  apply temp_fault_fits. split.
  - cbn. intros [E|[E|[E|[E|[]]]]]; discriminate.
  - apply Nat.leb_le. reflexivity.
Qed.

Lemma lower_char_plain (c : ascii) :
  Ascii.eqb zero (Py.lower_char c) = Ascii.eqb zero c
  /\ utf8_width (Py.lower_char c) = utf8_width c.
Proof.
  destruct c as [[] [] [] [] [] [] [] []]; split; reflexivity.
Qed.

(** Lowering a string changes neither its length in bytes nor whether it
    holds a NUL. *)
Lemma lower_fits (s : string) :
  extension_fits (Py.lower s) <-> extension_fits s.
Proof.
  unfold extension_fits, Py.lower, utf8_length. rewrite chars_str.
  rewrite <- !existsb_nul_In.
  generalize (Py.chars s). intro l.
  assert (H1 : existsb (Ascii.eqb zero) (map Py.lower_char l)
               = existsb (Ascii.eqb zero) l).
  { induction l as [|c r IH]; cbn [map existsb]; [reflexivity|].
    rewrite IH. now rewrite (proj1 (lower_char_plain c)). }
  assert (H2 : fold_right (fun c n => (utf8_width c + n)%nat)
                 0%nat (map Py.lower_char l)
               = fold_right (fun c n => (utf8_width c + n)%nat) 0%nat l).
  { clear H1. induction l as [|c r IH]; cbn [map fold_right]; [reflexivity|].
    rewrite IH. now rewrite (proj2 (lower_char_plain c)). }
  rewrite H1, H2. reflexivity.
Qed.

(** An extension that the check of the saved file accepts fits. *)
Lemma allowed_extension_fits (ext : string) :
  Py.mem (Py.lower ext) transcription_service.allowed_extensions = true ->
  extension_fits ext.
Proof.
  intro H. apply lower_fits.
  apply mem_In in H. cbn in H.
  destruct H as [<-|[<-|[<-|[<-|[<-|[<-|[]]]]]]];
    (split; [cbn; intuition discriminate | apply Nat.leb_le; reflexivity]).
Qed.

(** A refused name is no [HTTPException]. *)
Lemma temp_fault_not_http (env : Env) (suffix : string) (e : exn) :
  temp_fault env suffix = Some e ->
  forall status_code detail, e <> HTTPException status_code detail.
Proof.
  unfold temp_fault.
  destruct (existsb (Ascii.eqb zero) (Py.chars suffix)).
  - intro H. injection H as <-. discriminate.
  - destruct (NAME_MAX <? _)%nat; [|discriminate].
    intro H. injection H as <-. discriminate.
Qed.

(** What [NamedTemporaryFile] does. *)
Lemma NamedTemporaryFile_run (env : Env) (suffix : string) (content : Blob)
    (st : State) :
  NamedTemporaryFile env suffix content st
  = match temp_fault env suffix with
    | Some e => (Raised e, st)
    | None =>
        let path := tmpdir env ++ "/" ++ "tmp" ++ tmp_random_name (tmpname env)
                           ++ suffix in
        (Ok path,
         {| files := (path, content) :: file_remove (files st) path;
            log := log st ++ [EvTempFile path] |})
    end.
Proof.
  unfold NamedTemporaryFile.
  destruct (temp_fault env suffix); reflexivity.
Qed.

(** ** The request handler *)

(** An error notification never raises; it adds its POST to the log. *)
Lemma send_error_notification_run (env : Env) (error_message : string)
    (api_key_name : value) (original_filename : option string) (st : State) :
  webhook_service.send_error_notification env error_message api_key_name
                                          original_filename st
  = (Ok (attempt_succeeds (webhook env (count_posts (log st)))),
     {| files := files st;
        log := log st
               ++ [EvPost (ErrorPayload error_message api_key_name
                                        original_filename)] |}).
Proof.
  unfold webhook_service.send_error_notification.
  apply guarded_post. reflexivity.
Qed.

(** An [HTTPException] raised while the transcription is obtained leaves
    the handler as it is. *)
Lemma transcribe_audio_reraises (env : Env) (audio : option UploadFile)
    (api_key_file : option string) (request_data : option TranscriptionRequest)
    (authenticated_key : dict) (st st' : State) (status_code : Z)
    (detail : string) :
  obtain_transcription env audio request_data authenticated_key st
  = (Raised (HTTPException status_code detail), st') ->
  transcribe_audio env audio api_key_file request_data authenticated_key st
  = (Raised (HTTPException status_code detail), st').
Proof.
  intro H. unfold transcribe_audio, try_except, bind. now rewrite H.
Qed.

Lemma file_lookup_head (path : string) (content : Blob)
    (fs : list (string * Blob)) :
  file_lookup ((path, content) :: fs) path = Some content.
Proof. cbn. now rewrite String.eqb_refl. Qed.

(** The check of the saved file, on a path that holds [content]. *)
Lemma validate_audio_file_run (path : string) (content : Blob) (st : State) :
  file_lookup (files st) path = Some content ->
  transcription_service.validate_audio_file path st
  = (Ok (negb (settings.MAX_FILE_SIZE <? Z.of_N (blob_len content))%Z
         && Py.mem (Py.lower (snd (Py.splitext path)))
                   transcription_service.allowed_extensions),
     st).
Proof.
  intro H. unfold transcription_service.validate_audio_file. unfold_m.
  rewrite H.
  destruct (settings.MAX_FILE_SIZE <? Z.of_N (blob_len content))%Z; reflexivity.
Qed.

Lemma handle_upload_rejects_saved_file (env : Env) (a : UploadFile)
    (f : string) (authenticated_key : dict) (st : State) :
  validate_audio_type (content_type a) (Some f) = true ->
  reported_size_ok a ->
  extension_fits (snd (Py.splitext f)) ->
  saved_file_rejected a f ->
  handle_upload env a f authenticated_key st
  = (Raised (HTTPException 400 "Invalid audio file format or size"),
     {| files := file_remove (files st) (upload_path env f);
        log := log st
               ++ [EvValidateAudioType (content_type a) (Some f);
                   EvTempFile (upload_path env f);
                   EvPost (ErrorPayload "Invalid audio file format or size"
                                        (key_name authenticated_key) (Some f));
                   EvUnlink (upload_path env f)] |}).
Proof.
  intros Hv Hs Hfit Hbad. unfold handle_upload. rewrite Hv. cbn [negb].
  assert (Hsize :
            match size a with
            | Some n =>
                if (negb (n =? 0) && (settings.MAX_FILE_SIZE <? n))%Z
                then
                  webhook_service.send_error_notification env
                    ("File too large: " ++ Py.str_of_int n ++ " bytes")
                    (key_name authenticated_key) (Some f) ;;;
                  raise (HTTPException HTTP_400_BAD_REQUEST
                           ("File too large. Maximum size: "
                            ++ Py.str_of_int settings.MAX_FILE_SIZE ++ " bytes"))
                else ret tt
            | None => ret tt
            end = ret tt).
  { destruct (size a) as [n|] eqn:E; [|reflexivity].
    destruct (Hs n E) as [-> | Hle]; [reflexivity|].
    assert ((settings.MAX_FILE_SIZE <? n)%Z = false) as -> by (apply Z.ltb_ge; lia).
    now rewrite andb_false_r. }
  rewrite Hsize. clear Hsize.
  unfold NamedTemporaryFile.
  rewrite (proj2 (temp_fault_fits env _) Hfit). fold (upload_path env f).
  set (path := upload_path env f).
  unfold_m. cbn [files log].
  rewrite (validate_audio_file_run path (content a)) by apply file_lookup_head.
  assert (Hext : snd (Py.splitext path) = snd (Py.splitext f))
    by apply splitext_tmp.
  rewrite Hext.
  assert ((negb (settings.MAX_FILE_SIZE <? Z.of_N (blob_len (content a)))%Z
           && Py.mem (Py.lower (snd (Py.splitext f)))
                     transcription_service.allowed_extensions) = false) as ->.
  { destruct Hbad as [He|Hz].
    - unfold transcription_service.allowed_extensions. rewrite He.
      apply andb_false_r.
    - assert ((settings.MAX_FILE_SIZE <? Z.of_N (blob_len (content a)))%Z = true)
        as -> by (apply Z.ltb_lt; lia).
      reflexivity. }
  cbn [negb]. rewrite send_error_notification_run. cbn [files log].
  unfold unlink_if_exists. unfold_m. cbn [files log].
  rewrite file_lookup_head. cbn [files log].
  f_equal. f_equal.
  - unfold file_remove. cbn [filter fst]. rewrite String.eqb_refl. cbn [negb].
    induction (files st) as [|[p b] fs IH]; [reflexivity|].
    cbn [filter fst]. destruct (String.eqb p path) eqn:E; cbn [negb].
    + exact IH.
    + cbn [filter fst]. rewrite E. cbn [negb]. now rewrite IH.
  - rewrite <- !app_assoc. reflexivity.
Qed.

(** C9, as the code has it.  For an upload that the type validator
    accepts, whose reported size passes the "File too large" check and
    whose extension can end the name of a temporary file (no NUL, at most
    244 bytes), the saved file is checked again before transcription: when
    the lowercased extension of the file name is not one of .mp3, .wav,
    .m4a, .mp4, .ogg, .flac, or the saved file is larger than the maximum,
    the request fails with 400 and the detail "Invalid audio file format or
    size", after an error notification and the removal of the temporary
    file, and the engine is not called. *)
Theorem saved_file_check (env : Env) (a : UploadFile) (f : string)
    (api_key_file : option string) (request_data : option TranscriptionRequest)
    (authenticated_key : dict) (st : State) :
  filename a = Some f ->
  Py.nonempty f = true ->
  validate_audio_type (content_type a) (filename a) = true ->
  reported_size_ok a ->
  extension_fits (snd (Py.splitext f)) ->
  saved_file_rejected a f ->
  exists st' evs,
    transcribe_audio env (Some a) api_key_file request_data authenticated_key st
    = (Raised (HTTPException 400 "Invalid audio file format or size"), st')
    /\ log st' = (log st ++ evs)%list
    /\ evs = [EvValidateAudioType (content_type a) (Some f);
              EvTempFile (upload_path env f);
              EvPost (ErrorPayload "Invalid audio file format or size"
                                   (key_name authenticated_key) (Some f));
              EvUnlink (upload_path env f)]
    /\ existsb is_transcribe evs = false.
Proof.
  intros Hf Hne Hv Hs Hfit Hbad. rewrite Hf in Hv.
  eexists. eexists. split; [|split; [|split; [reflexivity|reflexivity]]].
  - apply transcribe_audio_reraises.
    unfold obtain_transcription, upload_of. rewrite Hf, Hne.
    apply handle_upload_rejects_saved_file; assumption.
  - reflexivity.
Qed.

(** The theorem at an upload declared as MPEG audio and named notes.txt. *)
Lemma saved_file_check_witness :
  fst (run (transcribe_audio (Sample.world Sample.hears Sample.accepts)
              (Some Sample.misnamed) None None Sample.credential))
  = Raised (HTTPException 400 "Invalid audio file format or size").
Proof.
  destruct (saved_file_check (Sample.world Sample.hears Sample.accepts)
              Sample.misnamed "notes.txt" None None Sample.credential initial)
    as (st' & evs & Hrun & _).
  - reflexivity.
  - reflexivity.
  - reflexivity.
  - intros n H. injection H as <-. right. unfold settings.MAX_FILE_SIZE. lia.
  - split.
    + apply existsb_nul_In. reflexivity.
    + apply Nat.leb_le. reflexivity.
  - left. reflexivity.
  - unfold run. rewrite Hrun. reflexivity.
Defined.

(** C9 as stated fails, on two uploads that the type validator accepts
    and whose extension is not in the list.  The first is larger than the
    maximum and says so: it is rejected by the check of the reported size,
    with another detail, before the file is saved.  The second has an
    extension of three hundred letters: the temporary file cannot be
    named, and the request fails with 500 after an error notification.  In
    both the engine is not called. *)
Lemma saved_file_check_not_reached :
  (validate_audio_type (content_type Sample.oversize) (filename Sample.oversize)
   = true
   /\ Py.mem (Py.lower (snd (Py.splitext "notes.txt")))
             [".mp3"; ".wav"; ".m4a"; ".mp4"; ".ogg"; ".flac"] = false
   /\ (settings.MAX_FILE_SIZE < Z.of_N (blob_len (content Sample.oversize)))%Z
   /\ run (transcribe_audio (Sample.world Sample.hears Sample.accepts)
             (Some Sample.oversize) None None Sample.credential)
      = (Raised (HTTPException 400
                   "File too large. Maximum size: 26214400 bytes"),
         [EvValidateAudioType (Some "audio/mpeg") (Some "notes.txt");
          EvPost (ErrorPayload "File too large: 26214401 bytes"
                               (VStr "alpha") (Some "notes.txt"))])
   /\ "File too large. Maximum size: 26214400 bytes"
      <> "Invalid audio file format or size")
  /\
  (let name := "a." ++ Py.str (repeat "x"%char 300) in
   filename Sample.long_named = Some name
   /\ validate_audio_type (content_type Sample.long_named) (Some name) = true
   /\ Py.mem (Py.lower (snd (Py.splitext name)))
             [".mp3"; ".wav"; ".m4a"; ".mp4"; ".ogg"; ".flac"] = false
   /\ size Sample.long_named = Some 3%Z
   /\ run (transcribe_audio (Sample.world Sample.hears Sample.accepts)
             (Some Sample.long_named) None None Sample.credential)
      = (Raised (HTTPException 500 "Internal server error during transcription"),
         [EvValidateAudioType (Some "audio/mpeg") (Some name);
          EvPost (ErrorPayload
                    ("Internal server error: [Errno 36] File name too long: '"
                     ++ "/tmp/tmptemp012_." ++ Py.str (repeat "x"%char 300)
                     ++ "'")
                    (VStr "alpha") (Some name))])).
Proof.
  split.
  - repeat split; try reflexivity. discriminate.
  - cbv zeta. repeat split; vm_compute; reflexivity.
Qed.

(** C10. A file part whose name is missing or empty is not a file
    payload: with no base64 text either, the handler sends the "No audio
    data provided" notification and fails with 400 and the detail "Either
    audio file or audio_base64 must be provided".  That notification is the
    only event: the type validator and the engine do not run. *)
Theorem nameless_upload_is_no_payload (env : Env) (a : UploadFile)
    (api_key_file : option string) (request_data : option TranscriptionRequest)
    (authenticated_key : dict) (st : State) :
  filename a = None \/ filename a = Some "" ->
  (request_data = None
   \/ exists r, request_data = Some r
                /\ (audio_base64 r = None \/ audio_base64 r = Some "")) ->
  transcribe_audio env (Some a) api_key_file request_data authenticated_key st
  = (Raised (HTTPException 400
               "Either audio file or audio_base64 must be provided"),
     {| files := files st;
        log := log st
               ++ [EvPost (ErrorPayload "No audio data provided"
                                        (key_name authenticated_key) None)] |}).
Proof.
  intros Hname Hdata. apply transcribe_audio_reraises.
  assert (Hu : upload_of (Some a) = None).
  { unfold upload_of. destruct Hname as [-> | ->]; reflexivity. }
  assert (Hb : base64_of request_data = None).
  { unfold base64_of.
    destruct Hdata as [-> | (r & -> & [-> | ->])]; reflexivity. }
  unfold obtain_transcription. rewrite Hu, Hb.
  unfold bind. rewrite send_error_notification_run. reflexivity.
Qed.

(** The theorem at a file part with an empty name and no JSON body. *)
Lemma nameless_upload_is_no_payload_witness :
  run (transcribe_audio (Sample.world Sample.hears Sample.accepts)
         (Some Sample.nameless) None None Sample.credential)
  = (Raised (HTTPException 400
               "Either audio file or audio_base64 must be provided"),
     [EvPost (ErrorPayload "No audio data provided" (VStr "alpha") None)]).
Proof.
  unfold run.
  rewrite (nameless_upload_is_no_payload
             (Sample.world Sample.hears Sample.accepts) Sample.nameless
             None None Sample.credential initial
             (or_intror eq_refl) (or_introl eq_refl)).
  reflexivity.
Defined.

Lemma send_transcription_result_total (env : Env) (text language : string)
    (duration : float) (api_key_name : value)
    (original_filename : option string) (audio_size : option Z) (st : State) :
  exists delivered st',
    webhook_service.send_transcription_result env text language duration
      api_key_name original_filename audio_size st
    = (Ok delivered, st').
Proof.
  unfold webhook_service.send_transcription_result.
  rewrite send_loop_trace. eexists. eexists. reflexivity.
Qed.

Lemma on_exception_raises (env : Env) (audio : option UploadFile)
    (authenticated_key : dict) (e : exn) (st : State) :
  exists e' st',
    on_exception env audio authenticated_key e st = (Raised e', st').
Proof.
  destruct e; cbn [on_exception];
    try (unfold bind; rewrite send_error_notification_run;
         eexists; eexists; reflexivity).
  eexists. eexists. reflexivity.
Qed.

(** The integer that [int(duration) if duration else 0] gives is the
    integer part of the duration. *)
Lemma int_duration_integer_part (d : float) (n : Z) :
  int_duration d = Ok n -> integer_part d n.
Proof.
  unfold int_duration.
  destruct d as [s| s | |s m e]; cbn [float_truthy int_of_float integer_part];
    intro H; try discriminate.
  - now injection H as <-.
  - injection H as <-.
    destruct (0 <=? e)%Z eqn:He.
    + exists (Z.pos m * 2 ^ e)%Z.
      apply Z.leb_le in He.
      pose proof (Z.pow_nonneg 2 e ltac:(lia)).
      split; [nia|]. split; reflexivity.
    + apply Z.leb_gt in He.
      assert (Hb : (0 < 2 ^ (- e))%Z) by (apply Z.pow_pos_nonneg; lia).
      exists (Z.pos m / 2 ^ (- e))%Z.
      pose proof (Z.div_mod (Z.pos m) (2 ^ (- e)) ltac:(lia)) as Hdm.
      pose proof (Z.mod_pos_bound (Z.pos m) (2 ^ (- e)) Hb) as Hmod.
      pose proof (Z.div_pos (Z.pos m) (2 ^ (- e)) ltac:(lia) Hb) as Hq.
      split; [assumption|]. split; [reflexivity|]. nia.
Qed.

(** The integer part is one integer. *)
Lemma integer_part_unique (d : float) (n n' : Z) :
  integer_part d n -> integer_part d n' -> n = n'.
Proof.
  destruct d as [s| s | |s m e]; cbn [integer_part]; try contradiction.
  - congruence.
  - intros (k & Hk & -> & H) (k' & Hk' & -> & H').
    assert (k = k') as ->; [|reflexivity].
    destruct (0 <=? e)%Z eqn:He; [congruence|].
    apply Z.leb_gt in He.
    assert (Hb : (0 < 2 ^ (- e))%Z) by (apply Z.pow_pos_nonneg; lia).
    nia.
Qed.

(** C8. Every response the handler returns is the dictionary of the seven
    fields message, status, text, language, duration, webhook_delivered and
    transcription_id, in which text, language and duration are what the
    transcription gave, webhook_delivered is the boolean that the delivery
    of the result returned, and transcription_id is "trans_", the id of the
    credential, "_" and the integer part of the duration: 0 for a zero
    duration, and otherwise the integer of the sign of the duration whose
    magnitude is the largest not above the duration's.  A duration that is
    not a number, or is infinite, gives no response. *)
Theorem response_fields (env : Env) (audio : option UploadFile)
    (api_key_file : option string) (request_data : option TranscriptionRequest)
    (authenticated_key : dict) (st st' : State) (resp : list (string * json)) :
  transcribe_audio env audio api_key_file request_data authenticated_key st
  = (Ok resp, st') ->
  exists (text language : string) (duration : float) (delivered : bool)
         (n : Z) (st1 : State),
    obtain_transcription env audio request_data authenticated_key st
    = (Ok (text, language, duration), st1)
    /\ webhook_service.send_transcription_result env text language duration
         (key_name authenticated_key) (original_filename_of audio)
         (audio_size_of audio) st1
       = (Ok delivered, st')
    /\ (if float_truthy duration then int_of_float duration else Ok 0%Z) = Ok n
    /\ integer_part duration n
    /\ resp
       = [("message", JStr "Transcription completed");
          ("status", JStr "success");
          ("text", JStr text);
          ("language", JStr language);
          ("duration", JFloat duration);
          ("webhook_delivered", JBool delivered);
          ("transcription_id",
           JStr ("trans_"
                 ++ str_value (dict_get_default authenticated_key "_id"
                                                (VStr "unknown"))
                 ++ "_" ++ Py.str_of_int n))].
Proof.
  intro H. unfold transcribe_audio, try_except in H. unfold bind at 1 in H.
  destruct (obtain_transcription env audio request_data authenticated_key st)
    as [[[[text language] duration]|e] st1] eqn:Ho.
  - unfold deliver_and_respond in H. unfold bind at 1, try_except in H.
    destruct (send_transcription_result_total env text language duration
                (key_name authenticated_key) (original_filename_of audio)
                (audio_size_of audio) st1) as (delivered & st2 & Hsend).
    rewrite Hsend in H. unfold bind, lift, ret in H.
    fold (int_duration duration).
    destruct (int_duration duration) as [n|e] eqn:Hn.
    + injection H as <- <-.
      exists text, language, duration, delivered, n, st1.
      repeat split; try assumption.
      now apply int_duration_integer_part.
    + destruct (on_exception_raises env audio authenticated_key e st2)
        as (e' & st3 & Hr).
      rewrite Hr in H. discriminate.
  - destruct (on_exception_raises env audio authenticated_key e st1)
      as (e' & st3 & Hr).
    rewrite Hr in H. discriminate.
Qed.

(** The theorem at the upload of sample.mp3, the engine hearing two and a
    half seconds and the endpoint accepting: the fields are those of the
    transcription, and the identifier ends in 2, the integer part of 2.5,
    which is [5 * 2 ^ (-1)]. *)
Lemma response_fields_witness :
  fst (run (transcribe_audio (Sample.world Sample.hears Sample.accepts)
              (Some Sample.upload) None None Sample.credential))
  = Ok [("message", JStr "Transcription completed");
        ("status", JStr "success");
        ("text", JStr "ola mundo");
        ("language", JStr "pt");
        ("duration", JFloat (S754_finite false 5 (-1)));
        ("webhook_delivered", JBool true);
        ("transcription_id", JStr "trans_65a1f0c2e4b0a1b2c3d4e5f6_2")].
Proof.
  destruct (transcribe_audio (Sample.world Sample.hears Sample.accepts)
              (Some Sample.upload) None None Sample.credential initial)
    as [r st'] eqn:Hrun.
  assert (Hr : exists resp, r = Ok resp).
  { apply (f_equal fst) in Hrun. vm_compute in Hrun. subst r.
    eexists. reflexivity. }
  destruct Hr as [resp ->].
  destruct (response_fields _ _ _ _ _ _ _ _ Hrun)
    as (text & language & duration & delivered & n & st1
        & Hobtain & Hsend & _ & Hn & Hresp).
  unfold run. rewrite Hrun. cbn [fst log]. rewrite Hresp. clear Hresp Hrun.
  vm_compute in Hobtain. injection Hobtain as <- <- <- <-.
  vm_compute in Hsend. injection Hsend as <- _.
  cbn [integer_part] in Hn. destruct Hn as (k & Hk & -> & Hbounds).
  change (0 <=? -1)%Z with false in Hbounds.
  change (2 ^ (- -1))%Z with 2%Z in Hbounds. cbv iota in Hbounds.
  assert (k = 2%Z) as -> by lia.
  reflexivity.
Defined.

Example response_of_sample_upload :
  run (transcribe_audio (Sample.world Sample.hears Sample.accepts)
         (Some Sample.upload) None None Sample.credential)
  = (Ok [("message", JStr "Transcription completed");
         ("status", JStr "success");
         ("text", JStr "ola mundo");
         ("language", JStr "pt");
         ("duration", JFloat (S754_finite false 5 (-1)));
         ("webhook_delivered", JBool true);
         ("transcription_id", JStr "trans_65a1f0c2e4b0a1b2c3d4e5f6_2")],
     [EvValidateAudioType (Some "audio/mpeg") (Some "sample.mp3");
      EvTempFile "/tmp/tmptemp012_.mp3";
      EvTranscribe "/tmp/tmptemp012_.mp3";
      EvUnlink "/tmp/tmptemp012_.mp3";
      EvPost (TranscriptionPayload "ola mundo" "pt" (S754_finite false 5 (-1))
                                   (VStr "alpha") (Some "sample.mp3") (Some 3%Z))]).
Proof. reflexivity. Qed.

(** ** Failure translation *)

(** The file path when the engine cannot find ffmpeg. *)
Lemma transcribe_audio_file_no_ffmpeg (env : Env)
    (model : string -> option Blob -> Result WhisperResult) (m : string)
    (path : string) (st : State) :
  whisper_model env = Some model ->
  (forall p c, model p c = Raised (FileNotFoundError m)) ->
  transcription_service.mentions_ffmpeg m = true ->
  transcription_service.transcribe_audio_file env path st
  = (Raised (HTTPException 500 transcription_service.detail_ffmpeg),
     {| files := files st; log := log st ++ [EvTranscribe path] |}).
Proof.
  intros Hmodel Hraise Hm.
  unfold transcription_service.transcribe_audio_file. rewrite Hmodel.
  unfold_m. cbn [files log]. rewrite Hraise. cbn [str_exn]. now rewrite Hm.
Qed.

(** Any other failure of the engine on the file path: a 400 that carries
    the message, or the install-ffmpeg text when the message names
    ffmpeg. *)
Lemma transcribe_audio_file_other_failure (env : Env)
    (model : string -> option Blob -> Result WhisperResult) (e : exn)
    (path : string) (st : State) :
  whisper_model env = Some model ->
  (forall p c, model p c = Raised e) ->
  (forall m, e <> FileNotFoundError m) ->
  fst (transcription_service.transcribe_audio_file env path st)
  = Raised (HTTPException 400
              ("Failed to transcribe audio: "
               ++ (if transcription_service.mentions_ffmpeg (str_exn e)
                   then transcription_service.detail_ffmpeg
                   else str_exn e))).
Proof.
  intros Hmodel Hraise Hother.
  unfold transcription_service.transcribe_audio_file. rewrite Hmodel.
  unfold_m. cbn [files log]. rewrite Hraise.
  destruct e; try reflexivity. now elim (Hother msg).
Qed.

(** C5, on the two functions of the transcription service.  With an
    engine that fails for want of ffmpeg (a [FileNotFoundError] that names
    it), [transcribe_audio_file] raises the 500 with the install-ffmpeg
    detail, and [transcribe_base64_audio], called with text that decodes,
    raises a 400: its own [except Exception] catches that 500 and wraps
    it. *)
Theorem missing_ffmpeg_by_path (env : Env)
    (model : string -> option Blob -> Result WhisperResult) (m : string) :
  whisper_model env = Some model ->
  (forall p c, model p c = Raised (FileNotFoundError m)) ->
  transcription_service.mentions_ffmpeg m = true ->
  (forall path st,
      fst (transcription_service.transcribe_audio_file env path st)
      = Raised (HTTPException 500 transcription_service.detail_ffmpeg))
  /\ (forall b bytes st,
         base64.b64decode b = Ok bytes ->
         fst (transcription_service.transcribe_base64_audio env b st)
         = Raised (HTTPException 400
                     ("Failed to process base64 audio: 500: "
                      ++ transcription_service.detail_ffmpeg))).
Proof.
  intros Hmodel Hraise Hm. split.
  - intros path st.
    now rewrite (transcribe_audio_file_no_ffmpeg env model m path st).
  - intros b bytes st Hdec.
    unfold transcription_service.transcribe_base64_audio.
    unfold try_except at 1. unfold bind at 1. unfold lift at 1. rewrite Hdec.
    unfold bind at 1. rewrite NamedTemporaryFile_run, temp_fault_wav.
    cbv zeta. unfold try_finally.
    rewrite (transcribe_audio_file_no_ffmpeg env model m) by assumption.
    cbn [files log]. unfold unlink_if_exists. unfold_m. cbn [files log].
    rewrite file_lookup_head. reflexivity.
Qed.

(** The theorem on a host without ffmpeg: the same failure of the engine
    is a 500 from [transcribe_audio_file] and a 400 from
    [transcribe_base64_audio]. *)
Lemma missing_ffmpeg_by_path_witness :
  fst (transcription_service.transcribe_audio_file
         (Sample.world Sample.no_ffmpeg Sample.accepts)
         "/tmp/sample.mp3" initial)
  = Raised (HTTPException 500
              "ffmpeg is required for audio transcription but is not installed. Please install ffmpeg: brew install ffmpeg (macOS) or apt-get install ffmpeg (Linux)")
  /\ fst (transcription_service.transcribe_base64_audio
            (Sample.world Sample.no_ffmpeg Sample.accepts) "SUQz" initial)
     = Raised (HTTPException 400
                 "Failed to process base64 audio: 500: ffmpeg is required for audio transcription but is not installed. Please install ffmpeg: brew install ffmpeg (macOS) or apt-get install ffmpeg (Linux)").
Proof.
  destruct (missing_ffmpeg_by_path
              (Sample.world Sample.no_ffmpeg Sample.accepts) Sample.no_ffmpeg
              "[Errno 2] No such file or directory: 'ffmpeg'"
              eq_refl (fun _ _ => eq_refl) eq_refl) as [Hfile H64].
  split.
  - apply Hfile.
  - apply (H64 "SUQz" [Byte.x49; Byte.x44; Byte.x33]). reflexivity.
Defined.

(** ** Base64 text *)

Lemma a2b_step (x : ascii) (rest : list ascii) (v : N) (quad_pos : nat)
    (leftchar : N) (pads : nat) (out : list Byte.byte) :
  base64.table_a2b x = Some v ->
  base64.a2b_loop (x :: rest) quad_pos leftchar pads out
  = match quad_pos with
    | O => base64.a2b_loop rest 1 v 0 out
    | 1%nat =>
        base64.a2b_loop rest 2 (N.land v 15) 0
          (base64.byte_of_N (N.lor (N.shiftl leftchar 2) (N.shiftr v 4)) :: out)
    | 2%nat =>
        base64.a2b_loop rest 3 (N.land v 3) 0
          (base64.byte_of_N (N.lor (N.shiftl leftchar 4) (N.shiftr v 2)) :: out)
    | _ =>
        base64.a2b_loop rest 0 0 0
          (base64.byte_of_N (N.lor (N.shiftl leftchar 6) v) :: out)
    end.
Proof.
  intro H. cbn [base64.a2b_loop].
  destruct (Ascii.eqb x "=") eqn:E.
  - apply Ascii.eqb_eq in E. subst x. discriminate.
  - now rewrite H.
Qed.

Lemma is_alphabet_value (x : ascii) :
  base64.is_alphabet x = true -> exists v, base64.table_a2b x = Some v.
Proof.
  unfold base64.is_alphabet. destruct (base64.table_a2b x) as [v|];
    [now exists v|discriminate].
Qed.

Lemma is_alphabet_ascii (x : ascii) :
  base64.is_alphabet x = true -> base64.is_ascii x = true.
Proof.
  destruct x as [[] [] [] [] [] [] [] []]; try reflexivity; discriminate.
Qed.

(** Base64 text decodes. *)
Lemma well_formed_decodes (n : nat) :
  forall cs,
    (List.length cs <= n)%nat ->
    base64.well_formed_chars cs = true ->
    forallb base64.is_ascii cs = true
    /\ forall leftchar out,
        exists bytes, base64.a2b_loop cs 0 leftchar 0 out = Ok bytes.
Proof.
  induction n as [|n IH]; intros cs Hlen Hwf.
  - destruct cs; [|cbn in Hlen; lia]. split; [reflexivity|].
    intros. eexists. reflexivity.
  - destruct cs as [|a [|b [|c [|d rest]]]]; try discriminate.
    + split; [reflexivity|]. intros. eexists. reflexivity.
    + destruct rest as [|e rest].
      * cbn [base64.well_formed_chars] in Hwf.
        apply andb_prop in Hwf as [Hab Hcd].
        apply andb_prop in Hab as [Ha Hb].
        destruct (is_alphabet_value a Ha) as [va Hva].
        destruct (is_alphabet_value b Hb) as [vb Hvb].
        apply orb_prop in Hcd as [Hcd|Hcd]; apply andb_prop in Hcd as [Hc Hd].
        -- destruct (is_alphabet_value c Hc) as [vc Hvc].
           apply orb_prop in Hd as [Hd|Hd].
           ++ destruct (is_alphabet_value d Hd) as [vd Hvd]. split.
              ** cbn [forallb]. now rewrite !is_alphabet_ascii.
              ** intros. rewrite (a2b_step a _ va), (a2b_step b _ vb),
                   (a2b_step c _ vc), (a2b_step d _ vd) by assumption.
                 eexists. reflexivity.
           ++ apply Ascii.eqb_eq in Hd. subst d. split.
              ** cbn [forallb].
                 now rewrite (is_alphabet_ascii a Ha), (is_alphabet_ascii b Hb),
                   (is_alphabet_ascii c Hc).
              ** intros. rewrite (a2b_step a _ va), (a2b_step b _ vb),
                   (a2b_step c _ vc) by assumption.
                 eexists. reflexivity.
        -- apply Ascii.eqb_eq in Hc, Hd. subst c d. split.
           ++ cbn [forallb].
              now rewrite (is_alphabet_ascii a Ha), (is_alphabet_ascii b Hb).
           ++ intros. rewrite (a2b_step a _ va), (a2b_step b _ vb) by assumption.
              eexists. reflexivity.
      * cbn [base64.well_formed_chars] in Hwf.
        apply andb_prop in Hwf as [Habcd Hrest].
        apply andb_prop in Habcd as [Habc Hd].
        apply andb_prop in Habc as [Hab Hc].
        apply andb_prop in Hab as [Ha Hb].
        destruct (is_alphabet_value a Ha) as [va Hva].
        destruct (is_alphabet_value b Hb) as [vb Hvb].
        destruct (is_alphabet_value c Hc) as [vc Hvc].
        destruct (is_alphabet_value d Hd) as [vd Hvd].
        destruct (IH (e :: rest)) as [Hascii Hdec];
          [cbn in Hlen |- *; lia|assumption|].
        split.
        -- cbn [forallb] in Hascii |- *.
           rewrite (is_alphabet_ascii a Ha), (is_alphabet_ascii b Hb),
             (is_alphabet_ascii c Hc), (is_alphabet_ascii d Hd).
           exact Hascii.
        -- intros. rewrite (a2b_step a _ va), (a2b_step b _ vb),
             (a2b_step c _ vc), (a2b_step d _ vd) by assumption.
           apply Hdec.
Qed.

Lemma well_formed_b64decode (s : string) :
  base64.well_formed s = true -> exists bytes, base64.b64decode s = Ok bytes.
Proof.
  intro H. unfold base64.b64decode.
  destruct (well_formed_decodes (List.length (Py.chars s)) (Py.chars s)
              (Nat.le_refl _) H) as [Hascii Hdec].
  rewrite Hascii. apply Hdec.
Qed.

(** The two ways the decoding loop fails. *)
Lemma a2b_loop_errors (cs : list ascii) :
  forall quad_pos leftchar pads out e,
    base64.a2b_loop cs quad_pos leftchar pads out = Raised e ->
    e = base64.error_padding \/ exists n, e = base64.error_one_more n.
Proof.
  induction cs as [|c rest IH]; intros quad_pos leftchar pads out e H;
    cbn [base64.a2b_loop] in H.
  - destruct quad_pos as [|[|q]]; [discriminate| |].
    + injection H as <-. right. eexists. reflexivity.
    + injection H as <-. now left.
  - destruct (Ascii.eqb c "=").
    + destruct (2 <=? quad_pos)%nat; [|eauto].
      destruct (4 <=? quad_pos + (pads + 1))%nat; [discriminate|eauto].
    + destruct (base64.table_a2b c); [|eauto].
      destruct quad_pos as [|[|[|q]]]; eauto.
Qed.

Lemma b64decode_errors (s : string) (e : exn) :
  base64.b64decode s = Raised e ->
  e = ValueError "string argument should contain only ASCII characters"
  \/ e = base64.error_padding
  \/ exists n, e = base64.error_one_more n.
Proof.
  unfold base64.b64decode.
  destruct (forallb base64.is_ascii (Py.chars s)).
  - intro H. right. eapply a2b_loop_errors. exact H.
  - intro H. injection H as <-. now left.
Qed.

Lemma transcribe_audio_file_raises (env : Env) (path : string)
    (st st' : State) (e : exn) :
  transcription_service.transcribe_audio_file env path st = (Raised e, st') ->
  exists status_code detail,
    (status_code = 400 \/ status_code = 500)%Z
    /\ e = HTTPException status_code detail.
Proof.
  unfold transcription_service.transcribe_audio_file.
  destruct (whisper_model env) as [model|].
  - unfold_m. cbn [files log].
    destruct (model path _) as [result|ex].
    + discriminate.
    + destruct ex; cbn [str_exn];
        try (intro H; injection H as <- _; eexists; eexists;
             split; [left; reflexivity|reflexivity]).
      destruct (transcription_service.mentions_ffmpeg msg);
        intro H; injection H as <- _; eexists; eexists;
        (split; [|reflexivity]); [right|left]; reflexivity.
  - unfold raise. intro H. injection H as <- _. eexists. eexists.
    split; [right; reflexivity|reflexivity].
Qed.

(** Once its text is decoded, the base64 path fails only by wrapping the
    400 or the 500 of the transcription. *)
Lemma base64_failure_after_decoding (env : Env) (b : string)
    (bytes : list Byte.byte) (st st' : State) (e : exn) :
  base64.b64decode b = Ok bytes ->
  transcription_service.transcribe_base64_audio env b st = (Raised e, st') ->
  exists status_code detail,
    (status_code = 400 \/ status_code = 500)%Z
    /\ e = HTTPException 400
             ("Failed to process base64 audio: "
              ++ Py.str_of_int status_code ++ ": " ++ detail).
Proof.
  intros Hdec. unfold transcription_service.transcribe_base64_audio.
  unfold try_except at 1. unfold bind at 1. unfold lift at 1. rewrite Hdec.
  unfold bind at 1. rewrite NamedTemporaryFile_run, temp_fault_wav. cbv zeta.
  unfold try_finally.
  match goal with
  | |- context [transcription_service.transcribe_audio_file env ?p ?s] =>
      destruct (transcription_service.transcribe_audio_file env p s)
        as [[r|ex] st1] eqn:Ht
  end.
  - unfold unlink_if_exists, bind, get_state.
    destruct (file_lookup (files st1) _); cbn; discriminate.
  - destruct (transcribe_audio_file_raises _ _ _ _ _ Ht)
      as (status_code & detail & Hs & ->).
    unfold unlink_if_exists, bind, get_state.
    destruct (file_lookup (files st1) _); cbn;
      intro H; injection H as <- _; exists status_code, detail; auto.
Qed.

Lemma append_cancel (p x y : string) : p ++ x = p ++ y -> x = y.
Proof.
  induction p as [|c p IH]; cbn; intro H; [assumption|].
  injection H as H. auto.
Qed.

(** No decoding failure reads like a wrapped transcription failure. *)
Lemma decoding_detail_distinct (s : string) (e : exn)
    (status_code : Z) (detail : string) :
  base64.b64decode s = Raised e ->
  (status_code = 400 \/ status_code = 500)%Z ->
  "Failed to process base64 audio: " ++ str_exn e
  <> "Failed to process base64 audio: "
     ++ Py.str_of_int status_code ++ ": " ++ detail.
Proof.
  intros He Hs Heq. apply append_cancel in Heq.
  destruct (b64decode_errors s e He) as [-> | [-> | [n ->]]];
    destruct Hs as [-> | ->]; discriminate.
Qed.

(** C6, as the code has it.  On the base64 path, when [b64decode] rejects
    the text (which is then not base64 text), the handler raises 400 with
    the detail "Failed to process base64 audio: " followed by the message
    of the decoder, and leaves files and log as they were: no temporary
    file, no call of the engine, no notification.  The message is one of
    three, and no failure of the transcription on this path produces the
    same response. *)
Theorem undecodable_base64 (env : Env) (audio : option UploadFile)
    (api_key_file : option string) (request_data : option TranscriptionRequest)
    (authenticated_key : dict) (st : State) (b : string) (e : exn) :
  upload_of audio = None ->
  base64_of request_data = Some b ->
  base64.b64decode b = Raised e ->
  base64.well_formed b = false
  /\ transcribe_audio env audio api_key_file request_data authenticated_key st
     = (Raised (HTTPException 400
                  ("Failed to process base64 audio: " ++ str_exn e)), st)
  /\ (str_exn e = "string argument should contain only ASCII characters"
      \/ str_exn e = "Incorrect padding"
      \/ exists n,
          str_exn e
          = "Invalid base64-encoded string: number of data characters ("
            ++ Py.str_of_int n ++ ") cannot be 1 more than a multiple of 4")
  /\ (forall env' b' bytes st1 st2 e1,
         base64.b64decode b' = Ok bytes ->
         transcription_service.transcribe_base64_audio env' b' st1
         = (Raised e1, st2) ->
         e1 <> HTTPException 400
                 ("Failed to process base64 audio: " ++ str_exn e)).
Proof.
  intros Hu Hb He. split; [|split; [|split]].
  - destruct (base64.well_formed b) eqn:Hwf; [|reflexivity].
    destruct (well_formed_b64decode b Hwf) as [bytes Hok]. congruence.
  - apply transcribe_audio_reraises.
    unfold obtain_transcription. rewrite Hu, Hb.
    unfold transcription_service.transcribe_base64_audio.
    unfold try_except, bind at 1, lift. now rewrite He.
  - destruct (b64decode_errors b e He) as [-> | [-> | [n ->]]].
    + now left.
    + right. now left.
    + right. right. eexists. reflexivity.
  - intros env' b' bytes st1 st2 e1 Hok Hrun ->.
    destruct (base64_failure_after_decoding env' b' bytes st1 st2 _ Hok Hrun)
      as (status_code & detail & Hs & Heq).
    apply (decoding_detail_distinct b e status_code detail He Hs).
    exact (f_equal (fun ex => match ex with
                              | HTTPException _ d => d
                              | _ => EmptyString
                              end) Heq).
Qed.

(** The theorem at a text of three data characters. *)
Lemma undecodable_base64_witness :
  run (transcribe_audio (Sample.world Sample.hears Sample.accepts) None None
         (Some (Sample.base64_request "abc")) Sample.credential)
  = (Raised (HTTPException 400
               "Failed to process base64 audio: Incorrect padding"), []).
Proof.
  destruct (undecodable_base64 (Sample.world Sample.hears Sample.accepts)
              None None (Some (Sample.base64_request "abc"))
              Sample.credential initial "abc"
              (BinasciiError "Incorrect padding")
              eq_refl eq_refl eq_refl) as (_ & Hrun & _).
  unfold run. rewrite Hrun. reflexivity.
Defined.

(** C6 as stated fails: the data URL of the test suite is not base64 text,
    the decoder skips what is outside the alphabet and decodes the 24
    characters left, and the bytes go to the engine; the 400 that follows is
    a failure of the transcription. *)
Lemma data_url_is_decoded_and_transcribed :
  base64.well_formed "data:audio/mp3;base64,dummy" = false
  /\ base64.b64decode "data:audio/mp3;base64,dummy"
     = Ok [Byte.x75; Byte.xab; Byte.x5a; Byte.x6a; Byte.xe7; Byte.x62;
           Byte.xa3; Byte.xf9; Byte.xa9; Byte.xdd; Byte.xb6; Byte.xac;
           Byte.x7b; Byte.xae; Byte.x1d; Byte.xba; Byte.x69; Byte.xb2]
  /\ run (transcribe_audio (Sample.world Sample.garbled Sample.accepts)
            None None
            (Some (Sample.base64_request "data:audio/mp3;base64,dummy"))
            Sample.credential)
     = (Raised (HTTPException 400
                  "Failed to process base64 audio: 400: Failed to transcribe audio: Failed to load audio: Invalid data found when processing input"),
        [EvTempFile "/tmp/tmptemp012_.wav";
         EvTranscribe "/tmp/tmptemp012_.wav";
         EvUnlink "/tmp/tmptemp012_.wav"]).
Proof.
  repeat split.
Qed.

(** * More of the code *)

(** ** Documents *)

Lemma dict_get_set_same (d : dict) (k : string) (v : value) :
  dict_get (dict_set d k v) k = Some v.
Proof.
  induction d as [|[k' v'] d IH]; cbn.
  - now rewrite String.eqb_refl.
  - destruct (String.eqb k' k) eqn:E; cbn; rewrite E; [reflexivity|exact IH].
Qed.

Lemma dict_get_set_other (d : dict) (k k' : string) (v : value) :
  k' <> k -> dict_get (dict_set d k v) k' = dict_get d k'.
Proof.
  intro Hne. induction d as [|[k0 v0] d IH]; cbn.
  - destruct (String.eqb k k') eqn:E; [|reflexivity].
    apply String.eqb_eq in E. congruence.
  - destruct (String.eqb k0 k) eqn:E; cbn.
    + apply String.eqb_eq in E. subst k0.
      destruct (String.eqb k k') eqn:E'; [|reflexivity].
      apply String.eqb_eq in E'. congruence.
    + destruct (String.eqb k0 k'); [reflexivity|exact IH].
Qed.

(** Setting a field to the value it holds changes nothing. *)
Lemma dict_set_same (d : dict) (k : string) (v : value) :
  dict_get d k = Some v -> dict_set d k v = d.
Proof.
  induction d as [|[k' v'] d IH]; cbn; [discriminate|].
  destruct (String.eqb k' k) eqn:E.
  - intro H. now injection H as ->.
  - intro H. now rewrite IH.
Qed.

(** A filter on one field, and an update of another field. *)
Lemma matches_one (k : string) (v : value) (d : dict) :
  auth.matches [(k, v)] d = true <-> dict_get d k = Some v.
Proof.
  unfold auth.matches. cbn [forallb fst snd]. rewrite andb_true_r.
  destruct (dict_get d k) as [w|]; [|split; discriminate].
  rewrite value_eqb_eq. split; congruence.
Qed.

Lemma matches_set_other (filter : dict) (d : dict) (k : string) (v : value) :
  (forall kv, In kv filter -> fst kv <> k) ->
  auth.matches filter (dict_set d k v) = auth.matches filter d.
Proof.
  intro H. unfold auth.matches.
  induction filter as [|kv filter IH]; [reflexivity|]. cbn [forallb].
  rewrite dict_get_set_other by (apply H; now left).
  f_equal. apply IH. intros kv' Hin. apply H. now right.
Qed.

(** ** The authenticator and the store *)

(** [validate_api_key] by cases. *)
Lemma validate_api_key_cases (env : auth.StoreEnv) (h a b : option string)
    (coll : list dict) :
  auth.validate_api_key env h a b coll
  = match first_nonempty [h; a; b] with
    | None => (Raised (HTTPException 401 auth.detail_key_required), coll)
    | Some k =>
        match auth.find_fault env with
        | Some e => (Raised e, coll)
        | None =>
            match find (auth.matches [("key", VStr k); ("active", VBool true)])
                       coll with
            | None | Some [] =>
                (Raised (HTTPException 401 auth.detail_invalid_key), coll)
            | Some key_doc =>
                match dict_get key_doc "_id" with
                | None => (Raised (KeyError "'_id'"), coll)
                | Some id =>
                    match auth.update_fault env with
                    | Some e => (Raised e, coll)
                    | None =>
                        (Ok key_doc,
                         auth.set_first [("_id", id)]
                           [("last_used", VDate (auth.utcnow env))] coll)
                    end
                end
            end
        end
    end.
Proof.
  rewrite validate_api_key_selected.
  destruct (or_chain_first_nonempty h a b) as [[Ht E]|[_ E]]; rewrite E.
  - destruct (Py.or_ (Py.or_ h a) b) as [k|] eqn:Ek; [|discriminate].
    unfold auth.validate_api_key.
    assert (Py.or_ (Py.or_ (Some k) None) None = Some k) as ->.
    { unfold Py.or_. rewrite Ht. now rewrite Ht. }
    rewrite Ht. cbn [negb]. unfold auth.find_one, auth.update_one.
    destruct (auth.find_fault env); [reflexivity|].
    destruct (find _ coll) as [[|kv key_doc]|]; try reflexivity.
    destruct (dict_get (kv :: key_doc) "_id"); [|reflexivity].
    destruct (auth.update_fault env); reflexivity.
  - reflexivity.
Qed.

Lemma first_nonempty_truthy (l : list (option string)) (k : string) :
  first_nonempty l = Some k -> Py.nonempty k = true /\ In (Some k) l.
Proof.
  induction l as [|c l IH]; cbn; [discriminate|].
  destruct (Py.truthy c) eqn:E.
  - intros ->. split; [exact E|now left].
  - intro H. destruct (IH H). split; [assumption|now right].
Qed.

(** Only what the store holds as active authenticates: a credential that
    [validate_api_key] returns is a document of the collection, active,
    whose key is the first non-empty candidate of the request, itself one
    of the three candidates. *)
Theorem validate_api_key_sound (env : auth.StoreEnv)
    (api_key_header api_key_auth api_key_body : option string)
    (coll : list dict) (key_doc : dict) :
  fst (auth.validate_api_key env api_key_header api_key_auth api_key_body coll)
  = Ok key_doc ->
  exists k,
    first_nonempty [api_key_header; api_key_auth; api_key_body] = Some k
    /\ Py.nonempty k = true
    /\ In (Some k) [api_key_header; api_key_auth; api_key_body]
    /\ In key_doc coll
    /\ dict_get key_doc "key" = Some (VStr k)
    /\ dict_get key_doc "active" = Some (VBool true).
Proof.
  rewrite validate_api_key_cases.
  destruct (first_nonempty _) as [k|] eqn:Hk; [|discriminate].
  destruct (auth.find_fault env); [discriminate|].
  destruct (find _ coll) as [[|kv d]|] eqn:Hf; try discriminate.
  destruct (dict_get (kv :: d) "_id"); [|discriminate].
  destruct (auth.update_fault env); [discriminate|].
  cbn [fst]. intro H. injection H as <-.
  destruct (find_some _ _ Hf) as [Hin Hm].
  apply matches_key_active in Hm as [Hkey Hact].
  destruct (first_nonempty_truthy _ _ Hk) as [Hne Hc].
  exists k. repeat split; assumption.
Qed.

Lemma validate_api_key_sound_witness :
  exists k,
    first_nonempty [None; Some "key-alpha"; Some "key-beta"] = Some k
    /\ dict_get Sample.alpha "key" = Some (VStr k).
Proof.
  destruct (validate_api_key_sound Sample.store_up None (Some "key-alpha")
              (Some "key-beta") Sample.store Sample.alpha eq_refl)
    as (k & Hk & _ & _ & _ & Hkey & _).
  exists k. split; assumption.
Defined.

(** A call of [validate_api_key] that raises leaves the collection as it
    was, and raises one of five things: the 401 for a missing key, the 401
    for an invalid or inactive key, the exception of the lookup, the
    exception of the write, or the [KeyError] of a document without an id. *)
Theorem validate_api_key_failure_keeps_store (env : auth.StoreEnv)
    (api_key_header api_key_auth api_key_body : option string)
    (coll : list dict) (e : exn) :
  fst (auth.validate_api_key env api_key_header api_key_auth api_key_body coll)
  = Raised e ->
  snd (auth.validate_api_key env api_key_header api_key_auth api_key_body coll)
  = coll
  /\ (e = HTTPException 401 auth.detail_key_required
      \/ e = HTTPException 401 auth.detail_invalid_key
      \/ auth.find_fault env = Some e
      \/ auth.update_fault env = Some e
      \/ e = KeyError "'_id'").
Proof.
  rewrite validate_api_key_cases.
  destruct (first_nonempty _) as [k|].
  - destruct (auth.find_fault env) as [ef|] eqn:Hff.
    + cbn. intro H. injection H as <-. auto.
    + destruct (find _ coll) as [[|kv d]|];
        try (cbn; intro H; injection H as <-; now auto).
      destruct (dict_get (kv :: d) "_id");
        [|cbn; intro H; injection H as <-; now auto 6].
      destruct (auth.update_fault env) as [eu|] eqn:Huf; [|discriminate].
      cbn. intro H. injection H as <-. auto 6.
  - cbn. intro H. injection H as <-. auto.
Qed.

Lemma validate_api_key_failure_keeps_store_witness :
  snd (auth.validate_api_key Sample.store_write_down (Some "key-alpha")
                             None None Sample.store)
  = Sample.store.
Proof.
  exact (proj1 (validate_api_key_failure_keeps_store Sample.store_write_down
                  (Some "key-alpha") None None Sample.store
                  (OtherException "connection closed") eq_refl)).
Defined.



(** The document an update reaches is the first that matches, and it
    still matches when the filter does not look at the updated field. *)
Lemma find_set_first (filter : dict) (k : string) (v : value)
    (coll : list dict) (d0 : dict) :
  (forall kv, In kv filter -> fst kv <> k) ->
  find (auth.matches filter) coll = Some d0 ->
  find (auth.matches filter) (auth.set_first filter [(k, v)] coll)
  = Some (dict_set d0 k v).
Proof.
  intro Hf. induction coll as [|d r IH]; [discriminate|].
  cbn [find auth.set_first]. destruct (auth.matches filter d) eqn:E.
  - intro H. injection H as <-. cbn [find fold_left fst snd].
    now rewrite matches_set_other, E.
  - intro H. cbn [find]. rewrite E. now apply IH.
Qed.



(** ** Key administration *)

Lemma modified_count_first (filter update : dict) (coll : list dict) :
  auth_keys.modified_count filter update coll
  = match find (auth.matches filter) coll with
    | Some d => if auth_keys.changes update d then 1 else 0
    | None => 0
    end.
Proof.
  induction coll as [|d r IH]; [reflexivity|].
  cbn [auth_keys.modified_count find].
  destruct (auth.matches filter d); [reflexivity|exact IH].
Qed.

Lemma changes_one (k : string) (v : value) (d : dict) :
  auth_keys.changes [(k, v)] d = false <-> dict_get d k = Some v.
Proof.
  unfold auth_keys.changes. cbn [existsb fst snd]. rewrite orb_false_r.
  destruct (dict_get d k) as [w|]; [|split; discriminate].
  rewrite negb_false_iff, value_eqb_eq. split; congruence.
Qed.

Lemma set_first_no_match (filter update : dict) (coll : list dict) :
  find (auth.matches filter) coll = None ->
  auth.set_first filter update coll = coll.
Proof.
  induction coll as [|d r IH]; [reflexivity|]. cbn [find auth.set_first].
  destruct (auth.matches filter d); [discriminate|].
  intro H. now rewrite IH.
Qed.

(** An update that changes nothing in the document it reaches leaves the
    collection as it was. *)
Lemma set_first_unchanged (filter : dict) (k : string) (v : value)
    (coll : list dict) :
  auth_keys.modified_count filter [(k, v)] coll = 0%nat ->
  auth.set_first filter [(k, v)] coll = coll.
Proof.
  induction coll as [|d r IH]; [reflexivity|].
  cbn [auth_keys.modified_count auth.set_first].
  destruct (auth.matches filter d).
  - destruct (auth_keys.changes [(k, v)] d) eqn:E; [discriminate|].
    intros _. apply changes_one in E. cbn [fold_left fst snd].
    now rewrite dict_set_same.
  - intro H. now rewrite IH.
Qed.

Lemma carriers_none (k : string) (coll : list dict) :
  carriers k coll = 0%nat ->
  find (auth.matches [("key", VStr k); ("active", VBool true)]) coll = None.
Proof.
  unfold carriers. intro H. apply length_zero_iff_nil in H.
  apply find_no_match. intros d Hin.
  destruct (auth.matches [("key", VStr k); ("active", VBool true)] d) eqn:E;
    [|reflexivity].
  apply matches_key_active in E as [Hk _].
  assert (In d (filter (auth.matches [("key", VStr k)]) coll)) as Hd.
  { apply filter_In. split; [assumption|]. now apply matches_one. }
  rewrite H in Hd. contradiction.
Qed.

(** After the deactivation of a key that at most one document carries,
    no document is found for it. *)
Lemma find_after_deactivation (k : string) (coll : list dict) :
  (carriers k coll <= 1)%nat ->
  find (auth.matches [("key", VStr k); ("active", VBool true)])
       (auth.set_first [("key", VStr k)] [("active", VBool false)] coll)
  = None.
Proof.
  unfold carriers. induction coll as [|d r IH]; intro H; [reflexivity|].
  cbn [auth.set_first filter] in *.
  destruct (auth.matches [("key", VStr k)] d) eqn:E.
  - cbn [find fold_left fst snd List.length] in *.
    assert (auth.matches [("key", VStr k); ("active", VBool true)]
              (dict_set d "active" (VBool false)) = false) as ->.
    { destruct (auth.matches _ (dict_set d "active" (VBool false))) eqn:E';
        [|reflexivity].
      apply matches_key_active in E' as [_ Ha].
      rewrite dict_get_set_same in Ha. discriminate. }
    apply carriers_none. unfold carriers. lia.
  - cbn [find].
    assert (auth.matches [("key", VStr k); ("active", VBool true)] d = false)
      as ->.
    { destruct (auth.matches [("key", VStr k); ("active", VBool true)] d) eqn:E';
        [|reflexivity].
      apply matches_key_active in E' as [Hk _].
      apply matches_one in Hk. congruence. }
    now apply IH.
Qed.

Lemma deactivated_key_rejected_aux (env env' : auth.StoreEnv) (k : string)
    (coll : list dict) (h a b : option string) :
  first_nonempty [h; a; b] = Some k ->
  (carriers k coll <= 1)%nat ->
  auth.update_fault env = None ->
  auth.find_fault env' = None ->
  auth.validate_api_key env' h a b
    (snd (auth_keys.deactivate_api_key env k coll))
  = (Raised (HTTPException 401 "Invalid or inactive API key"),
     snd (auth_keys.deactivate_api_key env k coll)).
Proof.
  intros Hsel Hc Hu Hf.
  unfold auth_keys.deactivate_api_key, auth.update_one. rewrite Hu. cbn [snd].
  rewrite (validate_api_key_not_found env' _ _ _ _ k Hsel
             (find_after_deactivation k coll Hc)).
  now rewrite Hf.
Qed.

(** A deactivated key no longer authenticates: after [deactivate_api_key]
    on a key that at most one document carries, a request that presents
    that key gets the 401 for an invalid or inactive key (the store
    answering both calls), and the lookup changes nothing. *)
Theorem deactivated_key_is_rejected (env env' : auth.StoreEnv) (k : string)
    (coll : list dict) (api_key_header api_key_auth api_key_body : option string) :
  first_nonempty [api_key_header; api_key_auth; api_key_body] = Some k ->
  (carriers k coll <= 1)%nat ->
  auth.update_fault env = None ->
  auth.find_fault env' = None ->
  auth.validate_api_key env' api_key_header api_key_auth api_key_body
    (snd (auth_keys.deactivate_api_key env k coll))
  = (Raised (HTTPException 401 "Invalid or inactive API key"),
     snd (auth_keys.deactivate_api_key env k coll)).
Proof.
  intros Hsel Hc Hu Hf. now apply deactivated_key_rejected_aux.
Qed.

Lemma deactivated_key_is_rejected_witness :
  fst (auth.validate_api_key Sample.store_up None (Some "key-alpha") None
         (snd (auth_keys.deactivate_api_key Sample.store_up "key-alpha"
                                            Sample.store)))
  = Raised (HTTPException 401 "Invalid or inactive API key").
Proof.
  rewrite (deactivated_key_is_rejected Sample.store_up Sample.store_up
             "key-alpha" Sample.store None (Some "key-alpha") None);
    reflexivity.
Defined.

Lemma set_first_idempotent (filter : dict) (k : string) (v : value)
    (coll : list dict) :
  (forall kv, In kv filter -> fst kv <> k) ->
  auth.set_first filter [(k, v)] (auth.set_first filter [(k, v)] coll)
  = auth.set_first filter [(k, v)] coll.
Proof.
  intro Hf. induction coll as [|d r IH]; [reflexivity|].
  cbn [auth.set_first]. destruct (auth.matches filter d) eqn:E.
  - cbn [auth.set_first fold_left fst snd].
    rewrite matches_set_other, E by assumption.
    now rewrite (dict_set_same (dict_set d k v) k v (dict_get_set_same d k v)).
  - cbn [auth.set_first]. now rewrite E, IH.
Qed.

(** [deactivate_api_key] reports true only the first time: on the
    collection that a first call leaves, a second call for the same key
    returns false and changes nothing; and a call for a key that no
    document carries returns false and changes nothing. *)
Theorem deactivate_api_key_once (env : auth.StoreEnv) (k : string)
    (coll : list dict) :
  auth.update_fault env = None ->
  auth_keys.deactivate_api_key env k
    (snd (auth_keys.deactivate_api_key env k coll))
  = (Ok false, snd (auth_keys.deactivate_api_key env k coll))
  /\ (unknown coll k ->
      auth_keys.deactivate_api_key env k coll = (Ok false, coll)).
Proof.
  intro Hu. unfold auth_keys.deactivate_api_key, auth.update_one.
  rewrite Hu. cbn [snd]. split.
  - assert (Hfil : forall kv, In kv [("key", VStr k)] -> fst kv <> "active").
    { intros kv [<-|[]]. discriminate. }
    rewrite set_first_idempotent by assumption.
    rewrite modified_count_first.
    destruct (find (auth.matches [("key", VStr k)]) coll) as [d0|] eqn:E.
    + rewrite (find_set_first _ _ _ _ d0 Hfil E).
      assert (auth_keys.changes [("active", VBool false)]
                (dict_set d0 "active" (VBool false)) = false) as ->.
      { apply changes_one. apply dict_get_set_same. }
      reflexivity.
    + rewrite (set_first_no_match _ _ _ E), E. reflexivity.
  - intro Hunk.
    assert (E : find (auth.matches [("key", VStr k)]) coll = None).
    { apply find_no_match. intros d Hin.
      destruct (auth.matches [("key", VStr k)] d) eqn:E'; [|reflexivity].
      apply matches_one in E'. now elim (Hunk d Hin). }
    rewrite modified_count_first, E, (set_first_no_match _ _ _ E). reflexivity.
Qed.

Lemma deactivate_api_key_once_witness :
  fst (auth_keys.deactivate_api_key Sample.store_up "key-alpha" Sample.store)
  = Ok true
  /\ fst (auth_keys.deactivate_api_key Sample.store_up "key-alpha"
            (snd (auth_keys.deactivate_api_key Sample.store_up "key-alpha"
                                               Sample.store)))
     = Ok false.
Proof.
  split; [reflexivity|].
  now rewrite (proj1 (deactivate_api_key_once Sample.store_up "key-alpha"
                        Sample.store eq_refl)).
Defined.

Lemma find_app_none {A} (f : A -> bool) (l1 l2 : list A) :
  find f l1 = None -> find f (l1 ++ l2) = find f l2.
Proof.
  induction l1 as [|x l1 IH]; [reflexivity|]. cbn.
  destruct (f x); [discriminate|exact IH].
Qed.

Lemma carriers_fresh (k : string) (coll : list dict) (d : dict) :
  unknown coll k -> dict_get d "key" = Some (VStr k) ->
  carriers k (coll ++ [d]) = 1%nat.
Proof.
  intros Hunk Hd. unfold carriers. rewrite filter_app, length_app.
  assert (filter (auth.matches [("key", VStr k)]) coll = []) as ->.
  { induction coll as [|x r IH]; [reflexivity|]. cbn [filter].
    destruct (auth.matches [("key", VStr k)] x) eqn:E.
    - apply matches_one in E. elim (Hunk x); [now left|exact E].
    - apply IH. intros y Hy. apply Hunk. now right. }
  cbn [filter]. apply matches_one in Hd. now rewrite Hd.
Qed.

(** The life of a key.  [create_api_key] returns the token it drew and
    appends one document to the collection.  When no document carried that
    token before, a request that presents it is authenticated as that very
    document, and after [deactivate_api_key] on it the same request gets the
    401 (the store answering each call). *)
Theorem created_key_lifecycle (env env' env'' : auth.StoreEnv)
    (kenv : auth_keys.KeyEnv) (name : string) (coll : list dict)
    (api_key_header api_key_auth api_key_body : option string) :
  auth_keys.insert_fault kenv = None ->
  unknown coll (auth_keys.token_urlsafe kenv) ->
  first_nonempty [api_key_header; api_key_auth; api_key_body]
  = Some (auth_keys.token_urlsafe kenv) ->
  auth.find_fault env' = None -> auth.update_fault env' = None ->
  auth.find_fault env'' = None -> auth.update_fault env'' = None ->
  let created := auth_keys.create_api_key env kenv name coll in
  fst created = Ok (auth_keys.token_urlsafe kenv)
  /\ snd created = (coll ++ [auth_keys.new_key_doc env kenv name])%list
  /\ fst (auth.validate_api_key env' api_key_header api_key_auth api_key_body
                                (snd created))
     = Ok (auth_keys.new_key_doc env kenv name)
  /\ fst (auth.validate_api_key env' api_key_header api_key_auth api_key_body
            (snd (auth_keys.deactivate_api_key env''
                    (auth_keys.token_urlsafe kenv) (snd created))))
     = Raised (HTTPException 401 "Invalid or inactive API key").
Proof.
  intros Hins Hunk Hsel Hf Hu Hf' Hu'.
  unfold auth_keys.create_api_key. rewrite Hins. cbn [fst snd].
  split; [reflexivity|]. split; [reflexivity|]. split.
  - rewrite (validate_api_key_found env' _ _ _ _
               (auth_keys.token_urlsafe kenv)
               (auth_keys.new_key_doc env kenv name)
               (VObjectId (auth_keys.new_object_id kenv)) Hsel Hf).
    + now rewrite Hu.
    + rewrite find_app_none by (now apply find_unknown).
      cbn [find].
      assert (auth.matches
                [("key", VStr (auth_keys.token_urlsafe kenv));
                 ("active", VBool true)]
                (auth_keys.new_key_doc env kenv name) = true) as ->;
        [|reflexivity].
      apply matches_key_active. split; reflexivity.
    + reflexivity.
  - rewrite (deactivated_key_rejected_aux env'' env'
               (auth_keys.token_urlsafe kenv)); try assumption; [reflexivity|].
    rewrite (carriers_fresh _ coll); [lia|assumption|reflexivity].
Qed.

Lemma created_key_lifecycle_witness :
  fst (auth.validate_api_key Sample.store_up None None
         (Some "Zm9vYmFyYmF6cXV4Zm9vYmFyYmF6cXV4Zm9vYmFyYmE")
         (snd (auth_keys.create_api_key Sample.store_up Sample.key_draws
                                        "gamma" Sample.store)))
  = Ok (auth_keys.new_key_doc Sample.store_up Sample.key_draws "gamma").
Proof.
  assert (Hunk : unknown Sample.store
                   (auth_keys.token_urlsafe Sample.key_draws)).
  { intros d [<-|[<-|[]]]; discriminate. }
  exact (proj1 (proj2 (proj2
           (created_key_lifecycle Sample.store_up Sample.store_up
              Sample.store_up Sample.key_draws "gamma" Sample.store
              None None (Some "Zm9vYmFyYmF6cXV4Zm9vYmFyYmF6cXV4Zm9vYmFyYmE")
              eq_refl Hunk eq_refl eq_refl eq_refl eq_refl eq_refl)))).
Defined.

(** The two admin endpoints fail only with their own statuses and never
    leave a half-done change: [POST /admin/create-api-key] fails only with
    a 500 whose detail carries the message of the store, the collection
    unchanged; [POST /admin/deactivate-api-key] answers 404 "API key not
    found" exactly when the update modified nothing (no document carries the
    key, or the one reached is inactive already), the collection unchanged,
    and a failure of the store that is not itself an HTTP exception is a 500
    with the message of the store. *)
Theorem admin_endpoints_failures (env : auth.StoreEnv)
    (kenv : auth_keys.KeyEnv) (name api_key : string) (coll : list dict) :
  (forall e coll',
      admin.create_api_key env kenv name coll = (Raised e, coll') ->
      coll' = coll
      /\ exists e0, auth_keys.insert_fault kenv = Some e0
                    /\ e = HTTPException 500
                             ("Failed to create API key: " ++ str_exn e0))
  /\ (auth.update_fault env = None ->
      (auth_keys.modified_count [("key", VStr api_key)]
                                [("active", VBool false)] coll = 0%nat ->
       admin.deactivate_api_key env api_key coll
       = (Raised (HTTPException 404 "API key not found"), coll))
      /\ (auth_keys.modified_count [("key", VStr api_key)]
                                   [("active", VBool false)] coll <> 0%nat ->
          fst (admin.deactivate_api_key env api_key coll)
          = Ok [("message", JStr "API key deactivated successfully")]))
  /\ (forall e0,
         auth.update_fault env = Some e0 ->
         (forall status_code detail, e0 <> HTTPException status_code detail) ->
         admin.deactivate_api_key env api_key coll
         = (Raised (HTTPException 500
                      ("Failed to deactivate API key: " ++ str_exn e0)), coll)).
Proof.
  split; [|split].
  - intros e coll'. unfold admin.create_api_key, auth_keys.create_api_key.
    destruct (auth_keys.insert_fault kenv) as [e0|]; [|discriminate].
    intro H. injection H as <- <-. split; [reflexivity|].
    exists e0. split; reflexivity.
  - intro Hu. unfold admin.deactivate_api_key, auth_keys.deactivate_api_key,
      auth.update_one. rewrite Hu. split.
    + intro H0. rewrite H0. cbn [Nat.ltb Nat.leb].
      now rewrite set_first_unchanged.
    + intro Hn.
      destruct (auth_keys.modified_count _ _ coll) as [|n]; [congruence|].
      reflexivity.
  - intros e0 Hu Hnot.
    unfold admin.deactivate_api_key, auth_keys.deactivate_api_key,
      auth.update_one. rewrite Hu.
    destruct e0; try reflexivity. now elim (Hnot status_code detail).
Qed.

Lemma admin_endpoints_failures_witness :
  admin.deactivate_api_key Sample.store_up "key-beta" Sample.store
  = (Raised (HTTPException 404 "API key not found"), Sample.store)
  /\ admin.deactivate_api_key Sample.store_write_down "key-alpha" Sample.store
     = (Raised (HTTPException 500
                  "Failed to deactivate API key: connection closed"),
        Sample.store).
Proof.
  destruct (admin_endpoints_failures Sample.store_up Sample.key_draws "gamma"
              "key-beta" Sample.store) as (_ & H404 & _).
  destruct (admin_endpoints_failures Sample.store_write_down Sample.key_draws
              "gamma" "key-alpha" Sample.store) as (_ & _ & H500).
  split.
  - apply (proj1 (H404 eq_refl)). reflexivity.
  - apply (H500 (OtherException "connection closed") eq_refl).
    intros; discriminate.
Defined.

(** ** The handler by cases *)

Lemma file_remove_added (fs : list (string * Blob)) (p : string) (c : Blob) :
  file_remove ((p, c) :: file_remove fs p) p = file_remove fs p.
Proof.
  unfold file_remove. cbn [filter fst]. rewrite String.eqb_refl. cbn [negb].
  induction fs as [|[q b] fs IH]; [reflexivity|].
  cbn [filter fst]. destruct (String.eqb q p) eqn:E; cbn [negb].
  - exact IH.
  - cbn [filter fst]. rewrite E. cbn [negb]. now rewrite IH.
Qed.

Lemma file_remove_absent (fs : list (string * Blob)) (p : string) :
  file_lookup fs p = None -> file_remove fs p = fs.
Proof.
  unfold file_remove. induction fs as [|[q b] fs IH]; [reflexivity|].
  cbn [file_lookup filter fst]. destruct (String.eqb q p); [discriminate|].
  intro H. cbn [negb]. now rewrite IH.
Qed.

Lemma file_lookup_removed (fs : list (string * Blob)) (p : string) :
  file_lookup (file_remove fs p) p = None.
Proof.
  unfold file_remove. induction fs as [|[q b] fs IH]; [reflexivity|].
  cbn [filter fst]. destruct (String.eqb q p) eqn:E; cbn [negb]; [exact IH|].
  cbn [file_lookup]. now rewrite E.
Qed.

Lemma transcribe_audio_file_run (env : Env) (path : string) (content : Blob)
    (st : State) :
  file_lookup (files st) path = Some content ->
  transcription_service.transcribe_audio_file env path st
  = (engine_outcome env path content,
     {| files := files st; log := log st ++ engine_events env path |}).
Proof.
  intro H. unfold transcription_service.transcribe_audio_file, engine_outcome,
    engine_events.
  destruct (whisper_model env) as [model|].
  - unfold_m. cbn [files log]. rewrite H.
    destruct (model path (Some content)) as [result|e]; [reflexivity|].
    destruct e; cbn [transcription_failure str_exn]; try reflexivity.
    destruct (transcription_service.mentions_ffmpeg msg); reflexivity.
  - unfold raise. now rewrite app_nil_r, state_eta.
Qed.

(** From the creation of the temporary file on. *)
Lemma handle_upload_saved (env : Env) (a : UploadFile) (f : string)
    (authenticated_key : dict) (st : State) :
  (emit (EvValidateAudioType (content_type a) (Some f)) ;;;
   ret tt ;;;
   ret tt ;;;
   temp_file_path <-
     NamedTemporaryFile env (snd (Py.splitext f)) (content a) ;;
   try_finally
     (valid <- transcription_service.validate_audio_file temp_file_path ;;
      if negb valid then
        webhook_service.send_error_notification env detail_invalid_file
          (key_name authenticated_key) (Some f) ;;;
        raise (HTTPException HTTP_400_BAD_REQUEST detail_invalid_file)
      else transcription_service.transcribe_audio_file env temp_file_path)
     (unlink_if_exists temp_file_path)) st
  = match temp_fault env (snd (Py.splitext f)) with
    | Some e =>
        (Raised e,
         {| files := files st;
            log := log st
                   ++ [EvValidateAudioType (content_type a) (Some f)] |})
    | None =>
        if saved_file_valid a f then
          (engine_outcome env (upload_path env f) (content a),
           {| files := file_remove (files st) (upload_path env f);
              log := log st
                     ++ [EvValidateAudioType (content_type a) (Some f);
                         EvTempFile (upload_path env f)]
                     ++ engine_events env (upload_path env f)
                     ++ [EvUnlink (upload_path env f)] |})
        else
          (Raised (HTTPException 400 "Invalid audio file format or size"),
           {| files := file_remove (files st) (upload_path env f);
              log := log st
                     ++ [EvValidateAudioType (content_type a) (Some f);
                         EvTempFile (upload_path env f);
                         EvPost (ErrorPayload "Invalid audio file format or size"
                                              (key_name authenticated_key)
                                              (Some f));
                         EvUnlink (upload_path env f)] |})
    end.
Proof.
  unfold bind at 1. unfold emit at 1. cbn [files log].
  unfold bind at 1, ret at 1. unfold bind at 1, ret at 1.
  unfold bind at 1. rewrite NamedTemporaryFile_run. cbn [files log].
  destruct (temp_fault env (snd (Py.splitext f))) as [e|]; [reflexivity|].
  cbv zeta. fold (upload_path env f).
  set (path := upload_path env f).
  unfold try_finally. unfold bind at 1.
  rewrite (validate_audio_file_run path (content a)) by apply file_lookup_head.
  assert (Hext : snd (Py.splitext path) = snd (Py.splitext f))
    by apply splitext_tmp.
  rewrite Hext. fold (saved_file_valid a f).
  destruct (saved_file_valid a f); cbn [negb].
  - rewrite (transcribe_audio_file_run env path (content a))
      by apply file_lookup_head.
    unfold unlink_if_exists. unfold_m. cbn [files log].
    rewrite file_lookup_head. cbn [files log].
    rewrite file_remove_added.
    destruct (engine_outcome env path (content a));
      now rewrite <- !app_assoc.
  - unfold bind at 1. rewrite send_error_notification_run. unfold raise.
    unfold unlink_if_exists. unfold_m. cbn [files log].
    rewrite file_lookup_head. cbn [files log].
    rewrite file_remove_added. now rewrite <- !app_assoc.
Qed.

Lemma handle_upload_cases (env : Env) (a : UploadFile) (f : string)
    (authenticated_key : dict) (st : State) :
  handle_upload env a f authenticated_key st
  = if negb (validate_audio_type (content_type a) (Some f)) then
      (Raised (HTTPException 400 (detail_unsupported a f)),
       {| files := files st;
          log := log st
                 ++ [EvValidateAudioType (content_type a) (Some f);
                     EvPost (ErrorPayload
                               ("Unsupported audio type: "
                                ++ fmt_str (content_type a))
                               (key_name authenticated_key) (Some f))] |})
    else if too_large a then
      (Raised (HTTPException 400
                 ("File too large. Maximum size: "
                  ++ Py.str_of_int settings.MAX_FILE_SIZE ++ " bytes")),
       {| files := files st;
          log := log st
                 ++ [EvValidateAudioType (content_type a) (Some f);
                     EvPost (ErrorPayload
                               ("File too large: " ++ fmt_int (size a)
                                ++ " bytes")
                               (key_name authenticated_key) (Some f))] |})
    else
      match temp_fault env (snd (Py.splitext f)) with
      | Some e =>
          (Raised e,
           {| files := files st;
              log := log st
                     ++ [EvValidateAudioType (content_type a) (Some f)] |})
      | None =>
          if saved_file_valid a f then
            (engine_outcome env (upload_path env f) (content a),
             {| files := file_remove (files st) (upload_path env f);
                log := log st
                       ++ [EvValidateAudioType (content_type a) (Some f);
                           EvTempFile (upload_path env f)]
                       ++ engine_events env (upload_path env f)
                       ++ [EvUnlink (upload_path env f)] |})
          else
            (Raised (HTTPException 400 "Invalid audio file format or size"),
             {| files := file_remove (files st) (upload_path env f);
                log := log st
                       ++ [EvValidateAudioType (content_type a) (Some f);
                           EvTempFile (upload_path env f);
                           EvPost (ErrorPayload
                                     "Invalid audio file format or size"
                                     (key_name authenticated_key) (Some f));
                           EvUnlink (upload_path env f)] |})
      end.
Proof.
  unfold handle_upload.
  destruct (validate_audio_type (content_type a) (Some f)) eqn:Hv; cbn [negb].
  - unfold too_large.
    destruct (size a) as [n|] eqn:Hsz.
    + destruct (negb (n =? 0) && (settings.MAX_FILE_SIZE <? n))%Z eqn:Hbig.
      * unfold bind at 1. unfold emit at 1. cbn [files log].
        unfold bind at 1, ret at 1.
        unfold bind at 1. unfold bind at 1.
        rewrite send_error_notification_run. unfold raise. cbn [files log fmt_int].
        now rewrite <- app_assoc.
      * apply (handle_upload_saved env a f authenticated_key st).
    + apply (handle_upload_saved env a f authenticated_key st).
  - unfold bind at 1. unfold emit at 1. cbn [files log].
    unfold bind at 1. unfold bind at 1.
    rewrite send_error_notification_run. unfold raise. cbn [files log].
    unfold detail_unsupported. now rewrite <- app_assoc.
Qed.

Lemma transcribe_base64_audio_cases (env : Env) (b : string) (st : State) :
  transcription_service.transcribe_base64_audio env b st
  = match base64.b64decode b with
    | Raised e =>
        (Raised (HTTPException 400
                   ("Failed to process base64 audio: " ++ str_exn e)), st)
    | Ok bytes =>
        (match engine_outcome env (base64_path env) (blob_of_bytes bytes) with
         | Ok r => Ok r
         | Raised e =>
             Raised (HTTPException 400
                       ("Failed to process base64 audio: " ++ str_exn e))
         end,
         {| files := file_remove (files st) (base64_path env);
            log := log st
                   ++ [EvTempFile (base64_path env)]
                   ++ engine_events env (base64_path env)
                   ++ [EvUnlink (base64_path env)] |})
    end.
Proof.
  unfold transcription_service.transcribe_base64_audio.
  unfold try_except at 1. unfold bind at 1. unfold lift at 1.
  destruct (base64.b64decode b) as [bytes|e]; [|reflexivity].
  unfold bind at 1. rewrite NamedTemporaryFile_run, temp_fault_wav. cbv zeta.
  fold (base64_path env).
  set (path := base64_path env).
  unfold try_finally.
  rewrite (transcribe_audio_file_run env path (blob_of_bytes bytes))
    by apply file_lookup_head.
  unfold unlink_if_exists. unfold_m. cbn [files log].
  rewrite file_lookup_head. cbn [files log]. rewrite file_remove_added.
  destruct (engine_outcome env path (blob_of_bytes bytes));
    now rewrite <- !app_assoc.
Qed.

Lemma on_exception_cases (env : Env) (audio : option UploadFile)
    (authenticated_key : dict) (e : exn) (st : State) :
  on_exception env audio authenticated_key e st
  = match e with
    | HTTPException _ _ => (Raised e, st)
    | _ =>
        (Raised (HTTPException 500 "Internal server error during transcription"),
         {| files := files st;
            log := log st
                   ++ [EvPost (ErrorPayload
                                 ("Internal server error: " ++ str_exn e)
                                 (key_name authenticated_key)
                                 (original_filename_of audio))] |})
    end.
Proof.
  destruct e; cbn [on_exception];
    try (unfold bind; rewrite send_error_notification_run; reflexivity).
  reflexivity.
Qed.

(** The events of the delivery of a result from a state. *)
Lemma deliver_and_respond_cases (env : Env) (audio : option UploadFile)
    (authenticated_key : dict) (text language : string) (duration : float)
    (st : State) :
  let trace :=
    attempts_trace env
      (TranscriptionPayload text language duration (key_name authenticated_key)
         (original_filename_of audio) (audio_size_of audio))
      (webhook_service.range (WEBHOOK_RETRIES env)) (count_posts (log st)) in
  deliver_and_respond env audio authenticated_key (text, language, duration) st
  = (match int_duration duration with
     | Ok n =>
         Ok (response text language duration (fst trace)
                      (transcription_id authenticated_key n))
     | Raised e => Raised e
     end,
     {| files := files st; log := log st ++ snd trace |}).
Proof.
  intro trace. unfold deliver_and_respond.
  unfold bind at 1. unfold try_except.
  unfold webhook_service.send_transcription_result. rewrite send_loop_trace.
  fold trace. unfold bind, lift, ret.
  destruct (int_duration duration); reflexivity.
Qed.

Lemma transcribe_audio_cases (env : Env) (audio : option UploadFile)
    (api_key_file : option string) (request_data : option TranscriptionRequest)
    (authenticated_key : dict) (st : State) :
  transcribe_audio env audio api_key_file request_data authenticated_key st
  = match obtain_transcription env audio request_data authenticated_key st with
    | (Ok t, st1) =>
        match deliver_and_respond env audio authenticated_key t st1 with
        | (Ok resp, st2) => (Ok resp, st2)
        | (Raised e, st2) => on_exception env audio authenticated_key e st2
        end
    | (Raised e, st1) => on_exception env audio authenticated_key e st1
    end.
Proof.
  unfold transcribe_audio, try_except, bind.
  destruct (obtain_transcription env audio request_data authenticated_key st)
    as [[t|e] st1]; reflexivity.
Qed.

Lemma obtain_transcription_cases (env : Env) (audio : option UploadFile)
    (request_data : option TranscriptionRequest) (authenticated_key : dict)
    (st : State) :
  obtain_transcription env audio request_data authenticated_key st
  = match upload_of audio with
    | Some (a, f) => handle_upload env a f authenticated_key st
    | None =>
        match base64_of request_data with
        | Some b => transcription_service.transcribe_base64_audio env b st
        | None =>
            (Raised (HTTPException 400
                       "Either audio file or audio_base64 must be provided"),
             {| files := files st;
                log := log st
                       ++ [EvPost (ErrorPayload "No audio data provided"
                                     (key_name authenticated_key) None)] |})
        end
    end.
Proof.
  unfold obtain_transcription.
  destruct (upload_of audio) as [[a f]|]; [reflexivity|].
  destruct (base64_of request_data); [reflexivity|].
  unfold bind. now rewrite send_error_notification_run.
Qed.

(** ** What the handler does and never does *)

Lemma attempts_trace_events (env : Env) (payload : Payload)
    (attempts : list nat) :
  forall p,
    forallb (fun e => is_post e || is_sleep e)
            (snd (attempts_trace env payload attempts p)) = true.
Proof.
  induction attempts as [|attempt rest IH]; intro p; [reflexivity|].
  cbn [attempts_trace]. destruct (attempt_succeeds (webhook env p));
    [reflexivity|].
  specialize (IH (S p)).
  destruct (attempts_trace env payload rest (S p)) as [b evs]. cbn [snd] in *.
  destruct (Z.of_nat attempt <? WEBHOOK_RETRIES env - 1)%Z; cbn; exact IH.
Qed.

(** After the transcription is obtained the handler only posts and
    sleeps, and leaves the files alone. *)
Lemma transcribe_audio_after (env : Env) (audio : option UploadFile)
    (api_key_file : option string) (request_data : option TranscriptionRequest)
    (authenticated_key : dict) (st : State) :
  let st1 :=
    snd (obtain_transcription env audio request_data authenticated_key st) in
  exists evs,
    snd (transcribe_audio env audio api_key_file request_data
                          authenticated_key st)
    = {| files := files st1; log := log st1 ++ evs |}
    /\ forallb (fun e => is_post e || is_sleep e) evs = true.
Proof.
  rewrite transcribe_audio_cases.
  destruct (obtain_transcription env audio request_data authenticated_key st)
    as [[[[text language] duration]|e] st1]; cbn [snd].
  - rewrite deliver_and_respond_cases.
    pose proof (attempts_trace_events env
                  (TranscriptionPayload text language duration
                     (key_name authenticated_key) (original_filename_of audio)
                     (audio_size_of audio))
                  (webhook_service.range (WEBHOOK_RETRIES env))
                  (count_posts (log st1))) as Hev.
    destruct (int_duration duration) as [n|e].
    + eexists. split; [reflexivity|exact Hev].
    + rewrite on_exception_cases. cbn [files log].
      destruct e; cbn [snd files log];
        try (eexists; split;
             [rewrite <- app_assoc; reflexivity
             |rewrite forallb_app, Hev; reflexivity]).
      eexists. split; [reflexivity|exact Hev].
  - rewrite on_exception_cases.
    destruct e; cbn [snd];
      try (eexists; split; [reflexivity|reflexivity]).
    exists []. split; [now rewrite app_nil_r, state_eta|reflexivity].
Qed.

Lemma engine_outcome_raises (env : Env) (path : string) (content : Blob)
    (e : exn) :
  engine_outcome env path content = Raised e ->
  exists status_code detail,
    (status_code = 400 \/ status_code = 500)%Z
    /\ e = HTTPException status_code detail.
Proof.
  unfold engine_outcome. destruct (whisper_model env) as [model|].
  - destruct (model path (Some content)) as [r|ex]; [discriminate|].
    intro H. injection H as <-.
    destruct ex; cbn [transcription_failure];
      try (eexists; eexists; split; [left; reflexivity|reflexivity]).
    destruct (transcription_service.mentions_ffmpeg _);
      eexists; eexists; (split; [|reflexivity]); [right|left]; reflexivity.
  - intro H. injection H as <-. eexists. eexists.
    split; [right; reflexivity|reflexivity].
Qed.

(** Every failure of the base64 path is a 400 whose detail starts with
    "Failed to process base64 audio: ", whatever failed: the decoding, the
    engine, or a model that is not loaded, whose own 500 ends up inside the
    detail. *)
Theorem base64_path_fails_with_400 (env : Env) (b : string) (st st' : State)
    (e : exn) :
  transcription_service.transcribe_base64_audio env b st = (Raised e, st') ->
  (exists msg,
      e = HTTPException 400 ("Failed to process base64 audio: " ++ msg))
  /\ (whisper_model env = None ->
      forall bytes, base64.b64decode b = Ok bytes ->
      e = HTTPException 400
            "Failed to process base64 audio: 500: Speech recognition model not loaded").
Proof.
  rewrite transcribe_base64_audio_cases.
  destruct (base64.b64decode b) as [bytes|ed].
  - destruct (engine_outcome env (base64_path env) (blob_of_bytes bytes))
      as [r|ex] eqn:Ho; [discriminate|].
    intro H. injection H as <- _. split; [eexists; reflexivity|].
    intros Hm bytes' _. unfold engine_outcome in Ho. rewrite Hm in Ho.
    injection Ho as <-. reflexivity.
  - intro H. injection H as <- _. split; [eexists; reflexivity|].
    intros _ bytes Hb. discriminate.
Qed.

Lemma base64_path_fails_with_400_witness :
  fst (transcription_service.transcribe_base64_audio
         {| WEBHOOK_RETRIES := 3; webhook := Sample.accepts;
            whisper_model := None; tmpdir := "/tmp"; tmpname := [1; 2; 3] |}
         "SUQz" initial)
  = Raised (HTTPException 400
              "Failed to process base64 audio: 500: Speech recognition model not loaded").
Proof.
  destruct (transcription_service.transcribe_base64_audio
              {| WEBHOOK_RETRIES := 3; webhook := Sample.accepts;
                 whisper_model := None; tmpdir := "/tmp"; tmpname := [1; 2; 3] |}
              "SUQz" initial) as [r st'] eqn:Hrun.
  assert (Hr : exists e, r = Raised e).
  { apply (f_equal fst) in Hrun. vm_compute in Hrun. subst r.
    eexists. reflexivity. }
  destruct Hr as [e ->].
  destruct (base64_path_fails_with_400 _ _ _ _ _ Hrun) as [_ H].
  cbn [fst]. f_equal.
  apply (H eq_refl [Byte.x49; Byte.x44; Byte.x33]). reflexivity.
Defined.

(** The handler raises nothing but an [HTTPException] with status 400 or
    500, whatever the request, the engine and the endpoint do. *)
Theorem transcribe_audio_raises_400_or_500 (env : Env)
    (audio : option UploadFile) (api_key_file : option string)
    (request_data : option TranscriptionRequest) (authenticated_key : dict)
    (st : State) (e : exn) :
  fst (transcribe_audio env audio api_key_file request_data authenticated_key st)
  = Raised e ->
  exists status_code detail,
    (status_code = 400 \/ status_code = 500)%Z
    /\ e = HTTPException status_code detail.
Proof.
  rewrite transcribe_audio_cases, obtain_transcription_cases.
  assert (Hon : forall ex st0 e0,
             (exists s d, (s = 400 \/ s = 500)%Z /\ ex = HTTPException s d)
             \/ (forall s d, ex <> HTTPException s d) ->
             fst (on_exception env audio authenticated_key ex st0) = Raised e0 ->
             exists s d, (s = 400 \/ s = 500)%Z /\ e0 = HTTPException s d).
  { intros ex st0 e0 Hex. rewrite on_exception_cases.
    destruct Hex as [(s & d & Hs & ->)|Hnot].
    - cbn. intro H. injection H as <-. eauto.
    - destruct ex; try (cbn; intro H; injection H as <-;
                        eexists; eexists; split; [right; reflexivity|reflexivity]).
      now elim (Hnot status_code detail). }
  assert (Hdel : forall t st1 e0,
             fst (match deliver_and_respond env audio authenticated_key t st1 with
                  | (Ok resp, st2) => (Ok resp, st2)
                  | (Raised ex, st2) =>
                      on_exception env audio authenticated_key ex st2
                  end) = Raised e0 ->
             exists s d, (s = 400 \/ s = 500)%Z /\ e0 = HTTPException s d).
  { intros [[text language] duration] st1 e0.
    rewrite deliver_and_respond_cases. unfold int_duration.
    destruct duration as [s| s| |s m ex]; cbn [float_truthy int_of_float];
      try discriminate; apply Hon; right; intros; discriminate. }
  destruct (upload_of audio) as [[a f]|].
  - rewrite handle_upload_cases.
    destruct (negb (validate_audio_type (content_type a) (Some f)));
      [apply Hon; left; eauto|].
    destruct (too_large a); [apply Hon; left; eauto|].
    destruct (temp_fault env (snd (Py.splitext f))) as [ef|] eqn:Hfault;
      [apply Hon; right; exact (temp_fault_not_http _ _ _ Hfault)|].
    destruct (saved_file_valid a f); [|apply Hon; left; eauto].
    destruct (engine_outcome env (upload_path env f) (content a)) as [t|ex] eqn:Ho.
    + apply Hdel.
    + apply Hon. left. exact (engine_outcome_raises _ _ _ _ Ho).
  - destruct (base64_of request_data) as [b|]; [|apply Hon; left; eauto].
    rewrite transcribe_base64_audio_cases.
    destruct (base64.b64decode b) as [bytes|ed]; [|apply Hon; left; eauto].
    destruct (engine_outcome env (base64_path env) (blob_of_bytes bytes))
      as [t|ex]; [apply Hdel|apply Hon; left; eauto].
Qed.

Lemma transcribe_audio_raises_400_or_500_witness :
  exists status_code detail,
    (status_code = 400 \/ status_code = 500)%Z
    /\ fst (transcribe_audio (Sample.world Sample.garbled Sample.down)
              (Some Sample.upload) None None Sample.credential initial)
       = Raised (HTTPException status_code detail).
Proof.
  destruct (transcribe_audio (Sample.world Sample.garbled Sample.down)
              (Some Sample.upload) None None Sample.credential initial)
    as [r st'] eqn:Hrun.
  assert (Hr : exists e, r = Raised e).
  { apply (f_equal fst) in Hrun. vm_compute in Hrun. subst r.
    eexists. reflexivity. }
  destruct Hr as [e ->].
  destruct (transcribe_audio_raises_400_or_500
              (Sample.world Sample.garbled Sample.down) (Some Sample.upload)
              None None Sample.credential initial e)
    as (s & d & Hs & ->).
  - now rewrite Hrun.
  - exists s, d. split; [exact Hs|reflexivity].
Defined.

(** The handler leaves the files as it found them: whatever the request
    and its outcome, the temporary file it may have written is gone when it
    returns and no other file is touched (the name of the temporary file
    being a fresh one). *)
Theorem transcribe_audio_restores_files (env : Env)
    (audio : option UploadFile) (api_key_file : option string)
    (request_data : option TranscriptionRequest) (authenticated_key : dict)
    (st : State) :
  (forall p, temp_path env audio request_data = Some p ->
             file_lookup (files st) p = None) ->
  files (snd (transcribe_audio env audio api_key_file request_data
                               authenticated_key st))
  = files st.
Proof.
  intro Hfresh.
  destruct (transcribe_audio_after env audio api_key_file request_data
              authenticated_key st) as (evs & -> & _).
  cbn [files]. rewrite obtain_transcription_cases.
  unfold temp_path in Hfresh.
  destruct (upload_of audio) as [[a f]|].
  - rewrite handle_upload_cases.
    pose proof (file_remove_absent _ _ (Hfresh _ eq_refl)) as Hrm.
    destruct (negb (validate_audio_type (content_type a) (Some f)));
      [reflexivity|].
    destruct (too_large a); [reflexivity|].
    destruct (temp_fault env (snd (Py.splitext f))); [reflexivity|].
    destruct (saved_file_valid a f); exact Hrm.
  - destruct (base64_of request_data) as [b|]; [|reflexivity].
    rewrite transcribe_base64_audio_cases.
    destruct (base64.b64decode b); [|reflexivity].
    exact (file_remove_absent _ _ (Hfresh _ eq_refl)).
Qed.

Lemma transcribe_audio_restores_files_witness :
  files (snd (transcribe_audio (Sample.world Sample.garbled Sample.down)
                (Some Sample.upload) None None Sample.credential initial))
  = [].
Proof.
  apply (transcribe_audio_restores_files
           (Sample.world Sample.garbled Sample.down) (Some Sample.upload)
           None None Sample.credential initial).
  intros p _. reflexivity.
Defined.

(** The two early rejections of an upload.  When the type validator
    rejects it, and when it accepts but the reported size is above the
    maximum, the handler answers 400, sends one error notification, and
    does nothing else: no file is written and the engine is not called. *)
Theorem upload_rejected_early (env : Env) (audio : option UploadFile)
    (a : UploadFile) (f : string) (api_key_file : option string)
    (request_data : option TranscriptionRequest) (authenticated_key : dict)
    (st : State) :
  upload_of audio = Some (a, f) ->
  (validate_audio_type (content_type a) (Some f) = false ->
   transcribe_audio env audio api_key_file request_data authenticated_key st
   = (Raised (HTTPException 400 (detail_unsupported a f)),
      {| files := files st;
         log := log st
                ++ [EvValidateAudioType (content_type a) (Some f);
                    EvPost (ErrorPayload
                              ("Unsupported audio type: "
                               ++ fmt_str (content_type a))
                              (key_name authenticated_key) (Some f))] |}))
  /\ (validate_audio_type (content_type a) (Some f) = true ->
      forall n, size a = Some n -> (settings.MAX_FILE_SIZE < n)%Z ->
      transcribe_audio env audio api_key_file request_data authenticated_key st
      = (Raised (HTTPException 400
                   "File too large. Maximum size: 26214400 bytes"),
         {| files := files st;
            log := log st
                   ++ [EvValidateAudioType (content_type a) (Some f);
                       EvPost (ErrorPayload
                                 ("File too large: " ++ Py.str_of_int n
                                  ++ " bytes")
                                 (key_name authenticated_key) (Some f))] |})).
Proof.
  intro Hu. split.
  - intro Hv. apply transcribe_audio_reraises.
    rewrite obtain_transcription_cases, Hu, handle_upload_cases, Hv.
    reflexivity.
  - intros Hv n Hn Hbig. apply transcribe_audio_reraises.
    rewrite obtain_transcription_cases, Hu, handle_upload_cases, Hv.
    cbn [negb]. unfold too_large. rewrite Hn.
    assert ((negb (n =? 0) && (settings.MAX_FILE_SIZE <? n))%Z = true) as ->.
    { apply andb_true_iff. split.
      - apply negb_true_iff, Z.eqb_neq. unfold settings.MAX_FILE_SIZE in Hbig. lia.
      - now apply Z.ltb_lt. }
    reflexivity.
Qed.

Lemma upload_rejected_early_witness :
  fst (transcribe_audio (Sample.world Sample.hears Sample.accepts)
         (Some Sample.oversize) None None Sample.credential initial)
  = Raised (HTTPException 400 "File too large. Maximum size: 26214400 bytes").
Proof.
  destruct (upload_rejected_early (Sample.world Sample.hears Sample.accepts)
              (Some Sample.oversize) Sample.oversize "notes.txt" None None
              Sample.credential initial eq_refl) as [_ H].
  rewrite (H eq_refl 26214401%Z eq_refl); [reflexivity|].
  unfold settings.MAX_FILE_SIZE. lia.
Defined.

(** The engine is called only for an upload that passed the three checks:
    if the handler called the engine for an upload, then the type validator
    accepted it, its reported size passed, the extension of its name is one
    of the six of the file check, and its content is not above the maximum
    size. *)
Theorem engine_called_only_after_checks (env : Env) (audio : option UploadFile)
    (a : UploadFile) (f : string) (api_key_file : option string)
    (request_data : option TranscriptionRequest) (authenticated_key : dict)
    (st : State) :
  upload_of audio = Some (a, f) ->
  exists evs,
    log (snd (transcribe_audio env audio api_key_file request_data
                               authenticated_key st))
    = (log st ++ evs)%list
    /\ (existsb is_transcribe evs = true ->
        validate_audio_type (content_type a) (Some f) = true
        /\ too_large a = false
        /\ Py.mem (Py.lower (snd (Py.splitext f)))
                  [".mp3"; ".wav"; ".m4a"; ".mp4"; ".ogg"; ".flac"] = true
        /\ (Z.of_N (blob_len (content a)) <= settings.MAX_FILE_SIZE)%Z).
Proof.
  intro Hu.
  destruct (transcribe_audio_after env audio api_key_file request_data
              authenticated_key st) as (evs2 & -> & Hev).
  assert (Hno : existsb is_transcribe evs2 = false).
  { clear - Hev. induction evs2 as [|e r IH]; [reflexivity|].
    cbn in Hev |- *. apply andb_prop in Hev as [He Hr].
    rewrite (IH Hr). destruct e; try reflexivity; discriminate. }
  cbn [log]. rewrite obtain_transcription_cases, Hu, handle_upload_cases.
  destruct (validate_audio_type (content_type a) (Some f)); cbn [negb].
  - destruct (too_large a).
    + cbn [snd log]. eexists. split; [rewrite <- app_assoc; reflexivity|].
      rewrite existsb_app, Hno. discriminate.
    + destruct (temp_fault env (snd (Py.splitext f))).
      { cbn [snd log]. eexists. split; [rewrite <- app_assoc; reflexivity|].
        rewrite existsb_app, Hno. discriminate. }
      unfold saved_file_valid.
      destruct (settings.MAX_FILE_SIZE <? Z.of_N (blob_len (content a)))%Z eqn:Hz;
        cbn [negb andb].
      * cbn [snd log]. eexists. split; [rewrite <- app_assoc; reflexivity|].
        rewrite existsb_app, Hno. discriminate.
      * destruct (Py.mem (Py.lower (snd (Py.splitext f)))
                         transcription_service.allowed_extensions) eqn:Hm.
        -- cbn [snd log]. eexists. split; [rewrite <- app_assoc; reflexivity|].
           intros _. apply Z.ltb_ge in Hz. auto.
        -- cbn [snd log]. eexists. split; [rewrite <- app_assoc; reflexivity|].
           rewrite existsb_app, Hno. discriminate.
  - cbn [snd log]. eexists. split; [rewrite <- app_assoc; reflexivity|].
    rewrite existsb_app, Hno. discriminate.
Qed.

Lemma engine_called_only_after_checks_witness :
  Py.mem (Py.lower (snd (Py.splitext "sample.mp3")))
         [".mp3"; ".wav"; ".m4a"; ".mp4"; ".ogg"; ".flac"] = true.
Proof.
  destruct (engine_called_only_after_checks
              (Sample.world Sample.hears Sample.accepts) (Some Sample.upload)
              Sample.upload "sample.mp3" None None Sample.credential initial
              eq_refl) as (evs & Hlog & H).
  vm_compute in Hlog. subst evs. apply H. reflexivity.
Defined.

(** ** The validator and the extensions *)

Lemma table_allowed_iff (e : string) :
  allowed (table_get EXTENSION_TO_MIME e) = Py.mem e validator_extensions.
Proof.
  rewrite allowed_table_value.
  unfold EXTENSION_TO_MIME, validator_extensions, Py.mem.
  cbn [table_get existsb].
  rewrite !(String.eqb_sym e).
  destruct (String.eqb ".mp3" e); [reflexivity|].
  destruct (String.eqb ".wav" e); [reflexivity|].
  destruct (String.eqb ".m4a" e); [reflexivity|].
  destruct (String.eqb ".mp4" e); [reflexivity|].
  destruct (String.eqb ".ogg" e); [reflexivity|].
  destruct (String.eqb ".flac" e); reflexivity.
Qed.

(** The type validator accepts an upload when its normalized content
    type is allowed, or when the lowercased extension of its name is one of
    .mp3, .wav, .m4a, .mp4, .ogg, and only then.  The table maps .flac to a
    MIME type that is not allowed, so a .flac name never passes on its own,
    although .flac is one of the extensions of the later file check, and
    every extension that passes on its own passes that check too. *)
Theorem validate_audio_type_by_extension (content_type : option string)
    (f : string) :
  validate_audio_type content_type (Some f)
  = allowed (normalize_content_type content_type)
    || Py.mem (Py.lower (snd (Py.splitext f)))
              [".mp3"; ".wav"; ".m4a"; ".mp4"; ".ogg"]
  /\ (Py.lower (snd (Py.splitext f)) = ".flac" ->
      validate_audio_type content_type (Some f)
      = allowed (normalize_content_type content_type)
      /\ Py.mem (Py.lower (snd (Py.splitext f)))
                transcription_service.allowed_extensions = true)
  /\ (Py.mem (Py.lower (snd (Py.splitext f)))
             [".mp3"; ".wav"; ".m4a"; ".mp4"; ".ogg"] = true ->
      Py.mem (Py.lower (snd (Py.splitext f)))
             transcription_service.allowed_extensions = true).
Proof.
  assert (Hmain : validate_audio_type content_type (Some f)
                  = allowed (normalize_content_type content_type)
                    || Py.mem (Py.lower (snd (Py.splitext f)))
                              validator_extensions).
  { unfold validate_audio_type.
    destruct (allowed (normalize_content_type content_type)); [reflexivity|].
    cbn [orb]. destruct (Py.nonempty f) eqn:Hne.
    - unfold get_mime_from_extension. rewrite Hne. cbn [negb].
      rewrite table_allowed_iff.
      now destruct (Py.mem _ validator_extensions).
    - destruct f; [reflexivity|discriminate]. }
  split; [exact Hmain|]. split.
  - intro Hflac. rewrite Hmain, Hflac. split; [|reflexivity].
    apply orb_false_r.
  - unfold Py.mem, transcription_service.allowed_extensions.
    cbn [existsb]. intro H.
    repeat (apply orb_prop in H as [H|H]; [rewrite H; rewrite ?orb_true_r; reflexivity|]).
    discriminate.
Qed.

Lemma validate_audio_type_by_extension_witness :
  validate_audio_type (Some "application/octet-stream") (Some "take.FLAC")
  = false.
Proof.
  destruct (validate_audio_type_by_extension (Some "application/octet-stream")
              "take.FLAC") as (_ & H & _).
  destruct (H eq_refl) as [-> _]. reflexivity.
Defined.

(** ** The webhook and the response *)

Lemma obtain_transcription_same (env1 env2 : Env) (audio : option UploadFile)
    (request_data : option TranscriptionRequest) (authenticated_key : dict)
    (st : State) :
  same_but_webhook env1 env2 ->
  obtain_transcription env1 audio request_data authenticated_key st
  = obtain_transcription env2 audio request_data authenticated_key st.
Proof.
  intros (Hm & Hd & Hn).
  assert (Ho : forall p c, engine_outcome env1 p c = engine_outcome env2 p c).
  { intros. unfold engine_outcome. now rewrite Hm. }
  assert (He : forall p, engine_events env1 p = engine_events env2 p).
  { intros. unfold engine_events. now rewrite Hm. }
  assert (Hu : forall f, upload_path env1 f = upload_path env2 f).
  { intros. unfold upload_path. now rewrite Hd, Hn. }
  assert (Hb : base64_path env1 = base64_path env2).
  { unfold base64_path. now rewrite Hd, Hn. }
  assert (Hf : forall s, temp_fault env1 s = temp_fault env2 s).
  { intros. unfold temp_fault. now rewrite Hd, Hn. }
  rewrite !obtain_transcription_cases.
  destruct (upload_of audio) as [[a f]|].
  - rewrite !handle_upload_cases. now rewrite Ho, He, Hu, Hf.
  - destruct (base64_of request_data) as [b|]; [|reflexivity].
    rewrite !transcribe_base64_audio_cases. rewrite Hb.
    destruct (base64.b64decode b) as [bytes|e]; [|reflexivity].
    now rewrite Ho, He.
Qed.

(** What the client gets does not depend on the webhook.  Run in two
    worlds that differ only in the endpoint and in the number of attempts
    allowed, the handler raises the same exception in both, or returns in
    both a response that differs at most in [webhook_delivered]; and it
    leaves the same files. *)
Theorem webhook_never_changes_outcome (env1 env2 : Env)
    (audio : option UploadFile) (api_key_file : option string)
    (request_data : option TranscriptionRequest) (authenticated_key : dict)
    (st : State) :
  same_but_webhook env1 env2 ->
  files (snd (transcribe_audio env1 audio api_key_file request_data
                               authenticated_key st))
  = files (snd (transcribe_audio env2 audio api_key_file request_data
                                 authenticated_key st))
  /\ match
       fst (transcribe_audio env1 audio api_key_file request_data
                             authenticated_key st),
       fst (transcribe_audio env2 audio api_key_file request_data
                             authenticated_key st)
     with
     | Ok resp1, Ok resp2 =>
         filter (fun kv => negb (String.eqb (fst kv) "webhook_delivered")) resp1
         = filter (fun kv => negb (String.eqb (fst kv) "webhook_delivered")) resp2
     | Raised e1, Raised e2 => e1 = e2
     | _, _ => False
     end.
Proof.
  intro Hsame. rewrite !transcribe_audio_cases.
  rewrite (obtain_transcription_same env1 env2 _ _ _ _ Hsame).
  destruct (obtain_transcription env2 audio request_data authenticated_key st)
    as [[[[text language] duration]|e] st1].
  - rewrite !deliver_and_respond_cases.
    destruct (int_duration duration) as [n|e].
    + split; reflexivity.
    + rewrite !on_exception_cases. destruct e; split; reflexivity.
  - rewrite !on_exception_cases. destruct e; split; reflexivity.
Qed.

Lemma webhook_never_changes_outcome_witness :
  match
    fst (transcribe_audio (Sample.world Sample.hears Sample.accepts)
           (Some Sample.upload) None None Sample.credential initial),
    fst (transcribe_audio (Sample.world Sample.hears Sample.down)
           (Some Sample.upload) None None Sample.credential initial)
  with
  | Ok resp1, Ok resp2 =>
      filter (fun kv => negb (String.eqb (fst kv) "webhook_delivered")) resp1
      = filter (fun kv => negb (String.eqb (fst kv) "webhook_delivered")) resp2
  | Raised e1, Raised e2 => e1 = e2
  | _, _ => False
  end.
Proof.
  apply (webhook_never_changes_outcome
           (Sample.world Sample.hears Sample.accepts)
           (Sample.world Sample.hears Sample.down)
           (Some Sample.upload) None None Sample.credential initial).
  repeat split.
Defined.

(** An error notification is one POST and no more: it never raises,
    never sleeps and never tries again, whatever the endpoint answers and
    however many attempts are configured; it returns true exactly when the
    answer is 200, 201 or 202. *)
Theorem send_error_notification_single_shot (env : Env)
    (error_message : string) (api_key_name : value)
    (original_filename : option string) (st : State) :
  exists delivered evs,
    webhook_service.send_error_notification env error_message api_key_name
                                            original_filename st
    = (Ok delivered, {| files := files st; log := log st ++ evs |})
    /\ evs = [EvPost (ErrorPayload error_message api_key_name original_filename)]
    /\ count_posts evs = 1%nat
    /\ sleeps evs = []
    /\ delivered
       = match webhook env (count_posts (log st)) with
         | Response status_code =>
             ((status_code =? 200) || (status_code =? 201)
              || (status_code =? 202))%Z
         | Fails _ => false
         end.
Proof.
  rewrite send_error_notification_run. eexists. eexists.
  repeat split.
Qed.

(** A duration that is not a number stops the handler after the delivery
    of the result has been tried: when the transcription comes with a NaN
    or an infinite duration, the handler first calls the webhook client
    with the result (a call that fails where the client refuses to encode
    such a duration), then fails on the integer part of the duration, sends
    an error notification and answers 500. *)
Theorem unconvertible_duration_is_500 (env : Env) (audio : option UploadFile)
    (api_key_file : option string) (request_data : option TranscriptionRequest)
    (authenticated_key : dict) (st st1 : State) (text language : string)
    (duration : float) :
  obtain_transcription env audio request_data authenticated_key st
  = (Ok (text, language, duration), st1) ->
  duration = S754_nan \/ (exists s, duration = S754_infinity s) ->
  exists evs message,
    transcribe_audio env audio api_key_file request_data authenticated_key st
    = (Raised (HTTPException 500 "Internal server error during transcription"),
       {| files := files st1;
          log := log st1 ++ evs
                 ++ [EvPost (ErrorPayload
                               ("Internal server error: " ++ message)
                               (key_name authenticated_key)
                               (original_filename_of audio))] |})
    /\ (message = "cannot convert float NaN to integer"
        \/ message = "cannot convert float infinity to integer")
    /\ ((0 < WEBHOOK_RETRIES env)%Z ->
        hd_error evs
        = Some (EvPost (TranscriptionPayload text language duration
                          (key_name authenticated_key)
                          (original_filename_of audio) (audio_size_of audio)))).
Proof.
  intros Ho Hd. rewrite transcribe_audio_cases, Ho, deliver_and_respond_cases.
  set (payload := TranscriptionPayload text language duration
                    (key_name authenticated_key) (original_filename_of audio)
                    (audio_size_of audio)).
  assert (Hhd : (0 < WEBHOOK_RETRIES env)%Z ->
                hd_error (snd (attempts_trace env payload
                                 (webhook_service.range (WEBHOOK_RETRIES env))
                                 (count_posts (log st1))))
                = Some (EvPost payload)).
  { intro Hpos. unfold webhook_service.range.
    destruct (Z.to_nat (WEBHOOK_RETRIES env)) as [|n] eqn:E; [lia|].
    cbn [seq attempts_trace].
    destruct (attempt_succeeds _); [reflexivity|].
    now destruct (attempts_trace env payload (seq 1 n) _). }
  destruct Hd as [-> | [s ->]]; cbn [int_duration float_truthy int_of_float];
    rewrite on_exception_cases; cbn [files log str_exn];
    eexists; eexists; (split; [rewrite <- app_assoc; reflexivity|]);
    (split; [|exact Hhd]); [left|right]; reflexivity.
Qed.

(** The theorem where the client refuses to encode the result: three
    calls fail, with pauses of one and two seconds, and the fourth call is
    the error notification. *)
Lemma unconvertible_duration_is_500_witness :
  fst (transcribe_audio (Sample.world Sample.hears_nan Sample.refuses_three)
         (Some Sample.upload) None None Sample.credential initial)
  = Raised (HTTPException 500 "Internal server error during transcription")
  /\ count_posts
       (log (snd (transcribe_audio
                    (Sample.world Sample.hears_nan Sample.refuses_three)
                    (Some Sample.upload) None None Sample.credential initial)))
     = 4%nat
  /\ sleeps
       (log (snd (transcribe_audio
                    (Sample.world Sample.hears_nan Sample.refuses_three)
                    (Some Sample.upload) None None Sample.credential initial)))
     = [1; 2]%Z.
Proof.
  destruct (obtain_transcription
              (Sample.world Sample.hears_nan Sample.refuses_three)
              (Some Sample.upload) None Sample.credential initial)
    as [r st1] eqn:Ho.
  assert (Hr : r = Ok ("ola", "pt", S754_nan)).
  { apply (f_equal fst) in Ho. vm_compute in Ho. now subst r. }
  subst r.
  destruct (unconvertible_duration_is_500
              (Sample.world Sample.hears_nan Sample.refuses_three)
              (Some Sample.upload) None None Sample.credential initial st1
              "ola" "pt" S754_nan Ho (or_introl eq_refl))
    as (evs & message & Hrun & _ & _).
  split; [now rewrite Hrun|split; reflexivity].
Defined.

(** ** The transcription *)

(** What [transcribe_audio_file] makes of a result of the engine: the
    text stripped, the language of the result or "pt", and as duration the
    end of the last segment, 0.0 when the result has no segments, an empty
    list of them, or a last segment without an end. *)
Theorem transcribe_audio_file_result (env : Env)
    (model : string -> option Blob -> Result WhisperResult)
    (path : string) (st : State) (result : WhisperResult) :
  whisper_model env = Some model ->
  model path (file_lookup (files st) path) = Ok result ->
  exists duration,
    transcription_service.transcribe_audio_file env path st
    = (Ok (Py.strip (res_text result),
           match res_language result with Some l => l | None => "pt" end,
           duration),
       {| files := files st; log := log st ++ [EvTranscribe path] |})
    /\ (res_segments result = None \/ res_segments result = Some [] ->
        duration = S754_zero false)
    /\ (forall earlier last_segment,
           res_segments result = Some (earlier ++ [last_segment])%list ->
           duration = match seg_end last_segment with
                      | Some t => t
                      | None => S754_zero false
                      end).
Proof.
  intros Hm Hr. exists (transcription_service.duration_of result).
  split; [|split].
  - unfold transcription_service.transcribe_audio_file. rewrite Hm.
    unfold_m. cbn [files log]. now rewrite Hr.
  - unfold transcription_service.duration_of. intros [-> | ->]; reflexivity.
  - intros earlier last_segment H.
    unfold transcription_service.duration_of. rewrite H.
    destruct earlier as [|s0 earlier]; [reflexivity|].
    cbn [app]. now rewrite last_last.
Qed.

Lemma transcribe_audio_file_result_witness :
  fst (transcription_service.transcribe_audio_file
         (Sample.world Sample.hears Sample.accepts) "/tmp/a.mp3" initial)
  = Ok ("ola mundo", "pt", S754_finite false 5 (-1)).
Proof.
  destruct (transcribe_audio_file_result
              (Sample.world Sample.hears Sample.accepts) Sample.hears
              "/tmp/a.mp3" initial _ eq_refl eq_refl)
    as (duration & Hrun & _ & Hlast).
  rewrite Hrun. cbn [fst].
  rewrite (Hlast [ {| seg_end := Some (S754_finite false 1 0) |} ]
                 {| seg_end := Some (S754_finite false 5 (-1)) |} eq_refl).
  reflexivity.
Defined.

(** An upload that passes the three checks succeeds whatever the webhook
    does, when the engine returns a result whose duration has an integer
    part: the response carries the stripped text, the language and the
    duration of the engine; the file is saved under the extension of its
    name, handed to the engine and removed; then the result is delivered. *)
Theorem accepted_upload_succeeds (env : Env) (audio : option UploadFile)
    (a : UploadFile) (f : string) (api_key_file : option string)
    (request_data : option TranscriptionRequest) (authenticated_key : dict)
    (st : State) (model : string -> option Blob -> Result WhisperResult)
    (result : WhisperResult) (n : Z) :
  upload_of audio = Some (a, f) ->
  validate_audio_type (content_type a) (Some f) = true ->
  too_large a = false ->
  saved_file_valid a f = true ->
  whisper_model env = Some model ->
  model (upload_path env f) (Some (content a)) = Ok result ->
  int_duration (transcription_service.duration_of result) = Ok n ->
  exists delivered evs,
    transcribe_audio env audio api_key_file request_data authenticated_key st
    = (Ok [("message", JStr "Transcription completed");
           ("status", JStr "success");
           ("text", JStr (Py.strip (res_text result)));
           ("language",
            JStr match res_language result with Some l => l | None => "pt" end);
           ("duration", JFloat (transcription_service.duration_of result));
           ("webhook_delivered", JBool delivered);
           ("transcription_id", JStr (transcription_id authenticated_key n))],
       {| files := file_remove (files st) (upload_path env f);
          log := log st
                 ++ [EvValidateAudioType (content_type a) (Some f);
                     EvTempFile (upload_path env f);
                     EvTranscribe (upload_path env f);
                     EvUnlink (upload_path env f)]
                 ++ evs |})
    /\ forallb (fun e => is_post e || is_sleep e) evs = true.
Proof.
  intros Hu Hv Hsz Hok Hm Hr Hn.
  assert (Hfit : temp_fault env (snd (Py.splitext f)) = None).
  { apply temp_fault_fits, allowed_extension_fits.
    unfold saved_file_valid in Hok. now apply andb_prop in Hok as [_ Hext]. }
  rewrite transcribe_audio_cases, obtain_transcription_cases, Hu,
    handle_upload_cases, Hv, Hsz, Hfit, Hok.
  cbn [negb]. unfold engine_outcome, engine_events. rewrite Hm, Hr.
  rewrite deliver_and_respond_cases, Hn. cbn [files log].
  eexists. eexists. split.
  - unfold response. rewrite <- !app_assoc. reflexivity.
  - apply attempts_trace_events.
Qed.

Lemma accepted_upload_succeeds_witness :
  exists delivered,
    fst (transcribe_audio (Sample.world Sample.hears Sample.down)
           (Some Sample.upload) None None Sample.credential initial)
    = Ok [("message", JStr "Transcription completed");
          ("status", JStr "success");
          ("text", JStr "ola mundo");
          ("language", JStr "pt");
          ("duration", JFloat (S754_finite false 5 (-1)));
          ("webhook_delivered", JBool delivered);
          ("transcription_id", JStr "trans_65a1f0c2e4b0a1b2c3d4e5f6_2")].
Proof.
  destruct (accepted_upload_succeeds (Sample.world Sample.hears Sample.down)
              (Some Sample.upload) Sample.upload "sample.mp3" None None
              Sample.credential initial Sample.hears _ 2%Z
              eq_refl eq_refl eq_refl eq_refl eq_refl eq_refl eq_refl)
    as (delivered & evs & Hrun & _).
  exists delivered. rewrite Hrun. reflexivity.
Defined.

(** The base64 branch checks neither type nor size: whatever text
    [b64decode] accepts, of whatever length, is saved under a name ending in
    .wav and handed to the engine without the type validator having run, and
    when the engine returns a result whose duration has an integer part the
    request succeeds with it. *)
Theorem base64_is_transcribed_unchecked (env : Env)
    (audio : option UploadFile) (api_key_file : option string)
    (request_data : option TranscriptionRequest) (authenticated_key : dict)
    (st : State) (b : string) (bytes : list Byte.byte)
    (model : string -> option Blob -> Result WhisperResult)
    (result : WhisperResult) (n : Z) :
  upload_of audio = None ->
  base64_of request_data = Some b ->
  base64.b64decode b = Ok bytes ->
  whisper_model env = Some model ->
  model (base64_path env) (Some (blob_of_bytes bytes)) = Ok result ->
  int_duration (transcription_service.duration_of result) = Ok n ->
  exists delivered evs,
    transcribe_audio env audio api_key_file request_data authenticated_key st
    = (Ok [("message", JStr "Transcription completed");
           ("status", JStr "success");
           ("text", JStr (Py.strip (res_text result)));
           ("language",
            JStr match res_language result with Some l => l | None => "pt" end);
           ("duration", JFloat (transcription_service.duration_of result));
           ("webhook_delivered", JBool delivered);
           ("transcription_id", JStr (transcription_id authenticated_key n))],
       {| files := file_remove (files st) (base64_path env);
          log := log st
                 ++ [EvTempFile (base64_path env);
                     EvTranscribe (base64_path env);
                     EvUnlink (base64_path env)]
                 ++ evs |})
    /\ forallb (fun e => is_post e || is_sleep e) evs = true
    /\ snd (Py.splitext (base64_path env)) = ".wav".
Proof.
  intros Hu Hb Hdec Hm Hr Hn.
  rewrite transcribe_audio_cases, obtain_transcription_cases, Hu, Hb,
    transcribe_base64_audio_cases, Hdec.
  unfold engine_outcome, engine_events. rewrite Hm, Hr.
  rewrite deliver_and_respond_cases, Hn. cbn [files log].
  eexists. eexists. split; [|split].
  - unfold response. rewrite <- !app_assoc. reflexivity.
  - apply attempts_trace_events.
  - exact (splitext_tmp (tmpdir env) (tmpname env) "x.wav").
Qed.

Lemma base64_is_transcribed_unchecked_witness :
  exists delivered,
    fst (transcribe_audio (Sample.world Sample.hears Sample.accepts)
           None None (Some (Sample.base64_request "data:audio/mp3;base64,dummy"))
           Sample.credential initial)
    = Ok [("message", JStr "Transcription completed");
          ("status", JStr "success");
          ("text", JStr "ola mundo");
          ("language", JStr "pt");
          ("duration", JFloat (S754_finite false 5 (-1)));
          ("webhook_delivered", JBool delivered);
          ("transcription_id", JStr "trans_65a1f0c2e4b0a1b2c3d4e5f6_2")].
Proof.
  destruct (base64_is_transcribed_unchecked
              (Sample.world Sample.hears Sample.accepts) None None
              (Some (Sample.base64_request "data:audio/mp3;base64,dummy"))
              Sample.credential initial "data:audio/mp3;base64,dummy" _
              Sample.hears _ 2%Z
              eq_refl eq_refl eq_refl eq_refl eq_refl eq_refl)
    as (delivered & evs & Hrun & _).
  exists delivered. rewrite Hrun. reflexivity.
Defined.

(** With no attempt allowed nothing is sent: when [WEBHOOK_RETRIES] is
    zero or negative the delivery of a result posts nothing, sleeps not at
    all and returns false, so every response the handler then returns says
    that the webhook was not delivered. *)
Theorem no_retries_no_delivery (env : Env) (audio : option UploadFile)
    (api_key_file : option string) (request_data : option TranscriptionRequest)
    (authenticated_key : dict) (st : State) :
  (WEBHOOK_RETRIES env <= 0)%Z ->
  (forall text language duration api_key_name original_filename audio_size st0,
      webhook_service.send_transcription_result env text language duration
        api_key_name original_filename audio_size st0
      = (Ok false, st0))
  /\ (forall resp st',
         transcribe_audio env audio api_key_file request_data
                          authenticated_key st = (Ok resp, st') ->
         In ("webhook_delivered", JBool false) resp
         /\ st' = snd (obtain_transcription env audio request_data
                                            authenticated_key st)).
Proof.
  intro Hle.
  assert (Hrange : webhook_service.range (WEBHOOK_RETRIES env) = []).
  { unfold webhook_service.range.
    replace (Z.to_nat (WEBHOOK_RETRIES env)) with 0%nat by lia. reflexivity. }
  split.
  - intros. unfold webhook_service.send_transcription_result.
    rewrite send_loop_trace, Hrange. cbn [attempts_trace fst snd].
    now rewrite app_nil_r, state_eta.
  - intros resp st'. rewrite transcribe_audio_cases.
    destruct (obtain_transcription env audio request_data authenticated_key st)
      as [[[[text language] duration]|e] st1].
    + rewrite deliver_and_respond_cases, Hrange.
      cbn [attempts_trace fst snd]. rewrite app_nil_r, state_eta.
      destruct (int_duration duration) as [n|e].
      * intro H. injection H as <- <-. split; [|reflexivity].
        unfold response. cbn. auto 10.
      * rewrite on_exception_cases. destruct e; discriminate.
    + rewrite on_exception_cases. destruct e; discriminate.
Qed.

Lemma no_retries_no_delivery_witness :
  webhook_service.send_transcription_result
    {| WEBHOOK_RETRIES := -1; webhook := Sample.accepts;
       whisper_model := Some Sample.hears; tmpdir := "/tmp";
       tmpname := [1; 2; 3] |}
    "ola" "pt" (S754_zero false) (VStr "alpha") None None initial
  = (Ok false, initial).
Proof.
  apply (no_retries_no_delivery
           {| WEBHOOK_RETRIES := -1; webhook := Sample.accepts;
              whisper_model := Some Sample.hears; tmpdir := "/tmp";
              tmpname := [1; 2; 3] |}
           None None None Sample.credential initial).
  cbn. lia.
Defined.
